(** * PsychroLib (Python, version 2.0.0): a shallow embedding and its properties

    The library is one flat Python module of functions over [float]s and
    two module-level variables, [__UNITS] and [__TOL].

    Modelling decisions.
    - A Python [float] is a real number ([R]): rounding, infinities and NaN
      are abstracted away; every property below is a property of the
      control flow, of the guards and of the exact arithmetic of the
      formulas.
    - The two globals are the record [Config], threaded explicitly through
      every function that reads them.
    - A Python exception is a value of [exn]; a call yields a [result]:
      [Ok v], [Raise e], or [OutOfFuel] when one of the two [while] loops
      has not finished within the allotted number of iterations.
    - Float division raises [ZeroDivisionError] on a zero divisor and
      [math.log] raises [ValueError] outside its domain; both are modelled
      ([py_div], [math_log]).
    - [math.exp] and [math.pow] raise [OverflowError] when their result
      exceeds the largest float and return zero when it is below half the
      smallest positive one; both are modelled ([math_exp], [math_pow])
      where the argument is not confined by a guard.  The properties stated
      about the standard-atmosphere functions keep their inputs away from
      the points where rounding could decide the outcome. *)

From Stdlib Require Import Reals Lra Lia String List.
Import ListNotations.

Open Scope R_scope.

(** ** Exceptions and results *)

Inductive exn : Type :=
| ValueError (msg : string)
| ZeroDivisionError
| OverflowError (msg : string).

Inductive result (A : Type) : Type :=
| Ok (a : A)
| Raise (e : exn)
| OutOfFuel.

Arguments Ok {A} a.
Arguments Raise {A} e.
Arguments OutOfFuel {A}.

Definition bind {A B : Type} (m : result A) (k : A -> result B) : result B :=
  match m with
  | Ok a => k a
  | Raise e => Raise e
  | OutOfFuel => OutOfFuel
  end.

Notation "x <- m ;; k" := (bind m (fun x => k))
  (at level 61, m at next level, right associativity).

(** [if c: raise ValueError(msg)] followed by the rest of the body. *)
Definition reject_if {A : Type} (c : bool) (msg : string) (k : result A) : result A :=
  if c then Raise (ValueError msg) else k.

(** ** Float primitives *)

Definition Rltb (x y : R) : bool := if Rlt_dec x y then true else false.
Definition Rleb (x y : R) : bool := if Rle_dec x y then true else false.

Infix "<?" := Rltb (at level 70, no associativity) : R_scope.
Infix "<=?" := Rleb (at level 70, no associativity) : R_scope.
Notation "x >? y" := (Rltb y x) (at level 70, no associativity) : R_scope.
Notation "x >=? y" := (Rleb y x) (at level 70, no associativity) : R_scope.

(** [a / b] on floats. *)
Definition py_div (a b : R) : result R :=
  if Req_dec_T b 0 then Raise ZeroDivisionError else Ok (a / b).

(** [math.log]. *)
Definition math_log (x : R) : result R :=
  if 0 <? x then Ok (ln x) else Raise (ValueError "math domain error").

(** The range of the floats: [DBL_MAX] is the largest finite one and
    [DBL_TRUE_MIN] the smallest positive one.  A result of [math.exp] or
    [math.pow] above [DBL_MAX] raises [OverflowError]; a result below half
    of [DBL_TRUE_MIN] is returned as zero.  Rounding inside the range is not
    modelled. *)
Definition DBL_MAX : R := (2 - / 2 ^ 52) * 2 ^ 1023.
Definition DBL_TRUE_MIN : R := / 2 ^ 1074.

Definition math_range (y : R) : result R :=
  if y >? DBL_MAX then Raise (OverflowError "math range error")
  else if y <? DBL_TRUE_MIN / 2 then Ok 0
  else Ok y.

(** [math.exp].  [GetSatVapPres] calls it on an argument that its range
    check confines to about [-15, 15]; there the exponential is written
    [exp] directly. *)
Definition math_exp (x : R) : result R := math_range (exp x).

(** [math.pow(x, y)] for a non-integral exponent [y > 0]. *)
Definition math_pow (x y : R) : result R :=
  if 0 <? x then math_range (Rpower x y)
  else if Req_dec_T x 0 then Ok 0
  else Raise (ValueError "math domain error").

(** The builtins [max(a, b)] and [min(a, b)]: the first argument is kept
    unless the second is strictly larger (smaller). *)
Definition py_max (a b : R) : R := if a <? b then b else a.
Definition py_min (a b : R) : R := if b <? a then b else a.

(** ** Global constants *)

Definition R_DA_IP : R := 53.350.
Definition R_DA_SI : R := 287.042.

(** ** Configuration state *)

Inductive UnitSystem : Type := IP | SI.

(** The globals [__UNITS] (initially [None]) and [__TOL] (initially [1.0]). *)
Record Config : Type := mkConfig {
  __UNITS : option UnitSystem;
  __TOL : R
}.

Definition initial_config : Config := {| __UNITS := None; __TOL := 1.0 |}.

(** An argument of [SetUnitSystem]: Python does not type-check it, the
    function does with [isinstance]. *)
Inductive pyarg : Type :=
| AUnitSystem (u : UnitSystem)
| AOther.

Definition SetUnitSystem (Units : pyarg) (cfg : Config) : result Config :=
  match Units with
  | AOther => Raise (ValueError "The system of units has to be either SI or IP.")
  | AUnitSystem u =>
      Ok {| __UNITS := Some u;
            __TOL := match u with IP => 0.001 * 9 / 5 | SI => 0.001 end |}
  end.

Definition GetUnitSystem (cfg : Config) : result (option UnitSystem) :=
  Ok (__UNITS cfg).

Definition units_undefined : string := "The system of units has not been defined.".

Definition isIP (cfg : Config) : result bool :=
  match __UNITS cfg with
  | Some IP => Ok true
  | Some SI => Ok false
  | None => Raise (ValueError units_undefined)
  end.

(** ** Temperature conversions *)

Definition GetTRankineFromTFahrenheit (TFahrenheit : R) : R :=
  let ZERO_FAHRENHEIT_AS_RANKINE := 459.67 in
  TFahrenheit + ZERO_FAHRENHEIT_AS_RANKINE.

Definition GetTKelvinFromTCelsius (TCelsius : R) : R :=
  let ZERO_CELSIUS_AS_KELVIN := 273.15 in
  TCelsius + ZERO_CELSIUS_AS_KELVIN.

(** ** Saturation vapor pressure *)

Definition GetSatVapPres (cfg : Config) (TDryBulb : R) : result R :=
  ip <- isIP cfg ;;
  LnPws <-
    (if ip then
       reject_if ((TDryBulb <? -148) || (TDryBulb >? 392))
         "Dry bulb temperature must be in range [-148, 392]°F"
         (let T := GetTRankineFromTFahrenheit TDryBulb in
          if TDryBulb <=? 32 then
            q <- py_div (-1.0214165E+04) T ;;
            l <- math_log T ;;
            Ok (q - 4.8932428 - 5.3765794E-03 * T + 1.9202377E-07 * T ^ 2
                + 3.5575832E-10 * T ^ 3 - 9.0344688E-14 * T ^ 4 + 4.1635019 * l)
          else
            q <- py_div (-1.0440397E+04) T ;;
            l <- math_log T ;;
            Ok (q - 1.1294650E+01 - 2.7022355E-02 * T + 1.2890360E-05 * T ^ 2
                - 2.4780681E-09 * T ^ 3 + 6.5459673 * l))
     else
       reject_if ((TDryBulb <? -100) || (TDryBulb >? 200))
         "Dry bulb temperature must be in range [-100, 200]°C"
         (let T := GetTKelvinFromTCelsius TDryBulb in
          if TDryBulb <=? 0 then
            q <- py_div (-5.6745359E+03) T ;;
            l <- math_log T ;;
            Ok (q + 6.3925247 - 9.677843E-03 * T + 6.2215701E-07 * T ^ 2
                + 2.0747825E-09 * T ^ 3 - 9.484024E-13 * T ^ 4 + 4.1635019 * l)
          else
            q <- py_div (-5.8002206E+03) T ;;
            l <- math_log T ;;
            Ok (q + 1.3914993 - 4.8640239E-02 * T + 4.1764768E-05 * T ^ 2
                - 1.4452093E-08 * T ^ 3 + 6.5459673 * l))) ;;
  Ok (exp LnPws).

(** ** Conversions between humidity ratio and vapor pressure *)

Definition GetHumRatioFromVapPres (VapPres Pressure : R) : result R :=
  reject_if (VapPres <? 0)
    "Partial pressure of water vapor in moist air cannot be negative"
    (py_div (0.621945 * VapPres) (Pressure - VapPres)).

Definition GetVapPresFromHumRatio (HumRatio Pressure : R) : result R :=
  reject_if (HumRatio <? 0) "Humidity ratio is negative"
    (py_div (Pressure * HumRatio) (0.621945 + HumRatio)).

(** ** Saturated air *)

Definition GetSatHumRatio (cfg : Config) (TDryBulb Pressure : R) : result R :=
  SatVaporPres <- GetSatVapPres cfg TDryBulb ;;
  py_div (0.621945 * SatVaporPres) (Pressure - SatVaporPres).

(** ** Conversions between dew point, or relative humidity and vapor pressure *)

Definition GetVapPresFromRelHum (cfg : Config) (TDryBulb RelHum : R) : result R :=
  reject_if ((RelHum <? 0) || (RelHum >? 1))
    "Relative humidity is outside range [0, 1]"
    (SatVapPres <- GetSatVapPres cfg TDryBulb ;;
     Ok (RelHum * SatVapPres)).

Definition GetRelHumFromVapPres (cfg : Config) (TDryBulb VapPres : R) : result R :=
  reject_if (VapPres <? 0)
    "Partial pressure of water vapor in moist air cannot be negative"
    (SatVapPres <- GetSatVapPres cfg TDryBulb ;;
     py_div VapPres SatVapPres).

(** The locals [_BOUNDS] and [_STEPSIZE] of [GetTDewPointFromVapPres]. *)
Definition _BOUNDS (ip : bool) : R * R :=
  if ip then (-148, 392) else (-100, 200).

Definition _STEPSIZE (ip : bool) : R :=
  if ip then 0.01 * 9 / 5 else 0.01.

Definition vappres_out_of_range : string :=
  "Partial pressure of water vapor is outside range of validity of equations".

(** One pass through the body of the [while True] loop, up to and
    including the two clamps: from [TDewPoint_iter] to the new [TDewPoint]. *)
Definition NR_step (cfg : Config) (ip : bool) (lnVP TDewPoint_iter : R) : result R :=
  let TMidPoint := (fst (_BOUNDS ip) + snd (_BOUNDS ip)) / 2 in
  let StepSize :=
    if TDewPoint_iter >? TMidPoint then - _STEPSIZE ip else _STEPSIZE ip in
  p <- GetSatVapPres cfg TDewPoint_iter ;;
  lnVP_iter <- math_log p ;;
  p' <- GetSatVapPres cfg (TDewPoint_iter + StepSize) ;;
  lnVP' <- math_log p' ;;
  d_lnVP <- py_div (lnVP' - lnVP_iter) StepSize ;;
  q <- py_div (lnVP_iter - lnVP) d_lnVP ;;
  let TDewPoint := TDewPoint_iter - q in
  let TDewPoint := py_max TDewPoint (fst (_BOUNDS ip)) in
  let TDewPoint := py_min TDewPoint (snd (_BOUNDS ip)) in
  Ok TDewPoint.

(** The [while True] loop: it leaves when two consecutive estimates are
    within [__TOL] of each other; [fuel] caps the number of passes. *)
Fixpoint NR_loop (fuel : nat) (cfg : Config) (ip : bool) (lnVP TDewPoint : R)
  : result R :=
  match fuel with
  | O => OutOfFuel
  | S fuel' =>
      let TDewPoint_iter := TDewPoint in
      TDewPoint <- NR_step cfg ip lnVP TDewPoint_iter ;;
      if Rabs (TDewPoint - TDewPoint_iter) <=? __TOL cfg then Ok TDewPoint
      else NR_loop fuel' cfg ip lnVP TDewPoint
  end.

Definition GetTDewPointFromVapPres (fuel : nat) (cfg : Config)
  (TDryBulb VapPres : R) : result R :=
  ip <- isIP cfg ;;
  plo <- GetSatVapPres cfg (fst (_BOUNDS ip)) ;;
  if VapPres <? plo then Raise (ValueError vappres_out_of_range)
  else
    phi <- GetSatVapPres cfg (snd (_BOUNDS ip)) ;;
    if VapPres >? phi then Raise (ValueError vappres_out_of_range)
    else
      let TDewPoint := TDryBulb in
      lnVP <- math_log VapPres ;;
      TDewPoint <- NR_loop fuel cfg ip lnVP TDewPoint ;;
      Ok (py_min TDewPoint TDryBulb).

Definition GetVapPresFromTDewPoint (cfg : Config) (TDewPoint : R) : result R :=
  GetSatVapPres cfg TDewPoint.

(** ** Conversions from wet-bulb temperature, dew-point temperature, or
       relative humidity to humidity ratio *)

Definition GetTDewPointFromHumRatio (fuel : nat) (cfg : Config)
  (TDryBulb HumRatio Pressure : R) : result R :=
  reject_if (HumRatio <? 0) "Humidity ratio cannot be negative"
    (VapPres <- GetVapPresFromHumRatio HumRatio Pressure ;;
     GetTDewPointFromVapPres fuel cfg TDryBulb VapPres).

Definition GetHumRatioFromTWetBulb (cfg : Config)
  (TDryBulb TWetBulb Pressure : R) : result R :=
  reject_if (TWetBulb >? TDryBulb)
    "Wet bulb temperature is above dry bulb temperature"
    (Wsstar <- GetSatHumRatio cfg TWetBulb Pressure ;;
     ip <- isIP cfg ;;
     if ip then
       if TWetBulb >=? 32 then
         py_div ((1093 - 0.556 * TWetBulb) * Wsstar - 0.240 * (TDryBulb - TWetBulb))
                (1093 + 0.444 * TDryBulb - TWetBulb)
       else
         py_div ((1220 - 0.04 * TWetBulb) * Wsstar - 0.240 * (TDryBulb - TWetBulb))
                (1220 + 0.444 * TDryBulb - 0.48 * TWetBulb)
     else
       if TWetBulb >=? 0 then
         py_div ((2501 - 2.326 * TWetBulb) * Wsstar - 1.006 * (TDryBulb - TWetBulb))
                (2501 + 1.86 * TDryBulb - 4.186 * TWetBulb)
       else
         py_div ((2830 - 0.24 * TWetBulb) * Wsstar - 1.006 * (TDryBulb - TWetBulb))
                (2830 + 1.86 * TDryBulb - 2.1 * TWetBulb)).

(** The bisection loop of [GetTWetBulbFromHumRatio] with its three loop
    variables; [fuel] caps the number of passes through the body. *)
Fixpoint bisection_loop (fuel : nat) (cfg : Config) (TDryBulb HumRatio Pressure : R)
  (TWetBulbSup TWetBulbInf TWetBulb : R) : result R :=
  if TWetBulbSup - TWetBulbInf >? __TOL cfg then
    match fuel with
    | O => OutOfFuel
    | S fuel' =>
        Wstar <- GetHumRatioFromTWetBulb cfg TDryBulb TWetBulb Pressure ;;
        let '(TWetBulbSup, TWetBulbInf) :=
          if Wstar >? HumRatio then (TWetBulb, TWetBulbInf)
          else (TWetBulbSup, TWetBulb) in
        let TWetBulb := (TWetBulbSup + TWetBulbInf) / 2 in
        bisection_loop fuel' cfg TDryBulb HumRatio Pressure
          TWetBulbSup TWetBulbInf TWetBulb
    end
  else Ok TWetBulb.

Definition GetTWetBulbFromHumRatio (fuel : nat) (cfg : Config)
  (TDryBulb HumRatio Pressure : R) : result R :=
  reject_if (HumRatio <? 0) "Humidity ratio cannot be negative"
    (TDewPoint <- GetTDewPointFromHumRatio fuel cfg TDryBulb HumRatio Pressure ;;
     let TWetBulbSup := TDryBulb in
     let TWetBulbInf := TDewPoint in
     let TWetBulb := (TWetBulbInf + TWetBulbSup) / 2 in
     bisection_loop fuel cfg TDryBulb HumRatio Pressure
       TWetBulbSup TWetBulbInf TWetBulb).

Definition GetHumRatioFromRelHum (cfg : Config)
  (TDryBulb RelHum Pressure : R) : result R :=
  reject_if ((RelHum <? 0) || (RelHum >? 1))
    "Relative humidity is outside range [0, 1]"
    (VapPres <- GetVapPresFromRelHum cfg TDryBulb RelHum ;;
     GetHumRatioFromVapPres VapPres Pressure).

Definition GetRelHumFromHumRatio (cfg : Config)
  (TDryBulb HumRatio Pressure : R) : result R :=
  reject_if (HumRatio <? 0) "Humidity ratio cannot be negative"
    (VapPres <- GetVapPresFromHumRatio HumRatio Pressure ;;
     GetRelHumFromVapPres cfg TDryBulb VapPres).

Definition GetHumRatioFromTDewPoint (cfg : Config) (TDewPoint Pressure : R)
  : result R :=
  VapPres <- GetSatVapPres cfg TDewPoint ;;
  GetHumRatioFromVapPres VapPres Pressure.

(** ** Conversions between dew point, wet bulb, and relative humidity *)

Definition GetTWetBulbFromTDewPoint (fuel : nat) (cfg : Config)
  (TDryBulb TDewPoint Pressure : R) : result R :=
  reject_if (TDewPoint >? TDryBulb)
    "Dew point temperature is above dry bulb temperature"
    (HumRatio <- GetHumRatioFromTDewPoint cfg TDewPoint Pressure ;;
     GetTWetBulbFromHumRatio fuel cfg TDryBulb HumRatio Pressure).

Definition GetTWetBulbFromRelHum (fuel : nat) (cfg : Config)
  (TDryBulb RelHum Pressure : R) : result R :=
  reject_if ((RelHum <? 0) || (RelHum >? 1))
    "Relative humidity is outside range [0, 1]"
    (HumRatio <- GetHumRatioFromRelHum cfg TDryBulb RelHum Pressure ;;
     GetTWetBulbFromHumRatio fuel cfg TDryBulb HumRatio Pressure).

Definition GetRelHumFromTDewPoint (cfg : Config) (TDryBulb TDewPoint : R)
  : result R :=
  reject_if (TDewPoint >? TDryBulb)
    "Dew point temperature is above dry bulb temperature"
    (VapPres <- GetSatVapPres cfg TDewPoint ;;
     SatVapPres <- GetSatVapPres cfg TDryBulb ;;
     py_div VapPres SatVapPres).

Definition GetRelHumFromTWetBulb (cfg : Config)
  (TDryBulb TWetBulb Pressure : R) : result R :=
  reject_if (TWetBulb >? TDryBulb)
    "Wet bulb temperature is above dry bulb temperature"
    (HumRatio <- GetHumRatioFromTWetBulb cfg TDryBulb TWetBulb Pressure ;;
     GetRelHumFromHumRatio cfg TDryBulb HumRatio Pressure).

Definition GetTDewPointFromRelHum (fuel : nat) (cfg : Config)
  (TDryBulb RelHum : R) : result R :=
  reject_if ((RelHum <? 0) || (RelHum >? 1))
    "Relative humidity is outside range [0, 1]"
    (VapPres <- GetVapPresFromRelHum cfg TDryBulb RelHum ;;
     GetTDewPointFromVapPres fuel cfg TDryBulb VapPres).

Definition GetTDewPointFromTWetBulb (fuel : nat) (cfg : Config)
  (TDryBulb TWetBulb Pressure : R) : result R :=
  reject_if (TWetBulb >? TDryBulb)
    "Wet bulb temperature is above dry bulb temperature"
    (HumRatio <- GetHumRatioFromTWetBulb cfg TDryBulb TWetBulb Pressure ;;
     GetTDewPointFromHumRatio fuel cfg TDryBulb HumRatio Pressure).

(** ** Dry air *)

Definition GetDryAirEnthalpy (cfg : Config) (TDryBulb : R) : result R :=
  ip <- isIP cfg ;;
  if ip then Ok (0.240 * TDryBulb) else Ok (1006 * TDryBulb).

Definition GetDryAirDensity (cfg : Config) (TDryBulb Pressure : R) : result R :=
  ip <- isIP cfg ;;
  if ip then
    a <- py_div (144 * Pressure) R_DA_IP ;;
    py_div a (GetTRankineFromTFahrenheit TDryBulb)
  else
    a <- py_div Pressure R_DA_SI ;;
    py_div a (GetTKelvinFromTCelsius TDryBulb).

Definition GetDryAirVolume (cfg : Config) (TDryBulb Pressure : R) : result R :=
  ip <- isIP cfg ;;
  if ip then
    py_div (GetTRankineFromTFahrenheit TDryBulb * R_DA_IP) (144 * Pressure)
  else
    py_div (GetTKelvinFromTCelsius TDryBulb * R_DA_SI) Pressure.

(** ** Moist air *)

Definition GetMoistAirEnthalpy (cfg : Config) (TDryBulb HumRatio : R) : result R :=
  reject_if (HumRatio <? 0) "Humidity ratio is negative"
    (ip <- isIP cfg ;;
     if ip then Ok (0.240 * TDryBulb + HumRatio * (1061 + 0.444 * TDryBulb))
     else Ok ((1.006 * TDryBulb + HumRatio * (2501 + 1.86 * TDryBulb)) * 1000)).

Definition GetSatAirEnthalpy (cfg : Config) (TDryBulb Pressure : R) : result R :=
  SatHumRatio <- GetSatHumRatio cfg TDryBulb Pressure ;;
  GetMoistAirEnthalpy cfg TDryBulb SatHumRatio.

Definition GetVaporPressureDeficit (cfg : Config)
  (TDryBulb HumRatio Pressure : R) : result R :=
  reject_if (HumRatio <? 0) "Humidity ratio is negative"
    (RelHum <- GetRelHumFromHumRatio cfg TDryBulb HumRatio Pressure ;;
     SatVapPres <- GetSatVapPres cfg TDryBulb ;;
     Ok (SatVapPres * (1 - RelHum))).

Definition GetDegreeOfSaturation (cfg : Config)
  (TDryBulb HumRatio Pressure : R) : result R :=
  reject_if (HumRatio <? 0) "Humidity ratio is negative"
    (SatHumRatio <- GetSatHumRatio cfg TDryBulb Pressure ;;
     py_div HumRatio SatHumRatio).

Definition GetMoistAirVolume (cfg : Config)
  (TDryBulb HumRatio Pressure : R) : result R :=
  reject_if (HumRatio <? 0) "Humidity ratio is negative"
    (ip <- isIP cfg ;;
     if ip then
       py_div (R_DA_IP * GetTRankineFromTFahrenheit TDryBulb * (1 + 1.607858 * HumRatio))
              (144 * Pressure)
     else
       py_div (R_DA_SI * GetTKelvinFromTCelsius TDryBulb * (1 + 1.607858 * HumRatio))
              Pressure).

Definition GetMoistAirDensity (cfg : Config)
  (TDryBulb HumRatio Pressure : R) : result R :=
  reject_if (HumRatio <? 0) "Humidity ratio is negative"
    (MoistAirVolume <- GetMoistAirVolume cfg TDryBulb HumRatio Pressure ;;
     py_div (1 + HumRatio) MoistAirVolume).

(** ** Standard atmosphere *)

Definition GetStandardAtmPressure (cfg : Config) (Altitude : R) : result R :=
  ip <- isIP cfg ;;
  if ip then
    p <- math_pow (1 - 6.8754e-06 * Altitude) 5.2559 ;;
    Ok (14.696 * p)
  else
    p <- math_pow (1 - 2.25577e-05 * Altitude) 5.2559 ;;
    Ok (101325 * p).

Definition GetStandardAtmTemperature (cfg : Config) (Altitude : R) : result R :=
  ip <- isIP cfg ;;
  if ip then Ok (59 - 0.00356620 * Altitude) else Ok (15 - 0.0065 * Altitude).

Definition GetSeaLevelPressure (cfg : Config)
  (StationPressure Altitude TDryBulb : R) : result R :=
  ip <- isIP cfg ;;
  H <- (if ip then
          let TColumn := TDryBulb + 0.0036 * Altitude / 2 in
          Ok (53.351 * GetTRankineFromTFahrenheit TColumn)
        else
          let TColumn := TDryBulb + 0.0065 * Altitude / 2 in
          Ok (287.055 * GetTKelvinFromTCelsius TColumn / 9.807)) ;;
  e <- py_div Altitude H ;;
  x <- math_exp e ;;
  Ok (StationPressure * x).

Definition GetStationPressure (cfg : Config)
  (SeaLevelPressure Altitude TDryBulb : R) : result R :=
  s <- GetSeaLevelPressure cfg 1 Altitude TDryBulb ;;
  py_div SeaLevelPressure s.

(** ** Functions to set all psychrometric values *)

Definition psychrometrics : Type := (R * R * R * R * R * R * R)%type.

Definition CalcPsychrometricsFromTWetBulb (fuel : nat) (cfg : Config)
  (TDryBulb TWetBulb Pressure : R) : result psychrometrics :=
  HumRatio <- GetHumRatioFromTWetBulb cfg TDryBulb TWetBulb Pressure ;;
  TDewPoint <- GetTDewPointFromHumRatio fuel cfg TDryBulb HumRatio Pressure ;;
  RelHum <- GetRelHumFromHumRatio cfg TDryBulb HumRatio Pressure ;;
  VapPres <- GetVapPresFromHumRatio HumRatio Pressure ;;
  MoistAirEnthalpy <- GetMoistAirEnthalpy cfg TDryBulb HumRatio ;;
  MoistAirVolume <- GetMoistAirVolume cfg TDryBulb HumRatio Pressure ;;
  DegreeOfSaturation <- GetDegreeOfSaturation cfg TDryBulb HumRatio Pressure ;;
  Ok (HumRatio, TDewPoint, RelHum, VapPres, MoistAirEnthalpy, MoistAirVolume,
      DegreeOfSaturation).

Definition CalcPsychrometricsFromTDewPoint (fuel : nat) (cfg : Config)
  (TDryBulb TDewPoint Pressure : R) : result psychrometrics :=
  HumRatio <- GetHumRatioFromTDewPoint cfg TDewPoint Pressure ;;
  TWetBulb <- GetTWetBulbFromHumRatio fuel cfg TDryBulb HumRatio Pressure ;;
  RelHum <- GetRelHumFromHumRatio cfg TDryBulb HumRatio Pressure ;;
  VapPres <- GetVapPresFromHumRatio HumRatio Pressure ;;
  MoistAirEnthalpy <- GetMoistAirEnthalpy cfg TDryBulb HumRatio ;;
  MoistAirVolume <- GetMoistAirVolume cfg TDryBulb HumRatio Pressure ;;
  DegreeOfSaturation <- GetDegreeOfSaturation cfg TDryBulb HumRatio Pressure ;;
  Ok (HumRatio, TWetBulb, RelHum, VapPres, MoistAirEnthalpy, MoistAirVolume,
      DegreeOfSaturation).

Definition CalcPsychrometricsFromRelHum (fuel : nat) (cfg : Config)
  (TDryBulb RelHum Pressure : R) : result psychrometrics :=
  HumRatio <- GetHumRatioFromRelHum cfg TDryBulb RelHum Pressure ;;
  TWetBulb <- GetTWetBulbFromHumRatio fuel cfg TDryBulb HumRatio Pressure ;;
  TDewPoint <- GetTDewPointFromHumRatio fuel cfg TDryBulb HumRatio Pressure ;;
  VapPres <- GetVapPresFromHumRatio HumRatio Pressure ;;
  MoistAirEnthalpy <- GetMoistAirEnthalpy cfg TDryBulb HumRatio ;;
  MoistAirVolume <- GetMoistAirVolume cfg TDryBulb HumRatio Pressure ;;
  DegreeOfSaturation <- GetDegreeOfSaturation cfg TDryBulb HumRatio Pressure ;;
  Ok (HumRatio, TWetBulb, TDewPoint, VapPres, MoistAirEnthalpy, MoistAirVolume,
      DegreeOfSaturation).

(** ** Auxiliary definitions for the properties *)

Definition unit_ip (u : UnitSystem) : bool :=
  match u with IP => true | SI => false end.

(** The lower and upper validity bounds of a unit system. *)
Definition Tmin (u : UnitSystem) : R := fst (_BOUNDS (unit_ip u)).
Definition Tmax (u : UnitSystem) : R := snd (_BOUNDS (unit_ip u)).

(** The logarithm of the saturation pressure as the source writes it,
    with exact division and logarithm. *)
Definition LnPws (u : UnitSystem) (TDryBulb : R) : R :=
  match u with
  | IP =>
      let T := GetTRankineFromTFahrenheit TDryBulb in
      if TDryBulb <=? 32 then
        -1.0214165E+04 / T - 4.8932428 - 5.3765794E-03 * T + 1.9202377E-07 * T ^ 2
        + 3.5575832E-10 * T ^ 3 - 9.0344688E-14 * T ^ 4 + 4.1635019 * ln T
      else
        -1.0440397E+04 / T - 1.1294650E+01 - 2.7022355E-02 * T + 1.2890360E-05 * T ^ 2
        - 2.4780681E-09 * T ^ 3 + 6.5459673 * ln T
  | SI =>
      let T := GetTKelvinFromTCelsius TDryBulb in
      if TDryBulb <=? 0 then
        -5.6745359E+03 / T + 6.3925247 - 9.677843E-03 * T + 6.2215701E-07 * T ^ 2
        + 2.0747825E-09 * T ^ 3 - 9.484024E-13 * T ^ 4 + 4.1635019 * ln T
      else
        -5.8002206E+03 / T + 1.3914993 - 4.8640239E-02 * T + 4.1764768E-05 * T ^ 2
        - 1.4452093E-08 * T ^ 3 + 6.5459673 * ln T
  end.

Definition SatVapPres_range_error (u : UnitSystem) : string :=
  match u with
  | IP => "Dry bulb temperature must be in range [-148, 392]°F"
  | SI => "Dry bulb temperature must be in range [-100, 200]°C"
  end.


(** The configuration after [SetUnitSystem(SI)] and after [SetUnitSystem(IP)]. *)
Definition cfgSI : Config := {| __UNITS := Some SI; __TOL := 0.001 |}.
Definition cfgIP : Config := {| __UNITS := Some IP; __TOL := 0.001 * 9 / 5 |}.

(** ** Bisection as the specification words it

    The state is the interval alone: when its width is at most the
    tolerance the midpoint is returned; otherwise the humidity ratio at
    the midpoint is compared with the target, and the midpoint becomes the
    new upper bound if that ratio exceeds the target and the new lower
    bound otherwise. *)
Fixpoint bisection_spec (fuel : nat) (cfg : Config) (TDryBulb HumRatio Pressure : R)
  (lower upper : R) : result R :=
  let midpoint := (lower + upper) / 2 in
  if upper - lower <=? __TOL cfg then Ok midpoint
  else
    match fuel with
    | O => OutOfFuel
    | S fuel' =>
        W <- GetHumRatioFromTWetBulb cfg TDryBulb midpoint Pressure ;;
        if W >? HumRatio then
          bisection_spec fuel' cfg TDryBulb HumRatio Pressure lower midpoint
        else
          bisection_spec fuel' cfg TDryBulb HumRatio Pressure midpoint upper
    end.

(** A call has terminated when it returned or raised. *)
Definition terminated {A : Type} (r : result A) : Prop := r <> OutOfFuel.

(** The [k]-th estimate of the Newton-Raphson iteration of
    [GetTDewPointFromVapPres]: the value of [TDewPoint] after [k] passes
    through the loop body, when every pass is taken. *)
Fixpoint NR_estimate (cfg : Config) (ip : bool) (lnVP TDryBulb : R) (k : nat)
  : result R :=
  match k with
  | O => Ok TDryBulb
  | S k' =>
      t <- NR_estimate cfg ip lnVP TDryBulb k' ;;
      NR_step cfg ip lnVP t
  end.

(** The step the loop body takes at [t]: towards the interior of the
    validity range. *)
Definition NR_StepSize (ip : bool) (t : R) : R :=
  if t >? (fst (_BOUNDS ip) + snd (_BOUNDS ip)) / 2 then - _STEPSIZE ip else _STEPSIZE ip.

(** ** The call surface of the library

    One constructor per public function that computes a quantity, with
    the arguments of its signature; [run] dispatches a call. *)
Inductive call : Type :=
| CGetTRankineFromTFahrenheit (TFahrenheit : R)
| CGetTKelvinFromTCelsius (TCelsius : R)
| CGetTWetBulbFromTDewPoint (TDryBulb TDewPoint Pressure : R)
| CGetTWetBulbFromRelHum (TDryBulb RelHum Pressure : R)
| CGetRelHumFromTDewPoint (TDryBulb TDewPoint : R)
| CGetRelHumFromTWetBulb (TDryBulb TWetBulb Pressure : R)
| CGetTDewPointFromRelHum (TDryBulb RelHum : R)
| CGetTDewPointFromTWetBulb (TDryBulb TWetBulb Pressure : R)
| CGetVapPresFromRelHum (TDryBulb RelHum : R)
| CGetRelHumFromVapPres (TDryBulb VapPres : R)
| CGetTDewPointFromVapPres (TDryBulb VapPres : R)
| CGetVapPresFromTDewPoint (TDewPoint : R)
| CGetTWetBulbFromHumRatio (TDryBulb HumRatio Pressure : R)
| CGetHumRatioFromTWetBulb (TDryBulb TWetBulb Pressure : R)
| CGetHumRatioFromRelHum (TDryBulb RelHum Pressure : R)
| CGetRelHumFromHumRatio (TDryBulb HumRatio Pressure : R)
| CGetHumRatioFromTDewPoint (TDewPoint Pressure : R)
| CGetTDewPointFromHumRatio (TDryBulb HumRatio Pressure : R)
| CGetHumRatioFromVapPres (VapPres Pressure : R)
| CGetVapPresFromHumRatio (HumRatio Pressure : R)
| CGetDryAirEnthalpy (TDryBulb : R)
| CGetDryAirDensity (TDryBulb Pressure : R)
| CGetDryAirVolume (TDryBulb Pressure : R)
| CGetSatVapPres (TDryBulb : R)
| CGetSatHumRatio (TDryBulb Pressure : R)
| CGetSatAirEnthalpy (TDryBulb Pressure : R)
| CGetVaporPressureDeficit (TDryBulb HumRatio Pressure : R)
| CGetDegreeOfSaturation (TDryBulb HumRatio Pressure : R)
| CGetMoistAirEnthalpy (TDryBulb HumRatio : R)
| CGetMoistAirVolume (TDryBulb HumRatio Pressure : R)
| CGetMoistAirDensity (TDryBulb HumRatio Pressure : R)
| CGetStandardAtmPressure (Altitude : R)
| CGetStandardAtmTemperature (Altitude : R)
| CGetSeaLevelPressure (StationPressure Altitude TDryBulb : R)
| CGetStationPressure (SeaLevelPressure Altitude TDryBulb : R)
| CCalcPsychrometricsFromTWetBulb (TDryBulb TWetBulb Pressure : R)
| CCalcPsychrometricsFromTDewPoint (TDryBulb TDewPoint Pressure : R)
| CCalcPsychrometricsFromRelHum (TDryBulb RelHum Pressure : R).

(** What a call returns: a float or the 7-tuple of the composite
    functions. *)
Inductive value : Type :=
| VFloat (x : R)
| VTuple (t : psychrometrics).

Definition float (r : result R) : result value := x <- r ;; Ok (VFloat x).
Definition tuple (r : result psychrometrics) : result value := t <- r ;; Ok (VTuple t).

Definition run (fuel : nat) (cfg : Config) (c : call) : result value :=
  match c with
  | CGetTRankineFromTFahrenheit T => Ok (VFloat (GetTRankineFromTFahrenheit T))
  | CGetTKelvinFromTCelsius T => Ok (VFloat (GetTKelvinFromTCelsius T))
  | CGetTWetBulbFromTDewPoint T Td P => float (GetTWetBulbFromTDewPoint fuel cfg T Td P)
  | CGetTWetBulbFromRelHum T rh P => float (GetTWetBulbFromRelHum fuel cfg T rh P)
  | CGetRelHumFromTDewPoint T Td => float (GetRelHumFromTDewPoint cfg T Td)
  | CGetRelHumFromTWetBulb T Tw P => float (GetRelHumFromTWetBulb cfg T Tw P)
  | CGetTDewPointFromRelHum T rh => float (GetTDewPointFromRelHum fuel cfg T rh)
  | CGetTDewPointFromTWetBulb T Tw P => float (GetTDewPointFromTWetBulb fuel cfg T Tw P)
  | CGetVapPresFromRelHum T rh => float (GetVapPresFromRelHum cfg T rh)
  | CGetRelHumFromVapPres T v => float (GetRelHumFromVapPres cfg T v)
  | CGetTDewPointFromVapPres T v => float (GetTDewPointFromVapPres fuel cfg T v)
  | CGetVapPresFromTDewPoint Td => float (GetVapPresFromTDewPoint cfg Td)
  | CGetTWetBulbFromHumRatio T w P => float (GetTWetBulbFromHumRatio fuel cfg T w P)
  | CGetHumRatioFromTWetBulb T Tw P => float (GetHumRatioFromTWetBulb cfg T Tw P)
  | CGetHumRatioFromRelHum T rh P => float (GetHumRatioFromRelHum cfg T rh P)
  | CGetRelHumFromHumRatio T w P => float (GetRelHumFromHumRatio cfg T w P)
  | CGetHumRatioFromTDewPoint Td P => float (GetHumRatioFromTDewPoint cfg Td P)
  | CGetTDewPointFromHumRatio T w P => float (GetTDewPointFromHumRatio fuel cfg T w P)
  | CGetHumRatioFromVapPres v P => float (GetHumRatioFromVapPres v P)
  | CGetVapPresFromHumRatio w P => float (GetVapPresFromHumRatio w P)
  | CGetDryAirEnthalpy T => float (GetDryAirEnthalpy cfg T)
  | CGetDryAirDensity T P => float (GetDryAirDensity cfg T P)
  | CGetDryAirVolume T P => float (GetDryAirVolume cfg T P)
  | CGetSatVapPres T => float (GetSatVapPres cfg T)
  | CGetSatHumRatio T P => float (GetSatHumRatio cfg T P)
  | CGetSatAirEnthalpy T P => float (GetSatAirEnthalpy cfg T P)
  | CGetVaporPressureDeficit T w P => float (GetVaporPressureDeficit cfg T w P)
  | CGetDegreeOfSaturation T w P => float (GetDegreeOfSaturation cfg T w P)
  | CGetMoistAirEnthalpy T w => float (GetMoistAirEnthalpy cfg T w)
  | CGetMoistAirVolume T w P => float (GetMoistAirVolume cfg T w P)
  | CGetMoistAirDensity T w P => float (GetMoistAirDensity cfg T w P)
  | CGetStandardAtmPressure a => float (GetStandardAtmPressure cfg a)
  | CGetStandardAtmTemperature a => float (GetStandardAtmTemperature cfg a)
  | CGetSeaLevelPressure s a T => float (GetSeaLevelPressure cfg s a T)
  | CGetStationPressure s a T => float (GetStationPressure cfg s a T)
  | CCalcPsychrometricsFromTWetBulb T Tw P =>
      tuple (CalcPsychrometricsFromTWetBulb fuel cfg T Tw P)
  | CCalcPsychrometricsFromTDewPoint T Td P =>
      tuple (CalcPsychrometricsFromTDewPoint fuel cfg T Td P)
  | CCalcPsychrometricsFromRelHum T rh P =>
      tuple (CalcPsychrometricsFromRelHum fuel cfg T rh P)
  end.

(** The argument named [RelHum] of a call, if it has one. *)
Definition RelHum_of (c : call) : option R :=
  match c with
  | CGetTWetBulbFromRelHum _ rh _ | CGetTDewPointFromRelHum _ rh
  | CGetVapPresFromRelHum _ rh | CGetHumRatioFromRelHum _ rh _
  | CCalcPsychrometricsFromRelHum _ rh _ => Some rh
  | _ => None
  end.

(** The argument named [HumRatio] of a call, if it has one. *)
Definition HumRatio_of (c : call) : option R :=
  match c with
  | CGetTWetBulbFromHumRatio _ w _ | CGetRelHumFromHumRatio _ w _
  | CGetTDewPointFromHumRatio _ w _ | CGetVapPresFromHumRatio w _
  | CGetVaporPressureDeficit _ w _ | CGetDegreeOfSaturation _ w _
  | CGetMoistAirEnthalpy _ w | CGetMoistAirVolume _ w _
  | CGetMoistAirDensity _ w _ => Some w
  | _ => None
  end.

(** The arguments [(TDryBulb, TWetBulb)] of a call that has both. *)
Definition TWetBulb_of (c : call) : option (R * R) :=
  match c with
  | CGetRelHumFromTWetBulb T Tw _ | CGetTDewPointFromTWetBulb T Tw _
  | CGetHumRatioFromTWetBulb T Tw _ | CCalcPsychrometricsFromTWetBulb T Tw _ =>
      Some (T, Tw)
  | _ => None
  end.

(** The arguments [(TDryBulb, TDewPoint)] of a call that has both. *)
Definition TDewPoint_of (c : call) : option (R * R) :=
  match c with
  | CGetTWetBulbFromTDewPoint T Td _ | CGetRelHumFromTDewPoint T Td
  | CCalcPsychrometricsFromTDewPoint T Td _ => Some (T, Td)
  | _ => None
  end.

(** The argument named [VapPres] and the argument named [Pressure]. *)
Definition VapPres_of (c : call) : option R :=
  match c with
  | CGetRelHumFromVapPres _ v | CGetTDewPointFromVapPres _ v
  | CGetHumRatioFromVapPres v _ => Some v
  | _ => None
  end.

Definition Pressure_of (c : call) : option R :=
  match c with
  | CGetTWetBulbFromTDewPoint _ _ P | CGetTWetBulbFromRelHum _ _ P
  | CGetRelHumFromTWetBulb _ _ P | CGetTDewPointFromTWetBulb _ _ P
  | CGetTWetBulbFromHumRatio _ _ P | CGetHumRatioFromTWetBulb _ _ P
  | CGetHumRatioFromRelHum _ _ P | CGetRelHumFromHumRatio _ _ P
  | CGetHumRatioFromTDewPoint _ P | CGetTDewPointFromHumRatio _ _ P
  | CGetHumRatioFromVapPres _ P | CGetVapPresFromHumRatio _ P
  | CGetDryAirDensity _ P | CGetDryAirVolume _ P
  | CGetSatHumRatio _ P | CGetSatAirEnthalpy _ P
  | CGetVaporPressureDeficit _ _ P | CGetDegreeOfSaturation _ _ P
  | CGetMoistAirVolume _ _ P | CGetMoistAirDensity _ _ P
  | CCalcPsychrometricsFromTWetBulb _ _ P | CCalcPsychrometricsFromTDewPoint _ _ P
  | CCalcPsychrometricsFromRelHum _ _ P => Some P
  | _ => None
  end.

(** The arguments of a call are in the domains the data model gives
    them: relative humidity in [0, 1], humidity ratio, vapor pressure and
    pressure non-negative, wet-bulb and dew-point temperatures not above
    the dry-bulb temperature. *)
Definition in_domain (c : call) : Prop :=
  (forall rh, RelHum_of c = Some rh -> 0 <= rh <= 1) /\
  (forall w, HumRatio_of c = Some w -> 0 <= w) /\
  (forall T Tw, TWetBulb_of c = Some (T, Tw) -> Tw <= T) /\
  (forall T Td, TDewPoint_of c = Some (T, Td) -> Td <= T) /\
  (forall v, VapPres_of c = Some v -> 0 <= v) /\
  (forall P, Pressure_of c = Some P -> 0 <= P).

(** The operations that never read the unit system. *)
Definition unit_free (c : call) : bool :=
  match c with
  | CGetTRankineFromTFahrenheit _ | CGetTKelvinFromTCelsius _
  | CGetHumRatioFromVapPres _ _ | CGetVapPresFromHumRatio _ _ => true
  | _ => false
  end.

(** The two kinds of [ValueError] of the error taxonomy. *)
Definition uninitialized_fault {A : Type} (r : result A) : Prop :=
  r = Raise (ValueError units_undefined).

Definition invalid_argument_fault {A : Type} (r : result A) : Prop :=
  exists msg, r = Raise (ValueError msg) /\ msg <> units_undefined.

(** A call that did not raise a [ValueError] of any kind. *)
Definition no_ValueError {A : Type} (r : result A) : Prop :=
  forall msg, r <> Raise (ValueError msg).

(** ** Auxiliary definitions for the further properties *)

(** The absolute temperature of a unit system: Rankine or Kelvin. *)
Definition absolute (u : UnitSystem) (T : R) : R :=
  match u with
  | IP => GetTRankineFromTFahrenheit T
  | SI => GetTKelvinFromTCelsius T
  end.

(** The scale height [H] that [GetSeaLevelPressure] computes. *)
Definition scale_height (u : UnitSystem) (Altitude TDryBulb : R) : R :=
  match u with
  | IP => 53.351 * GetTRankineFromTFahrenheit (TDryBulb + 0.0036 * Altitude / 2)
  | SI => 287.055 * GetTKelvinFromTCelsius (TDryBulb + 0.0065 * Altitude / 2) / 9.807
  end.

(** The base of the power in [GetStandardAtmPressure] and the sea-level
    pressure that multiplies it. *)
Definition atm_base (u : UnitSystem) (Altitude : R) : R :=
  match u with
  | IP => 1 - 6.8754e-06 * Altitude
  | SI => 1 - 2.25577e-05 * Altitude
  end.

Definition atm_sea_level (u : UnitSystem) : R :=
  match u with IP => 14.696 | SI => 101325 end.
(** * Properties *)

(** ** Comparisons, clamps and the primitives *)

Lemma Rltb_lt (x y : R) : (x <? y) = true <-> x < y.
Proof. unfold Rltb. destruct (Rlt_dec x y); split; intros; try discriminate; tauto. Qed.

Lemma Rltb_ge (x y : R) : (x <? y) = false <-> y <= x.
Proof.
  unfold Rltb. destruct (Rlt_dec x y); split; intros; try discriminate; try lra; auto.
Qed.

Lemma Rleb_le (x y : R) : (x <=? y) = true <-> x <= y.
Proof. unfold Rleb. destruct (Rle_dec x y); split; intros; try discriminate; tauto. Qed.

Lemma Rleb_gt (x y : R) : (x <=? y) = false <-> y < x.
Proof.
  unfold Rleb. destruct (Rle_dec x y); split; intros; try discriminate; try lra; auto.
Qed.

(** Decide every real comparison in sight, innermost first, leaving its
    outcome as a hypothesis. *)
Ltac no_cmp t :=
  lazymatch t with
  | context [Rltb _ _] => fail
  | context [Rleb _ _] => fail
  | _ => idtac
  end.

Ltac cmp :=
  repeat match goal with
  | |- context [Rltb ?x ?y] =>
      no_cmp x; no_cmp y;
      let H := fresh "Hc" in
      destruct (Rltb x y) eqn:H;
      [apply Rltb_lt in H | apply Rltb_ge in H]
  | |- context [Rleb ?x ?y] =>
      no_cmp x; no_cmp y;
      let H := fresh "Hc" in
      destruct (Rleb x y) eqn:H;
      [apply Rleb_le in H | apply Rleb_gt in H]
  end.

Lemma py_max_Rmax (a b : R) : py_max a b = Rmax a b.
Proof. unfold py_max, Rmax. cmp; destruct (Rle_dec a b); lra. Qed.

Lemma py_min_Rmin (a b : R) : py_min a b = Rmin a b.
Proof. unfold py_min, Rmin. cmp; destruct (Rle_dec a b); lra. Qed.

Lemma py_min_le_l (a b : R) : py_min a b <= a.
Proof. unfold py_min. cmp; lra. Qed.

Lemma py_min_le_r (a b : R) : py_min a b <= b.
Proof. unfold py_min. cmp; lra. Qed.

Lemma py_min_glb (a b c : R) : c <= a -> c <= b -> c <= py_min a b.
Proof. unfold py_min. cmp; lra. Qed.

Lemma clamp_bounds (t lo hi : R) :
  lo <= hi -> lo <= py_min (py_max t lo) hi <= hi.
Proof. intros H. unfold py_min, py_max. cmp; lra. Qed.

Lemma py_div_ok (a b : R) : b <> 0 -> py_div a b = Ok (a / b).
Proof. intros H. unfold py_div. destruct (Req_dec_T b 0); [contradiction | reflexivity]. Qed.

Lemma py_div_zero (a : R) : py_div a 0 = Raise ZeroDivisionError.
Proof. unfold py_div. destruct (Req_dec_T 0 0); [reflexivity | contradiction]. Qed.

Lemma py_div_cases (a b : R) :
  (b <> 0 /\ py_div a b = Ok (a / b)) \/ (b = 0 /\ py_div a b = Raise ZeroDivisionError).
Proof. unfold py_div. destruct (Req_dec_T b 0); [right | left]; auto. Qed.

Lemma math_log_ok (x : R) : 0 < x -> math_log x = Ok (ln x).
Proof. intros H. unfold math_log. cmp; [reflexivity | lra]. Qed.

(** ** The unit system *)

Lemma isIP_set (cfg : Config) (u : UnitSystem) :
  __UNITS cfg = Some u -> isIP cfg = Ok (unit_ip u).
Proof. intros H. unfold isIP. rewrite H. destruct u; reflexivity. Qed.

Lemma isIP_unset (cfg : Config) :
  __UNITS cfg = None -> isIP cfg = Raise (ValueError units_undefined).
Proof. intros H. unfold isIP. rewrite H. reflexivity. Qed.

Lemma isIP_inv (cfg : Config) (ip : bool) :
  isIP cfg = Ok ip -> exists u, __UNITS cfg = Some u /\ ip = unit_ip u.
Proof.
  unfold isIP. destruct (__UNITS cfg) as [[|]|]; intros H; inversion H; eauto.
Qed.

Lemma Tmin_Tmax (u : UnitSystem) : Tmin u < Tmax u.
Proof. destruct u; unfold Tmin, Tmax; simpl; lra. Qed.

(** ** Saturation vapor pressure on its domain *)

(** Inside the validity range the absolute temperature is positive, so
    neither the division nor the logarithm of [GetSatVapPres] can raise. *)
Lemma GetSatVapPres_in_range (cfg : Config) (u : UnitSystem) (TDryBulb : R) :
  __UNITS cfg = Some u ->
  Tmin u <= TDryBulb <= Tmax u ->
  GetSatVapPres cfg TDryBulb = Ok (exp (LnPws u TDryBulb)).
Proof.
  intros Hu [Hlo Hhi]. unfold GetSatVapPres. rewrite (isIP_set _ _ Hu).
  destruct u; unfold Tmin, Tmax in *; simpl in *; unfold reject_if;
    cmp; simpl; try lra;
    unfold GetTRankineFromTFahrenheit, GetTKelvinFromTCelsius;
    (rewrite py_div_ok by lra); simpl; (rewrite math_log_ok by lra); reflexivity.
Qed.

Lemma GetSatVapPres_out_of_range (cfg : Config) (u : UnitSystem) (TDryBulb : R) :
  __UNITS cfg = Some u ->
  TDryBulb < Tmin u \/ Tmax u < TDryBulb ->
  GetSatVapPres cfg TDryBulb = Raise (ValueError (SatVapPres_range_error u)).
Proof.
  intros Hu H. unfold GetSatVapPres. rewrite (isIP_set _ _ Hu).
  destruct u; unfold Tmin, Tmax in *; simpl in *; unfold reject_if;
    cmp; simpl; try reflexivity; lra.
Qed.

Lemma GetSatVapPres_unset (cfg : Config) (TDryBulb : R) :
  __UNITS cfg = None ->
  GetSatVapPres cfg TDryBulb = Raise (ValueError units_undefined).
Proof. intros H. unfold GetSatVapPres. rewrite (isIP_unset _ H). reflexivity. Qed.

(** Whatever [GetSatVapPres] returns is a positive pressure at a
    temperature inside the validity range. *)
Lemma GetSatVapPres_Ok_inv (cfg : Config) (TDryBulb p : R) :
  GetSatVapPres cfg TDryBulb = Ok p ->
  exists u, __UNITS cfg = Some u /\ Tmin u <= TDryBulb <= Tmax u /\
            p = exp (LnPws u TDryBulb) /\ 0 < p.
Proof.
  intros H. destruct (__UNITS cfg) as [u|] eqn:Hu.
  - exists u. split; [reflexivity|].
    destruct (Rlt_dec TDryBulb (Tmin u)) as [Hlo|Hlo].
    { rewrite (GetSatVapPres_out_of_range _ u) in H by auto. discriminate. }
    destruct (Rlt_dec (Tmax u) TDryBulb) as [Hhi|Hhi].
    { rewrite (GetSatVapPres_out_of_range _ u) in H by auto. discriminate. }
    assert (Hr : Tmin u <= TDryBulb <= Tmax u) by lra.
    rewrite (GetSatVapPres_in_range _ u) in H by auto.
    inversion H; subst. repeat split; try lra. apply exp_pos.
  - rewrite GetSatVapPres_unset in H by auto. discriminate.
Qed.

Lemma GetSatVapPres_pos (cfg : Config) (TDryBulb p : R) :
  GetSatVapPres cfg TDryBulb = Ok p -> 0 < p.
Proof. intros H. apply GetSatVapPres_Ok_inv in H. destruct H as (u & _ & _ & _ & Hp). exact Hp. Qed.

(** ** Rational bounds on [exp] and [ln] *)

Lemma exp_ge_1_plus (x : R) : 1 + x <= exp x.
Proof.
  destruct (Req_dec x 0) as [->|H].
  - rewrite exp_0. lra.
  - left. apply exp_ineq1. exact H.
Qed.

Lemma exp_pow (x : R) (n : nat) : exp x ^ n = exp (INR n * x).
Proof.
  induction n as [|n IH].
  - simpl. rewrite Rmult_0_l, exp_0. reflexivity.
  - rewrite S_INR. simpl. rewrite IH, <- exp_plus. f_equal. lra.
Qed.

(** [(1 + x)^n <= exp (n x)]. *)
Lemma exp_lower (n : nat) (x : R) :
  0 <= 1 + x -> (1 + x) ^ n <= exp (INR n * x).
Proof.
  intros H. rewrite <- exp_pow. apply pow_incr. split; [lra | apply exp_ge_1_plus].
Qed.

(** [exp (n x) <= (1 / (1 - x))^n]. *)
Lemma exp_upper (n : nat) (x : R) :
  x < 1 -> exp (INR n * x) <= (/ (1 - x)) ^ n.
Proof.
  intros H. rewrite <- exp_pow. apply pow_incr. split; [left; apply exp_pos|].
  assert (H1 : 1 - x <= exp (- x)) by (pose proof (exp_ge_1_plus (- x)); lra).
  rewrite exp_Ropp in H1.
  assert (H2 : 0 < exp x) by apply exp_pos.
  rewrite <- (Rinv_inv (exp x)).
  apply Rinv_le_contravar; lra.
Qed.

Lemma exp_le_bound (n : nat) (x y b : R) :
  y <= INR n * x -> x < 1 -> (/ (1 - x)) ^ n <= b -> exp y <= b.
Proof.
  intros Hy Hx Hb. apply Rle_trans with (exp (INR n * x)).
  - destruct Hy as [Hy|Hy]; [left; apply exp_increasing; exact Hy | rewrite Hy; lra].
  - apply Rle_trans with ((/ (1 - x)) ^ n); [apply exp_upper; exact Hx | exact Hb].
Qed.

Lemma exp_ge_bound (n : nat) (x y b : R) :
  INR n * x <= y -> 0 <= 1 + x -> b <= (1 + x) ^ n -> b <= exp y.
Proof.
  intros Hy Hx Hb. apply Rle_trans with (exp (INR n * x)).
  - apply Rle_trans with ((1 + x) ^ n); [exact Hb | apply exp_lower; exact Hx].
  - destruct Hy as [Hy|Hy]; [left; apply exp_increasing; exact Hy | rewrite Hy; lra].
Qed.

Lemma ln_le_bound (n : nat) (x a : R) :
  0 < a -> 0 <= 1 + x -> a <= (1 + x) ^ n -> ln a <= INR n * x.
Proof.
  intros Ha Hx Hb.
  assert (H : a <= exp (INR n * x)) by (apply (exp_ge_bound n x); auto; lra).
  destruct H as [H|H].
  - left. rewrite <- (ln_exp (INR n * x)). apply ln_increasing; assumption.
  - rewrite H, ln_exp. lra.
Qed.

Lemma ln_ge_bound (n : nat) (x a : R) :
  x < 1 -> (/ (1 - x)) ^ n <= a -> INR n * x <= ln a.
Proof.
  intros Hx Hb.
  assert (H : exp (INR n * x) <= a) by (apply (exp_le_bound n x); auto; lra).
  assert (Hp : 0 < exp (INR n * x)) by apply exp_pos.
  destruct H as [H|H].
  - left. rewrite <- (ln_exp (INR n * x)) at 1. apply ln_increasing; assumption.
  - rewrite <- H, ln_exp. lra.
Qed.

(** ** Boundary values of [GetVapPresFromRelHum] *)

(** C8: at a dry-bulb temperature of the valid range, relative humidity 0
    gives vapor pressure exactly 0 and relative humidity 1 gives exactly
    the saturation vapor pressure [GetSatVapPres] returns. *)
Theorem GetVapPresFromRelHum_boundary (cfg : Config) (u : UnitSystem) (T : R) :
  __UNITS cfg = Some u ->
  Tmin u <= T <= Tmax u ->
  GetVapPresFromRelHum cfg T 0 = Ok 0 /\
  exists p, GetSatVapPres cfg T = Ok p /\ GetVapPresFromRelHum cfg T 1 = Ok p.
Proof.
  intros Hu HT. unfold GetVapPresFromRelHum, reject_if.
  rewrite (GetSatVapPres_in_range cfg u T Hu HT). split.
  - cmp; simpl; try lra. f_equal. ring.
  - eexists. split; [reflexivity|]. cmp; simpl; try lra. f_equal. ring.
Qed.

Lemma GetVapPresFromRelHum_boundary_witness :
  GetVapPresFromRelHum cfgSI 25 0 = Ok 0 /\
  exists p, GetSatVapPres cfgSI 25 = Ok p /\
            GetVapPresFromRelHum cfgSI 25 1 = Ok p.
Proof.
  apply (GetVapPresFromRelHum_boundary cfgSI SI 25).
  - reflexivity.
  - unfold Tmin, Tmax; simpl; lra.
Defined.

(** ** Monotonicity of [GetRelHumFromVapPres] *)

(** C9: at a fixed dry-bulb temperature of the valid range, the relative
    humidity returned is non-decreasing in the (non-negative) vapor
    pressure. *)
Theorem GetRelHumFromVapPres_monotone (cfg : Config) (u : UnitSystem) (T p1 p2 : R) :
  __UNITS cfg = Some u ->
  Tmin u <= T <= Tmax u ->
  0 <= p1 -> p1 <= p2 ->
  exists r1 r2,
    GetRelHumFromVapPres cfg T p1 = Ok r1 /\
    GetRelHumFromVapPres cfg T p2 = Ok r2 /\
    r1 <= r2.
Proof.
  intros Hu HT H1 H12. unfold GetRelHumFromVapPres, reject_if.
  rewrite (GetSatVapPres_in_range cfg u T Hu HT). simpl.
  pose proof (exp_pos (LnPws u T)) as Hp.
  cmp; try lra.
  rewrite !py_div_ok by lra.
  do 2 eexists. repeat split.
  unfold Rdiv. apply Rmult_le_compat_r; [|exact H12].
  left. apply Rinv_0_lt_compat. exact Hp.
Qed.

Lemma GetRelHumFromVapPres_monotone_witness :
  exists r1 r2,
    GetRelHumFromVapPres cfgIP 70 0.1 = Ok r1 /\
    GetRelHumFromVapPres cfgIP 70 0.2 = Ok r2 /\
    r1 <= r2.
Proof.
  apply (GetRelHumFromVapPres_monotone cfgIP IP 70 0.1 0.2).
  - reflexivity.
  - unfold Tmin, Tmax; simpl; lra.
  - lra.
  - lra.
Defined.

(** ** The unguarded divisions of the humidity-ratio formulas *)

Lemma GetHumRatioFromVapPres_cases (VapPres Pressure : R) :
  (VapPres < 0 /\ exists m, GetHumRatioFromVapPres VapPres Pressure = Raise (ValueError m)) \/
  (0 <= VapPres /\ Pressure = VapPres /\
   GetHumRatioFromVapPres VapPres Pressure = Raise ZeroDivisionError) \/
  (0 <= VapPres /\ Pressure <> VapPres /\
   GetHumRatioFromVapPres VapPres Pressure = Ok (0.621945 * VapPres / (Pressure - VapPres))).
Proof.
  unfold GetHumRatioFromVapPres, reject_if. cmp.
  - left. split; [lra | eauto].
  - right. destruct (Req_dec Pressure VapPres) as [->|Hne].
    + left. replace (VapPres - VapPres) with 0 by ring. rewrite py_div_zero. auto.
    + right. rewrite py_div_ok by lra. auto.
Qed.

Lemma div_nonneg (a b : R) : 0 <= a -> 0 < b -> 0 <= a / b.
Proof.
  intros Ha Hb. unfold Rdiv.
  apply Rmult_le_pos; [exact Ha | left; apply Rinv_0_lt_compat; exact Hb].
Qed.

Lemma negative_quotient (a b : R) : 0 < a -> b < 0 -> a / b < 0.
Proof.
  intros Ha Hb. unfold Rdiv.
  assert (H : / b < 0) by (apply Rinv_lt_0_compat; exact Hb).
  nra.
Qed.

(** C10: [GetHumRatioFromVapPres] rejects negative vapor pressure and
    nothing else; it never compares the vapor pressure with the total
    pressure, so with [Pressure = VapPres] the division raises
    [ZeroDivisionError] and with [0 <= Pressure < VapPres] a negative
    humidity ratio is returned.  [GetSatHumRatio] divides by
    [Pressure - SatVaporPres] in the same unguarded way. *)
Theorem humidity_ratio_division_unguarded :
  (forall VapPres Pressure,
      VapPres < 0 <->
      exists m, GetHumRatioFromVapPres VapPres Pressure = Raise (ValueError m)) /\
  (forall VapPres Pressure,
      0 <= VapPres -> Pressure = VapPres ->
      GetHumRatioFromVapPres VapPres Pressure = Raise ZeroDivisionError) /\
  (forall VapPres Pressure,
      0 <= Pressure -> Pressure < VapPres ->
      exists w, GetHumRatioFromVapPres VapPres Pressure = Ok w /\ w < 0) /\
  (forall cfg TDryBulb Pressure SatVaporPres,
      GetSatVapPres cfg TDryBulb = Ok SatVaporPres ->
      (Pressure = SatVaporPres ->
       GetSatHumRatio cfg TDryBulb Pressure = Raise ZeroDivisionError) /\
      (Pressure < SatVaporPres ->
       exists w, GetSatHumRatio cfg TDryBulb Pressure = Ok w /\ w < 0)).
Proof.
  split; [|split; [|split]].
  - intros v p. destruct (GetHumRatioFromVapPres_cases v p)
      as [[Hv He]|[(Hv & _ & He)|(Hv & _ & He)]].
    + tauto.
    + split; [lra|]. intros [m Hm]. rewrite He in Hm. discriminate.
    + split; [lra|]. intros [m Hm]. rewrite He in Hm. discriminate.
  - intros v p Hv Hp. destruct (GetHumRatioFromVapPres_cases v p)
      as [[Hv' _]|[(_ & _ & He)|(_ & Hne & _)]]; [lra | exact He | contradiction].
  - intros v p Hp Hlt. destruct (GetHumRatioFromVapPres_cases v p)
      as [[Hv' _]|[(_ & Heq & _)|(_ & _ & He)]]; [lra | lra |].
    eexists. split; [exact He|]. apply negative_quotient; lra.
  - intros cfg T p s Hs. unfold GetSatHumRatio. rewrite Hs. simpl.
    pose proof (GetSatVapPres_pos _ _ _ Hs) as Hpos. split.
    + intros ->. replace (s - s) with 0 by ring. apply py_div_zero.
    + intros Hlt. rewrite py_div_ok by lra. eexists. split; [reflexivity|].
      apply negative_quotient; lra.
Qed.

Lemma humidity_ratio_division_unguarded_witness :
  GetHumRatioFromVapPres 1000 1000 = Raise ZeroDivisionError /\
  exists w, GetHumRatioFromVapPres 2000 1000 = Ok w /\ w < 0.
Proof.
  destruct humidity_ratio_division_unguarded as (_ & Hzero & Hneg & _).
  split.
  - apply Hzero; lra.
  - apply Hneg; lra.
Defined.

(** ** Relative humidity above saturation *)

Lemma GetRelHumFromVapPres_above_saturation (cfg : Config) (T VapPres s : R) :
  GetSatVapPres cfg T = Ok s ->
  s < VapPres ->
  exists r, GetRelHumFromVapPres cfg T VapPres = Ok r /\ 1 < r.
Proof.
  intros Hs Hlt. pose proof (GetSatVapPres_pos _ _ _ Hs) as Hpos.
  unfold GetRelHumFromVapPres, reject_if. cmp; [lra|].
  rewrite Hs. simpl. rewrite py_div_ok by lra.
  eexists. split; [reflexivity|].
  apply Rmult_lt_reg_r with s; [exact Hpos|].
  unfold Rdiv. rewrite Rmult_assoc, Rinv_l by lra. lra.
Qed.

Lemma ln_298_15_le : ln (25 + 273.15) <= 6.
Proof.
  replace 6 with (INR 64 * 0.09375) by (simpl; lra).
  apply ln_le_bound; lra.
Qed.

(** The saturation pressure at 25 °C (about 3170 Pa) is below one
    standard atmosphere. *)
Lemma SatVapPres_25C_below_atmosphere : exp (LnPws SI 25) < 101325.
Proof.
  apply Rle_lt_trans with 60000; [|lra].
  apply (exp_le_bound 64 0.157); [| lra | lra].
  unfold LnPws, GetTKelvinFromTCelsius. cmp; [lra|].
  pose proof ln_298_15_le as Hln. simpl INR. lra.
Qed.

Lemma GetRelHumFromVapPres_up_to_saturation (cfg : Config) (T VapPres s : R) :
  GetSatVapPres cfg T = Ok s ->
  0 <= VapPres <= s ->
  exists r, GetRelHumFromVapPres cfg T VapPres = Ok r /\ 0 <= r <= 1.
Proof.
  intros Hs [H0 Hle]. pose proof (GetSatVapPres_pos _ _ _ Hs) as Hpos.
  unfold GetRelHumFromVapPres, reject_if. cmp; [lra|].
  rewrite Hs. simpl. rewrite py_div_ok by lra.
  eexists. split; [reflexivity|]. split.
  - apply div_nonneg; assumption.
  - apply Rmult_le_reg_r with s; [exact Hpos|].
    unfold Rdiv. rewrite Rmult_assoc, Rinv_l by lra. lra.
Qed.

(** C5 fails on the code: in SI units, at a dry-bulb temperature of 25 °C
    and a vapor pressure of 101325 Pa (non-negative, so accepted by the
    only guard), [GetRelHumFromVapPres] returns a relative humidity above
    1, outside [0, 1].  In general the value returned lies in [0, 1] for a
    vapor pressure between 0 and the saturation pressure, and exceeds 1
    for any vapor pressure above the saturation pressure. *)
Theorem GetRelHumFromVapPres_exceeds_one :
  SetUnitSystem (AUnitSystem SI) initial_config = Ok cfgSI /\
  (exists r, GetRelHumFromVapPres cfgSI 25 101325 = Ok r /\ 1 < r) /\
  (forall cfg T VapPres s,
      GetSatVapPres cfg T = Ok s ->
      (0 <= VapPres <= s ->
       exists r, GetRelHumFromVapPres cfg T VapPres = Ok r /\ 0 <= r <= 1) /\
      (s < VapPres ->
       exists r, GetRelHumFromVapPres cfg T VapPres = Ok r /\ 1 < r)).
Proof.
  split; [reflexivity|]. split.
  - apply GetRelHumFromVapPres_above_saturation with (exp (LnPws SI 25)).
    + apply (GetSatVapPres_in_range cfgSI SI); [reflexivity|].
      unfold Tmin, Tmax; simpl; lra.
    + apply SatVapPres_25C_below_atmosphere.
  - intros cfg T VapPres s Hs. split.
    + apply GetRelHumFromVapPres_up_to_saturation. exact Hs.
    + apply GetRelHumFromVapPres_above_saturation. exact Hs.
Qed.

(** ** Loop-free functions always terminate *)

Lemma py_div_terminated (a b : R) : terminated (py_div a b).
Proof. destruct (py_div_cases a b) as [[_ ->]|[_ ->]]; discriminate. Qed.

Lemma GetSatVapPres_terminated (cfg : Config) (T : R) :
  terminated (GetSatVapPres cfg T).
Proof.
  destruct (__UNITS cfg) as [u|] eqn:Hu.
  - destruct (Rlt_dec T (Tmin u)) as [Hlo|Hlo].
    { rewrite (GetSatVapPres_out_of_range _ u) by auto. discriminate. }
    destruct (Rlt_dec (Tmax u) T) as [Hhi|Hhi].
    { rewrite (GetSatVapPres_out_of_range _ u) by auto. discriminate. }
    rewrite (GetSatVapPres_in_range _ u) by (auto; lra). discriminate.
  - rewrite GetSatVapPres_unset by auto. discriminate.
Qed.

Lemma GetSatHumRatio_terminated (cfg : Config) (T P : R) :
  terminated (GetSatHumRatio cfg T P).
Proof.
  unfold GetSatHumRatio. pose proof (GetSatVapPres_terminated cfg T) as H.
  destruct (GetSatVapPres cfg T); simpl; try discriminate; [|exact H].
  apply py_div_terminated.
Qed.

Lemma GetHumRatioFromTWetBulb_terminated (cfg : Config) (T Tw P : R) :
  terminated (GetHumRatioFromTWetBulb cfg T Tw P).
Proof.
  unfold GetHumRatioFromTWetBulb, reject_if.
  destruct (T <? Tw); [discriminate|].
  pose proof (GetSatHumRatio_terminated cfg Tw P) as H.
  destruct (GetSatHumRatio cfg Tw P); simpl; try discriminate; [|exact H].
  destruct (isIP cfg) as [[|]| |] eqn:Hip; simpl; try discriminate.
  - destruct (32 <=? Tw); apply py_div_terminated.
  - destruct (0 <=? Tw); apply py_div_terminated.
  - unfold isIP in Hip. destruct (__UNITS cfg) as [[|]|]; discriminate.
Qed.

(** ** More fuel never changes an outcome *)

Lemma bind_Ok_inv {A B : Type} (m : result A) (k : A -> result B) (b : B) :
  bind m k = Ok b -> exists a, m = Ok a /\ k a = Ok b.
Proof. destruct m; simpl; intros H; try discriminate. eauto. Qed.

Lemma bind_terminated {A B : Type} (m : result A) (k : A -> result B) :
  terminated (bind m k) ->
  terminated m /\ forall a, m = Ok a -> terminated (k a).
Proof.
  unfold terminated. destruct m; simpl; intros H.
  - split; [discriminate|]. intros a' Ha. inversion Ha; subst. exact H.
  - split; [discriminate|]. intros a' Ha. discriminate.
  - contradiction.
Qed.

Lemma NR_loop_fuel_mono (cfg : Config) (ip : bool) (lnVP : R) (n m : nat) :
  (n <= m)%nat ->
  forall T, terminated (NR_loop n cfg ip lnVP T) ->
            NR_loop m cfg ip lnVP T = NR_loop n cfg ip lnVP T.
Proof.
  revert m. induction n as [|n IH]; intros m Hle T Ht.
  - exfalso. apply Ht. reflexivity.
  - destruct m as [|m]; [lia|]. simpl in *.
    destruct (NR_step cfg ip lnVP T) as [t| |]; simpl in *; try reflexivity.
    destruct (Rabs (t - T) <=? __TOL cfg); [reflexivity|].
    apply IH; [lia | exact Ht].
Qed.

Lemma GetTDewPointFromVapPres_fuel_mono (cfg : Config) (n m : nat) (T VapPres : R) :
  (n <= m)%nat ->
  terminated (GetTDewPointFromVapPres n cfg T VapPres) ->
  GetTDewPointFromVapPres m cfg T VapPres = GetTDewPointFromVapPres n cfg T VapPres.
Proof.
  intros Hle. unfold GetTDewPointFromVapPres.
  destruct (isIP cfg) as [ip| |]; simpl; try reflexivity.
  destruct (GetSatVapPres cfg (fst (_BOUNDS ip))) as [plo| |]; simpl; try reflexivity.
  destruct (VapPres <? plo); [reflexivity|].
  destruct (GetSatVapPres cfg (snd (_BOUNDS ip))) as [phi| |]; simpl; try reflexivity.
  destruct (phi <? VapPres); [reflexivity|].
  destruct (math_log VapPres) as [l| |]; simpl; try reflexivity.
  intros Ht. apply bind_terminated in Ht. destruct Ht as [Ht _].
  rewrite (NR_loop_fuel_mono cfg ip l n m Hle T Ht). reflexivity.
Qed.

Lemma GetTDewPointFromHumRatio_fuel_mono (cfg : Config) (n m : nat) (T W P : R) :
  (n <= m)%nat ->
  terminated (GetTDewPointFromHumRatio n cfg T W P) ->
  GetTDewPointFromHumRatio m cfg T W P = GetTDewPointFromHumRatio n cfg T W P.
Proof.
  intros Hle. unfold GetTDewPointFromHumRatio, reject_if.
  destruct (W <? 0); [reflexivity|].
  destruct (GetVapPresFromHumRatio W P) as [v| |]; simpl; try reflexivity.
  apply GetTDewPointFromVapPres_fuel_mono. exact Hle.
Qed.

(** ** The bisection of [GetTWetBulbFromHumRatio] *)

Lemma bisection_loop_refines_spec (cfg : Config) (TDryBulb HumRatio Pressure : R)
  (fuel : nat) :
  forall Sup Inf TWetBulb,
    TWetBulb = (Inf + Sup) / 2 ->
    bisection_loop fuel cfg TDryBulb HumRatio Pressure Sup Inf TWetBulb =
    bisection_spec fuel cfg TDryBulb HumRatio Pressure Inf Sup.
Proof.
  induction fuel as [|fuel IH]; intros Sup Inf mid Hmid; simpl; subst mid.
  - cmp; try lra; reflexivity.
  - cmp; try lra; try reflexivity.
    destruct (GetHumRatioFromTWetBulb cfg TDryBulb ((Inf + Sup) / 2) Pressure)
      as [W| |]; simpl; try reflexivity.
    cmp; apply IH; lra.
Qed.

(** C2: for a non-negative humidity ratio, [GetTWetBulbFromHumRatio] is the
    bisection of the specification run on the interval from the dew point
    computed by [GetTDewPointFromHumRatio] up to the dry-bulb temperature. *)
Theorem GetTWetBulbFromHumRatio_is_bisection
  (fuel : nat) (cfg : Config) (TDryBulb HumRatio Pressure : R) :
  0 <= HumRatio ->
  GetTWetBulbFromHumRatio fuel cfg TDryBulb HumRatio Pressure =
  (TDewPoint <- GetTDewPointFromHumRatio fuel cfg TDryBulb HumRatio Pressure ;;
   bisection_spec fuel cfg TDryBulb HumRatio Pressure TDewPoint TDryBulb).
Proof.
  intros HW. unfold GetTWetBulbFromHumRatio, reject_if. cmp; [lra|].
  destruct (GetTDewPointFromHumRatio fuel cfg TDryBulb HumRatio Pressure)
    as [dew| |]; simpl; try reflexivity.
  apply bisection_loop_refines_spec. reflexivity.
Qed.

Lemma GetTWetBulbFromHumRatio_is_bisection_witness :
  GetTWetBulbFromHumRatio 100 cfgSI 25 0.01 101325 =
  (TDewPoint <- GetTDewPointFromHumRatio 100 cfgSI 25 0.01 101325 ;;
   bisection_spec 100 cfgSI 25 0.01 101325 TDewPoint 25).
Proof.
  apply (GetTWetBulbFromHumRatio_is_bisection 100 cfgSI 25 0.01 101325). lra.
Defined.

(** One pass of the loop halves the width of the interval. *)
Lemma bisection_width_halves (Sup Inf : R) :
  (Sup + Inf) / 2 - Inf = (Sup - Inf) / 2 /\
  Sup - (Sup + Inf) / 2 = (Sup - Inf) / 2.
Proof. split; field. Qed.

Lemma bisection_loop_terminates (cfg : Config) (TDryBulb HumRatio Pressure : R)
  (N : nat) :
  forall Sup Inf TWetBulb fuel,
    TWetBulb = (Sup + Inf) / 2 ->
    (Sup - Inf) / 2 ^ N <= __TOL cfg ->
    (N <= fuel)%nat ->
    terminated (bisection_loop fuel cfg TDryBulb HumRatio Pressure Sup Inf TWetBulb).
Proof.
  induction N as [|N IH]; intros Sup Inf mid fuel Hmid Hw Hfuel.
  - simpl in Hw. destruct fuel; simpl; cmp; try lra; discriminate.
  - destruct fuel as [|fuel]; [lia|]. simpl. cmp; [|discriminate].
    destruct (GetHumRatioFromTWetBulb cfg TDryBulb mid Pressure) as [W| |] eqn:HW;
      simpl; [|discriminate|].
    + assert (Hhalf : (Sup - Inf) / 2 / 2 ^ N <= __TOL cfg).
      { simpl in Hw. replace ((Sup - Inf) / 2 / 2 ^ N) with ((Sup - Inf) / (2 * 2 ^ N));
          [exact Hw|].
        field. apply pow_nonzero. lra. }
      destruct (bisection_width_halves Sup Inf) as [H1 H2].
      subst mid. cmp; apply IH; try reflexivity; try lia.
      * rewrite H1. exact Hhalf.
      * rewrite H2. exact Hhalf.
    + exfalso. exact (GetHumRatioFromTWetBulb_terminated _ _ _ _ HW).
Qed.

(** Repeated halving brings any width below a positive tolerance. *)
Lemma halving_reaches (w tol : R) : 0 < tol -> exists N : nat, w / 2 ^ N <= tol.
Proof.
  intros Htol. destruct (Rle_dec w 0) as [Hw|Hw].
  - exists O. simpl. lra.
  - assert (Hw' : 0 < w) by lra.
    assert (Hhalf : Rabs (/ 2) < 1) by (rewrite Rabs_pos_eq; lra).
    destruct (pow_lt_1_zero (/ 2) Hhalf (tol / w)) as [N HN].
    { apply Rdiv_lt_0_compat; assumption. }
    exists N. specialize (HN N (Nat.le_refl N)).
    rewrite Rabs_pos_eq in HN by (apply pow_le; lra).
    rewrite pow_inv in HN.
    unfold Rdiv. left.
    apply Rmult_lt_compat_l with (r := w) in HN; [|exact Hw'].
    replace (w * (tol / w)) with tol in HN by (field; lra).
    exact HN.
Qed.

(** ** The Newton-Raphson iteration of [GetTDewPointFromVapPres] *)

Lemma NR_step_in_bounds (cfg : Config) (ip : bool) (lnVP t t' : R) :
  NR_step cfg ip lnVP t = Ok t' ->
  fst (_BOUNDS ip) <= t' <= snd (_BOUNDS ip).
Proof.
  unfold NR_step. intros H.
  repeat (apply bind_Ok_inv in H; destruct H as (? & _ & H)).
  inversion H; subst. apply clamp_bounds. destruct ip; simpl; lra.
Qed.

Lemma NR_step_Ok_start (cfg : Config) (ip : bool) (lnVP t t' : R) :
  NR_step cfg ip lnVP t = Ok t' -> exists p, GetSatVapPres cfg t = Ok p.
Proof.
  unfold NR_step. intros H. apply bind_Ok_inv in H. destruct H as (p & Hp & _). eauto.
Qed.

(** The finite-difference step never leaves the validity range. *)
Lemma NR_StepSize_interior (u : UnitSystem) (t : R) :
  Tmin u <= t <= Tmax u ->
  Tmin u <= t + NR_StepSize (unit_ip u) t <= Tmax u /\ NR_StepSize (unit_ip u) t <> 0.
Proof.
  unfold NR_StepSize, Tmin, Tmax. destruct u; simpl; intros H; cmp; lra.
Qed.

(** The loop body written out on the validity range. *)
Lemma NR_step_in_range (cfg : Config) (u : UnitSystem) (lnVP t : R) :
  __UNITS cfg = Some u ->
  Tmin u <= t <= Tmax u ->
  let h := NR_StepSize (unit_ip u) t in
  NR_step cfg (unit_ip u) lnVP t =
  (q <- py_div (LnPws u t - lnVP) ((LnPws u (t + h) - LnPws u t) / h) ;;
   Ok (py_min (py_max (t - q) (Tmin u)) (Tmax u))).
Proof.
  intros Hu Ht h. destruct (NR_StepSize_interior u t Ht) as [Hh Hnz].
  unfold NR_step. fold (NR_StepSize (unit_ip u) t). fold h.
  rewrite (GetSatVapPres_in_range cfg u t Hu Ht). simpl.
  rewrite math_log_ok by apply exp_pos. simpl.
  rewrite (GetSatVapPres_in_range cfg u (t + h) Hu Hh). simpl.
  rewrite math_log_ok by apply exp_pos. simpl.
  rewrite !ln_exp. rewrite py_div_ok by exact Hnz. reflexivity.
Qed.

Lemma NR_step_raise_in_range (cfg : Config) (u : UnitSystem) (lnVP t : R) (e : exn) :
  __UNITS cfg = Some u ->
  Tmin u <= t <= Tmax u ->
  NR_step cfg (unit_ip u) lnVP t = Raise e ->
  e = ZeroDivisionError.
Proof.
  intros Hu Ht. rewrite (NR_step_in_range cfg u lnVP t Hu Ht). simpl.
  match goal with
  | |- context [py_div ?a ?b] => destruct (py_div_cases a b) as [[_ ->]|[_ ->]]
  end; simpl; intros H; inversion H; reflexivity.
Qed.

Lemma NR_step_out_of_range (cfg : Config) (u : UnitSystem) (ip : bool) (lnVP t : R) :
  __UNITS cfg = Some u ->
  t < Tmin u \/ Tmax u < t ->
  NR_step cfg ip lnVP t = Raise (ValueError (SatVapPres_range_error u)).
Proof.
  intros Hu Ht. unfold NR_step.
  rewrite (GetSatVapPres_out_of_range cfg u t Hu Ht). reflexivity.
Qed.

(** Started inside the validity range, the loop can only return, divide
    by zero, or run out of fuel; started outside, its first evaluation of
    the saturation pressure raises the range error. *)
Lemma NR_loop_raise (cfg : Config) (u : UnitSystem) (lnVP : R) (fuel : nat) :
  __UNITS cfg = Some u ->
  forall T e,
    NR_loop fuel cfg (unit_ip u) lnVP T = Raise e ->
    (Tmin u <= T <= Tmax u /\ e = ZeroDivisionError) \/
    ((T < Tmin u \/ Tmax u < T) /\ e = ValueError (SatVapPres_range_error u)).
Proof.
  intros Hu. induction fuel as [|fuel IH]; intros T e H; simpl in H; [discriminate|].
  destruct (Rlt_dec T (Tmin u)) as [Hlo|Hlo].
  { rewrite (NR_step_out_of_range cfg u _ lnVP T Hu) in H by auto.
    simpl in H. inversion H. right. auto. }
  destruct (Rlt_dec (Tmax u) T) as [Hhi|Hhi].
  { rewrite (NR_step_out_of_range cfg u _ lnVP T Hu) in H by auto.
    simpl in H. inversion H. right. auto. }
  assert (HT : Tmin u <= T <= Tmax u) by lra.
  left. split; [exact HT|].
  destruct (NR_step cfg (unit_ip u) lnVP T) as [t| |] eqn:Hstep; simpl in H.
  - destruct (Rabs (t - T) <=? __TOL cfg); [discriminate|].
    apply NR_step_in_bounds in Hstep. fold (Tmin u) (Tmax u) in Hstep.
    destruct (IH _ _ H) as [[_ He]|[Hout _]]; [exact He | lra].
  - inversion H; subst. eapply NR_step_raise_in_range; eauto.
  - discriminate.
Qed.

(** What the loop returns is an estimate of the sequence it was started
    on, reached in fewer passes than the fuel. *)
Lemma NR_loop_returns_estimate (cfg : Config) (ip : bool) (lnVP T0 : R) (fuel : nat) :
  forall k tk r,
    NR_estimate cfg ip lnVP T0 k = Ok tk ->
    NR_loop fuel cfg ip lnVP tk = Ok r ->
    exists n, (k <= n < k + fuel)%nat /\ NR_estimate cfg ip lnVP T0 (S n) = Ok r.
Proof.
  induction fuel as [|fuel IH]; intros k tk r Hk H; simpl in H; [discriminate|].
  destruct (NR_step cfg ip lnVP tk) as [t| |] eqn:Hstep; simpl in H; try discriminate.
  assert (HSk : NR_estimate cfg ip lnVP T0 (S k) = Ok t).
  { simpl. rewrite Hk. simpl. exact Hstep. }
  destruct (Rabs (t - tk) <=? __TOL cfg).
  - inversion H; subst. exists k. split; [lia | exact HSk].
  - destruct (IH (S k) t r HSk H) as (n & Hn & He). exists n. split; [lia | exact He].
Qed.

Lemma NR_estimate_in_bounds (cfg : Config) (ip : bool) (lnVP T0 : R) (k : nat) (t : R) :
  NR_estimate cfg ip lnVP T0 (S k) = Ok t ->
  fst (_BOUNDS ip) <= t <= snd (_BOUNDS ip).
Proof.
  simpl. intros H. apply bind_Ok_inv in H. destruct H as (t0 & _ & H).
  eapply NR_step_in_bounds; eauto.
Qed.

Lemma NR_loop_Ok_start (cfg : Config) (ip : bool) (lnVP T r : R) (fuel : nat) :
  NR_loop fuel cfg ip lnVP T = Ok r -> exists p, GetSatVapPres cfg T = Ok p.
Proof.
  destruct fuel as [|fuel]; simpl; [discriminate|]. intros H.
  apply bind_Ok_inv in H. destruct H as (t & Hstep & _).
  eapply NR_step_Ok_start; eauto.
Qed.

(** [GetTDewPointFromVapPres] once the unit system is set: the range check
    on the vapor pressure, then the loop started at [TDryBulb], then the
    final clamp. *)
Lemma GetTDewPointFromVapPres_set (cfg : Config) (u : UnitSystem) (fuel : nat)
  (TDryBulb VapPres : R) :
  __UNITS cfg = Some u ->
  GetTDewPointFromVapPres fuel cfg TDryBulb VapPres =
  if VapPres <? exp (LnPws u (Tmin u)) then Raise (ValueError vappres_out_of_range)
  else if VapPres >? exp (LnPws u (Tmax u)) then Raise (ValueError vappres_out_of_range)
  else
    TDewPoint <- NR_loop fuel cfg (unit_ip u) (ln VapPres) TDryBulb ;;
    Ok (py_min TDewPoint TDryBulb).
Proof.
  intros Hu. unfold GetTDewPointFromVapPres. rewrite (isIP_set cfg u Hu). simpl.
  pose proof (Tmin_Tmax u) as Hlt.
  fold (Tmin u) (Tmax u).
  rewrite (GetSatVapPres_in_range cfg u (Tmin u) Hu) by lra. simpl.
  rewrite (GetSatVapPres_in_range cfg u (Tmax u) Hu) by lra. simpl.
  pose proof (exp_pos (LnPws u (Tmin u))) as Hpos.
  cmp; try reflexivity. rewrite math_log_ok by lra. reflexivity.
Qed.

Lemma GetTDewPointFromVapPres_unset (fuel : nat) (cfg : Config) (T VapPres : R) :
  __UNITS cfg = None ->
  GetTDewPointFromVapPres fuel cfg T VapPres = Raise (ValueError units_undefined).
Proof.
  intros H. unfold GetTDewPointFromVapPres. rewrite (isIP_unset cfg H). reflexivity.
Qed.

(** A returned dew point lies within the validity bounds and does not
    exceed the dry-bulb temperature, which itself lies within the bounds. *)
Lemma GetTDewPointFromVapPres_Ok_bounds
  (fuel : nat) (cfg : Config) (u : UnitSystem) (TDryBulb VapPres r : R) :
  __UNITS cfg = Some u ->
  GetTDewPointFromVapPres fuel cfg TDryBulb VapPres = Ok r ->
  exists t,
    NR_loop fuel cfg (unit_ip u) (ln VapPres) TDryBulb = Ok t /\
    exp (LnPws u (Tmin u)) <= VapPres <= exp (LnPws u (Tmax u)) /\
    r = py_min t TDryBulb /\
    Tmin u <= TDryBulb <= Tmax u /\
    r <= TDryBulb /\
    Tmin u <= r <= Tmax u.
Proof.
  intros Hu H.
  rewrite (GetTDewPointFromVapPres_set cfg u fuel _ _ Hu) in H.
  revert H. cmp; try discriminate. intros H.
  apply bind_Ok_inv in H. destruct H as (t & Hloop & Hr). inversion Hr; subst r.
  destruct (NR_loop_returns_estimate cfg (unit_ip u) (ln VapPres) TDryBulb fuel
              0 TDryBulb t eq_refl Hloop) as (n & Hn & Hest).
  destruct (NR_loop_Ok_start _ _ _ _ _ _ Hloop) as (p & Hp).
  apply GetSatVapPres_Ok_inv in Hp. destruct Hp as (u' & Hu' & HT & _).
  rewrite Hu in Hu'. inversion Hu'; subst u'.
  pose proof (NR_estimate_in_bounds _ _ _ _ _ _ Hest) as Ht.
  fold (Tmin u) (Tmax u) in Ht.
  exists t. split; [exact Hloop|]. split; [lra|]. split; [reflexivity|].
  split; [exact HT|]. split; [apply py_min_le_r|]. split.
  - apply py_min_glb; lra.
  - pose proof (py_min_le_l t TDryBulb). lra.
Qed.

(** C1: whenever [GetTDewPointFromVapPres] returns a value [r] (so the
    vapor pressure passed the range check), that value comes from the
    Newton-Raphson sequence whose estimate number 0 is [TDryBulb]; every
    later estimate of the sequence lies within the validity bounds of the
    unit system; [r] is [min] of the last estimate and [TDryBulb]; hence
    [r <= TDryBulb] and [r] lies within the validity bounds. *)
Theorem GetTDewPointFromVapPres_result
  (fuel : nat) (cfg : Config) (TDryBulb VapPres r : R) :
  GetTDewPointFromVapPres fuel cfg TDryBulb VapPres = Ok r ->
  exists (u : UnitSystem) (n : nat) (tn : R),
    __UNITS cfg = Some u /\
    exp (LnPws u (Tmin u)) <= VapPres <= exp (LnPws u (Tmax u)) /\
    NR_estimate cfg (unit_ip u) (ln VapPres) TDryBulb 0 = Ok TDryBulb /\
    (forall k t, NR_estimate cfg (unit_ip u) (ln VapPres) TDryBulb (S k) = Ok t ->
                 Tmin u <= t <= Tmax u) /\
    (n < fuel)%nat /\
    NR_estimate cfg (unit_ip u) (ln VapPres) TDryBulb (S n) = Ok tn /\
    r = py_min tn TDryBulb /\
    r <= TDryBulb /\
    Tmin u <= r <= Tmax u.
Proof.
  intros H. destruct (__UNITS cfg) as [u|] eqn:Hu.
  2:{ rewrite (GetTDewPointFromVapPres_unset fuel cfg _ _ Hu) in H. discriminate. }
  destruct (GetTDewPointFromVapPres_Ok_bounds fuel cfg u _ _ _ Hu H)
    as (t & Hloop & HV & Hr & HT & Hle & Hb).
  destruct (NR_loop_returns_estimate cfg (unit_ip u) (ln VapPres) TDryBulb fuel
              0 TDryBulb t eq_refl Hloop) as (n & Hn & Hest).
  exists u, n, t.
  split; [reflexivity|]. split; [exact HV|]. split; [reflexivity|].
  split; [intros k t' Hk; exact (NR_estimate_in_bounds _ _ _ _ _ _ Hk)|].
  split; [lia|]. split; [exact Hest|]. split; [exact Hr|].
  split; [exact Hle | exact Hb].
Qed.

(** At saturation the iteration is at its fixed point: the first estimate
    is the starting temperature and the loop leaves after one pass. *)
Lemma GetTDewPointFromVapPres_at_saturation
  (cfg : Config) (u : UnitSystem) (fuel : nat) (T : R) :
  __UNITS cfg = Some u ->
  0 <= __TOL cfg ->
  Tmin u <= T <= Tmax u ->
  LnPws u (Tmin u) <= LnPws u T <= LnPws u (Tmax u) ->
  LnPws u (T + NR_StepSize (unit_ip u) T) <> LnPws u T ->
  GetTDewPointFromVapPres (S fuel) cfg T (exp (LnPws u T)) = Ok T.
Proof.
  intros Hu Htol HT [Hlo Hhi] Hd.
  destruct (NR_StepSize_interior u T HT) as [Hh Hnz].
  rewrite (GetTDewPointFromVapPres_set cfg u _ _ _ Hu).
  cmp.
  - apply exp_lt_inv in Hc. lra.
  - apply exp_lt_inv in Hc0. lra.
  - simpl. rewrite (NR_step_in_range cfg u _ T Hu HT). rewrite ln_exp.
    rewrite py_div_ok.
    2:{ intros Hz. apply Hd.
        apply Rmult_eq_compat_r with (r := NR_StepSize (unit_ip u) T) in Hz.
        unfold Rdiv in Hz. rewrite Rmult_assoc, Rinv_l, Rmult_1_r, Rmult_0_l in Hz by exact Hnz.
        lra. }
    simpl.
    replace (LnPws u T - LnPws u T) with 0 by ring.
    match goal with
    | |- context [0 / ?d] => replace (0 / d) with 0 by (unfold Rdiv; ring)
    end.
    replace (py_min (py_max (T - 0) (Tmin u)) (Tmax u)) with T
      by (unfold py_min, py_max; cmp; lra).
    replace (T - T) with 0 by ring. rewrite Rabs_R0.
    cmp; [|lra]. simpl. f_equal. unfold py_min. cmp; lra.
Qed.

(** *** Numeric facts about the SI saturation curve *)

Lemma ln_173_15_le : ln (-100 + 273.15) <= 6.
Proof.
  replace 6 with (INR 64 * 0.09375) by (simpl; lra).
  apply ln_le_bound; lra.
Qed.

Lemma ln_298_15_ge : 5 <= ln (25 + 273.15).
Proof.
  replace 5 with (INR 40 * 0.125) by (simpl; lra).
  apply ln_ge_bound; lra.
Qed.

Lemma ln_473_15_ge : 5 <= ln (200 + 273.15).
Proof.
  replace 5 with (INR 40 * 0.125) by (simpl; lra).
  apply ln_ge_bound; lra.
Qed.

Lemma LnPws_SI_Tmin_upper : LnPws SI (-100) <= -3.
Proof.
  unfold LnPws, GetTKelvinFromTCelsius. cmp; [|lra].
  pose proof ln_173_15_le. lra.
Qed.

Lemma LnPws_SI_Tmax_lower : 6 <= LnPws SI 200.
Proof.
  unfold LnPws, GetTKelvinFromTCelsius. cmp; [lra|].
  pose proof ln_473_15_ge. lra.
Qed.

Lemma LnPws_SI_25_bounds : LnPws SI (-100) <= LnPws SI 25 <= LnPws SI 200.
Proof.
  split.
  - apply Rle_trans with (-3); [apply LnPws_SI_Tmin_upper|].
    unfold LnPws, GetTKelvinFromTCelsius. cmp; [lra|].
    pose proof ln_298_15_ge. lra.
  - unfold LnPws, GetTKelvinFromTCelsius. cmp; try lra.
    assert (Hln : ln (25 + 273.15) < ln (200 + 273.15))
      by (apply ln_increasing; lra).
    lra.
Qed.

Lemma LnPws_SI_25_slope : LnPws SI (25 + NR_StepSize (unit_ip SI) 25) <> LnPws SI 25.
Proof.
  assert (Hstep : NR_StepSize (unit_ip SI) 25 = 0.01).
  { unfold NR_StepSize, _STEPSIZE, _BOUNDS, unit_ip, fst, snd. cmp; [lra | reflexivity]. }
  rewrite Hstep.
  unfold LnPws, GetTKelvinFromTCelsius. cmp; try lra.
  assert (Hln : ln (25 + 273.15) < ln (25 + 0.01 + 273.15))
    by (apply ln_increasing; lra).
  lra.
Qed.

Lemma GetTDewPointFromVapPres_result_witness :
  exists (u : UnitSystem) (n : nat) (tn : R),
    __UNITS cfgSI = Some u /\
    exp (LnPws u (Tmin u)) <= exp (LnPws SI 25) <= exp (LnPws u (Tmax u)) /\
    NR_estimate cfgSI (unit_ip u) (ln (exp (LnPws SI 25))) 25 0 = Ok 25 /\
    (forall k t,
        NR_estimate cfgSI (unit_ip u) (ln (exp (LnPws SI 25))) 25 (S k) = Ok t ->
        Tmin u <= t <= Tmax u) /\
    (n < 1)%nat /\
    NR_estimate cfgSI (unit_ip u) (ln (exp (LnPws SI 25))) 25 (S n) = Ok tn /\
    25 = py_min tn 25 /\
    25 <= 25 /\
    Tmin u <= 25 <= Tmax u.
Proof.
  apply (GetTDewPointFromVapPres_result 1 cfgSI 25 (exp (LnPws SI 25)) 25).
  apply (GetTDewPointFromVapPres_at_saturation cfgSI SI 0 25).
  - reflexivity.
  - simpl. lra.
  - unfold Tmin, Tmax. simpl. lra.
  - apply LnPws_SI_25_bounds.
  - apply LnPws_SI_25_slope.
Defined.

(** ** When [GetTDewPointFromVapPres] raises [ValueError] *)

Lemma range_errors_differ (u : UnitSystem) :
  SatVapPres_range_error u <> vappres_out_of_range.
Proof. destruct u; discriminate. Qed.

Lemma validity_bounds :
  (Tmin IP, Tmax IP) = (-148, 392) /\ (Tmin SI, Tmax SI) = (-100, 200).
Proof. split; reflexivity. Qed.

(** C7, amended: with the unit system set, [GetTDewPointFromVapPres] raises
    a [ValueError] exactly when the vapor pressure is below the saturation
    pressure at the lower validity bound or above the one at the upper
    validity bound, or when the dry-bulb temperature itself lies outside
    the validity bounds; the vapor-pressure message is raised exactly in
    the first two cases.  The bounds are [-148, 392] in IP and
    [-100, 200] in SI. *)
Theorem GetTDewPointFromVapPres_raises_ValueError
  (cfg : Config) (u : UnitSystem) (fuel : nat) (TDryBulb VapPres : R) :
  __UNITS cfg = Some u ->
  ((exists msg,
       GetTDewPointFromVapPres (S fuel) cfg TDryBulb VapPres = Raise (ValueError msg)) <->
   (VapPres < exp (LnPws u (Tmin u)) \/ exp (LnPws u (Tmax u)) < VapPres \/
    TDryBulb < Tmin u \/ Tmax u < TDryBulb)) /\
  (GetTDewPointFromVapPres (S fuel) cfg TDryBulb VapPres =
     Raise (ValueError vappres_out_of_range) <->
   (VapPres < exp (LnPws u (Tmin u)) \/ exp (LnPws u (Tmax u)) < VapPres)) /\
  GetSatVapPres cfg (Tmin u) = Ok (exp (LnPws u (Tmin u))) /\
  GetSatVapPres cfg (Tmax u) = Ok (exp (LnPws u (Tmax u))) /\
  (Tmin IP, Tmax IP) = (-148, 392) /\ (Tmin SI, Tmax SI) = (-100, 200).
Proof.
  intros Hu. pose proof (Tmin_Tmax u) as Hlt.
  rewrite (GetTDewPointFromVapPres_set cfg u _ _ _ Hu).
  split; [|split; [|split; [|split; [|apply validity_bounds]]]].
  - cmp.
    + split; [intros _; left; exact Hc | intros _; eauto].
    + split; [intros _; right; left; exact Hc0 | intros _; eauto].
    + destruct (NR_loop (S fuel) cfg (unit_ip u) (ln VapPres) TDryBulb)
        as [t|e|] eqn:Hloop; simpl.
      * split; [intros [msg Hm]; discriminate|]. intros HT.
        destruct (NR_loop_Ok_start _ _ _ _ _ _ Hloop) as (p & Hp).
        apply GetSatVapPres_Ok_inv in Hp. destruct Hp as (u' & Hu' & HT' & _).
        rewrite Hu in Hu'. inversion Hu'; subst u'. lra.
      * destruct (NR_loop_raise cfg u _ _ Hu _ _ Hloop) as [[HT ->]|[HT ->]].
        -- split; [intros [msg Hm]; discriminate | intros H; lra].
        -- split; [intros _; lra | intros _; eauto].
      * split; [intros [msg Hm]; discriminate|]. intros HT.
        simpl in Hloop.
        rewrite (NR_step_out_of_range cfg u _ _ TDryBulb Hu) in Hloop by lra.
        discriminate.
  - cmp.
    + split; [intros _; left; exact Hc | reflexivity].
    + split; [intros _; right; exact Hc0 | reflexivity].
    + split; [|lra]. intros H.
      destruct (NR_loop (S fuel) cfg (unit_ip u) (ln VapPres) TDryBulb)
        as [t|e|] eqn:Hloop; simpl in H; try discriminate.
      inversion H; subst e.
      destruct (NR_loop_raise cfg u _ _ Hu _ _ Hloop) as [[_ He]|[_ He]];
        [discriminate|].
      inversion He as [Hs]. exfalso. symmetry in Hs.
      exact (range_errors_differ u Hs).
  - apply GetSatVapPres_in_range; [exact Hu | lra].
  - apply GetSatVapPres_in_range; [exact Hu | lra].
Qed.

Lemma GetTDewPointFromVapPres_raises_ValueError_witness :
  GetSatVapPres cfgIP (Tmin IP) = Ok (exp (LnPws IP (Tmin IP))) /\
  (Tmin SI, Tmax SI) = (-100, 200).
Proof.
  destruct (GetTDewPointFromVapPres_raises_ValueError cfgIP IP 0 70 0.3 eq_refl)
    as (_ & _ & Hlo & _ & _ & Hsi).
  split; [exact Hlo | exact Hsi].
Defined.

(** C7 as stated fails: in SI units a vapor pressure of 1 Pa lies between
    the saturation pressures at -100 and 200 degrees Celsius, yet with a
    dry-bulb temperature of 300 the call raises a [ValueError]. *)
Lemma GetTDewPointFromVapPres_rejects_dry_bulb :
  SetUnitSystem (AUnitSystem SI) initial_config = Ok cfgSI /\
  exists plo phi,
    GetSatVapPres cfgSI (-100) = Ok plo /\
    GetSatVapPres cfgSI 200 = Ok phi /\
    ~ (1 < plo \/ 1 > phi) /\
    GetTDewPointFromVapPres 1 cfgSI 300 1 =
      Raise (ValueError "Dry bulb temperature must be in range [-100, 200]°C").
Proof.
  split; [reflexivity|].
  exists (exp (LnPws SI (-100))), (exp (LnPws SI 200)).
  assert (Hlo : exp (LnPws SI (-100)) < 1).
  { rewrite <- exp_0. apply exp_increasing. pose proof LnPws_SI_Tmin_upper. lra. }
  assert (Hhi : 1 < exp (LnPws SI 200)).
  { rewrite <- exp_0. apply exp_increasing. pose proof LnPws_SI_Tmax_lower. lra. }
  split; [|split; [|split]].
  - apply (GetSatVapPres_in_range cfgSI SI); [reflexivity|].
    unfold Tmin, Tmax; simpl; lra.
  - apply (GetSatVapPres_in_range cfgSI SI); [reflexivity|].
    unfold Tmin, Tmax; simpl; lra.
  - lra.
  - rewrite (GetTDewPointFromVapPres_set cfgSI SI _ _ _ eq_refl).
    change (Tmin SI) with (-100). change (Tmax SI) with 200.
    cmp; try lra.
    simpl. rewrite (NR_step_out_of_range cfgSI SI _ _ 300 eq_refl).
    + reflexivity.
    + unfold Tmin, Tmax; simpl; lra.
Qed.

(** ** Termination of the bisection

    A run in which the loop body is entered is given in the last section,
    once the slope of the saturation curve is bounded. *)

(** C6: when the tolerance is strictly positive, the humidity ratio is
    non-negative and the dew point computed first does not exceed the
    dry-bulb temperature, the bisection loop of [GetTWetBulbFromHumRatio]
    terminates without a cap on the number of passes: each pass halves the
    width of the interval, some [N] has
    [(TDryBulb - TDewPoint) / 2 ^ N <= __TOL], and for any such [N] the
    loop has left after at most [N] passes. *)
Theorem GetTWetBulbFromHumRatio_bisection_terminates
  (cfg : Config) (TDryBulb HumRatio Pressure : R) (fuel0 : nat) (TDewPoint : R) :
  0 < __TOL cfg ->
  0 <= HumRatio ->
  GetTDewPointFromHumRatio fuel0 cfg TDryBulb HumRatio Pressure = Ok TDewPoint ->
  TDewPoint <= TDryBulb ->
  (forall Sup Inf : R,
      (Sup + Inf) / 2 - Inf = (Sup - Inf) / 2 /\
      Sup - (Sup + Inf) / 2 = (Sup - Inf) / 2) /\
  (exists N : nat, (TDryBulb - TDewPoint) / 2 ^ N <= __TOL cfg) /\
  (forall N fuel : nat,
      (TDryBulb - TDewPoint) / 2 ^ N <= __TOL cfg ->
      (fuel0 <= fuel)%nat -> (N <= fuel)%nat ->
      terminated (GetTWetBulbFromHumRatio fuel cfg TDryBulb HumRatio Pressure)).
Proof.
  intros Htol HW Hdew Hle.
  split; [exact bisection_width_halves|].
  split; [exact (halving_reaches (TDryBulb - TDewPoint) (__TOL cfg) Htol)|].
  intros N fuel HN H0 HNf.
  unfold GetTWetBulbFromHumRatio, reject_if. cmp; [lra|].
  assert (Hmono := GetTDewPointFromHumRatio_fuel_mono cfg fuel0 fuel
                     TDryBulb HumRatio Pressure H0).
  rewrite Hmono by (rewrite Hdew; discriminate).
  rewrite Hdew. simpl.
  apply bisection_loop_terminates with (N := N); [lra | exact HN | exact HNf].
Qed.

(** ** Before [SetUnitSystem] has been called *)

(** Unfold the loop-free functions built on top of the primitives. *)
Ltac unfold_lib :=
  unfold float, tuple,
    GetTWetBulbFromTDewPoint, GetTWetBulbFromRelHum, GetRelHumFromTDewPoint,
    GetRelHumFromTWetBulb, GetTDewPointFromRelHum, GetTDewPointFromTWetBulb,
    GetVapPresFromRelHum, GetRelHumFromVapPres, GetVapPresFromTDewPoint,
    GetTWetBulbFromHumRatio, GetHumRatioFromTWetBulb, GetHumRatioFromRelHum,
    GetRelHumFromHumRatio, GetHumRatioFromTDewPoint, GetTDewPointFromHumRatio,
    GetHumRatioFromVapPres, GetVapPresFromHumRatio,
    GetDryAirEnthalpy, GetDryAirDensity, GetDryAirVolume,
    GetSatHumRatio, GetSatAirEnthalpy, GetVaporPressureDeficit,
    GetDegreeOfSaturation, GetMoistAirEnthalpy, GetMoistAirVolume,
    GetMoistAirDensity, GetStandardAtmPressure, GetStandardAtmTemperature,
    GetSeaLevelPressure, GetStationPressure,
    CalcPsychrometricsFromTWetBulb, CalcPsychrometricsFromTDewPoint,
    CalcPsychrometricsFromRelHum, reject_if.

(** Evaluate a call in a configuration whose unit system is unset. *)
Ltac eval_unset Hu :=
  repeat (first
    [ rewrite (isIP_unset _ Hu)
    | rewrite (GetSatVapPres_unset _ _ Hu)
    | rewrite (GetTDewPointFromVapPres_unset _ _ _ _ Hu)
    | rewrite py_div_ok by lra
    | progress cbn [bind orb] ]).

Ltac use_domain H :=
  let Hrh := fresh "Hrh" in let Hw := fresh "Hw" in let Htw := fresh "Htw" in
  let Htd := fresh "Htd" in let Hv := fresh "Hv" in let HP := fresh "HP" in
  destruct H as (Hrh & Hw & Htw & Htd & Hv & HP);
  cbn [RelHum_of HumRatio_of TWetBulb_of TDewPoint_of VapPres_of Pressure_of] in *;
  try specialize (Hrh _ eq_refl); try specialize (Hw _ eq_refl);
  try specialize (Htw _ _ eq_refl); try specialize (Htd _ _ eq_refl);
  try specialize (Hv _ eq_refl); try specialize (HP _ eq_refl).

Lemma unit_free_run (fuel : nat) (c : call) (cfg cfg' : Config) :
  unit_free c = true -> run fuel cfg c = run fuel cfg' c.
Proof. destruct c; simpl; intros H; try discriminate; reflexivity. Qed.

Ltac run_unset Hu :=
  repeat first
    [ progress unfold_lib
    | progress cmp
    | progress eval_unset Hu
    | progress cbn [bind orb] ].

Lemma unset_raises_ValueError (fuel : nat) (cfg : Config) (c : call) :
  __UNITS cfg = None ->
  unit_free c = false ->
  exists msg, run fuel cfg c = Raise (ValueError msg).
Proof.
  intros Hu Hfree.
  destruct c; try discriminate Hfree; cbn [run]; run_unset Hu; eauto.
Qed.

Lemma unset_in_domain_uninitialized (fuel : nat) (cfg : Config) (c : call) :
  __UNITS cfg = None ->
  unit_free c = false ->
  in_domain c ->
  uninitialized_fault (run fuel cfg c).
Proof.
  intros Hu Hfree Hdom. unfold uninitialized_fault.
  destruct c; try discriminate Hfree; use_domain Hdom; cbn [run];
    run_unset Hu; try reflexivity; try lra;
    exfalso;
    match goal with
    | H : ?a / ?b < 0 |- _ =>
        assert (0 <= a / b) by (apply div_nonneg; nra); lra
    end.
Qed.

(** C3 as stated fails: before [SetUnitSystem] is called, [GetUnitSystem]
    returns the unset value instead of failing, and
    [GetHumRatioFromVapPres] returns a numeric result. *)
Lemma unset_calls_that_return :
  GetUnitSystem initial_config = Ok None /\
  run 0 initial_config (CGetHumRatioFromVapPres 1000 101325)
  = Ok (VFloat (0.621945 * 1000 / (101325 - 1000))).
Proof.
  split; [reflexivity|].
  cbn [run]. unfold float, GetHumRatioFromVapPres, reject_if.
  cmp; [lra|]. rewrite py_div_ok by lra. reflexivity.
Qed.

Lemma unit_free_never_uninitialized (fuel : nat) (cfg : Config) (c : call) :
  unit_free c = true -> ~ uninitialized_fault (run fuel cfg c).
Proof.
  unfold uninitialized_fault.
  destruct c; try discriminate; intros _; cbn [run];
    unfold float, GetHumRatioFromVapPres, GetVapPresFromHumRatio, reject_if, py_div;
    try discriminate.
  - destruct (VapPres <? 0); [discriminate|].
    destruct (Req_dec_T (Pressure - VapPres) 0); discriminate.
  - destruct (HumRatio <? 0); [discriminate|].
    destruct (Req_dec_T (0.621945 + HumRatio) 0); discriminate.
Qed.

Lemma unit_free_in_domain (fuel : nat) (cfg : Config) (c : call) :
  unit_free c = true ->
  in_domain c ->
  ((forall p, c <> CGetHumRatioFromVapPres p p) ->
   exists x, run fuel cfg c = Ok (VFloat x)) /\
  (forall p, c = CGetHumRatioFromVapPres p p ->
             run fuel cfg c = Raise ZeroDivisionError).
Proof.
  intros Hfree Hdom.
  destruct c; try discriminate Hfree; use_domain Hdom; cbn [run]; split;
    try (intros p Hp; discriminate Hp).
  - intros _. eexists. reflexivity.
  - intros _. eexists. reflexivity.
  - intros Hne. unfold float, GetHumRatioFromVapPres, reject_if. cmp; [lra|].
    rewrite py_div_ok.
    + cbn [bind]. eexists. reflexivity.
    + intros Hz. apply (Hne VapPres). f_equal. lra.
  - intros p Hp. inversion Hp; subst.
    unfold float, GetHumRatioFromVapPres, reject_if. cmp; [lra|].
    replace (p - p) with 0 by ring. rewrite py_div_zero. reflexivity.
  - intros _. unfold float, GetVapPresFromHumRatio, reject_if. cmp; [lra|].
    rewrite py_div_ok by lra. cbn [bind]. eexists. reflexivity.
Qed.

(** C3, amended: before [SetUnitSystem] has been called, [GetUnitSystem]
    returns the unset value without failing and [isIP] raises the
    uninitialized-state [ValueError]; every operation that reads the unit
    system raises a [ValueError] instead of returning a result, and that
    error is the uninitialized-state one whenever the arguments are in
    their domains (otherwise an argument check may raise first); the
    operations that never read the unit system behave as in any other
    configuration and never raise the uninitialized-state error: with
    arguments in their domains they return a numeric result, except that
    [GetHumRatioFromVapPres] raises [ZeroDivisionError] when the vapor
    pressure equals the pressure. *)
Theorem before_SetUnitSystem :
  GetUnitSystem initial_config = Ok None /\
  uninitialized_fault (isIP initial_config) /\
  (forall (fuel : nat) (c : call),
      unit_free c = false ->
      (exists msg, run fuel initial_config c = Raise (ValueError msg)) /\
      (in_domain c -> uninitialized_fault (run fuel initial_config c))) /\
  (forall (fuel : nat) (c : call) (cfg : Config),
      unit_free c = true ->
      run fuel initial_config c = run fuel cfg c) /\
  (forall (fuel : nat) (c : call),
      unit_free c = true ->
      ~ uninitialized_fault (run fuel initial_config c) /\
      (in_domain c ->
       ((forall p, c <> CGetHumRatioFromVapPres p p) ->
        exists x, run fuel initial_config c = Ok (VFloat x)) /\
       (forall p, c = CGetHumRatioFromVapPres p p ->
                  run fuel initial_config c = Raise ZeroDivisionError))).
Proof.
  split; [reflexivity|]. split; [reflexivity|]. split; [|split].
  - intros fuel c Hfree. split.
    + apply unset_raises_ValueError; [reflexivity | exact Hfree].
    + apply unset_in_domain_uninitialized; [reflexivity | exact Hfree].
  - intros fuel c cfg Hfree. apply unit_free_run. exact Hfree.
  - intros fuel c Hfree. split.
    + apply unit_free_never_uninitialized. exact Hfree.
    + apply unit_free_in_domain. exact Hfree.
Qed.

Lemma before_SetUnitSystem_witness :
  uninitialized_fault (run 0 initial_config (CGetVapPresFromRelHum 25 0.5)) /\
  run 0 initial_config (CGetTKelvinFromTCelsius 25) =
  run 0 cfgSI (CGetTKelvinFromTCelsius 25) /\
  (exists x, run 0 initial_config (CGetVapPresFromHumRatio 0.01 101325) = Ok (VFloat x)) /\
  run 0 initial_config (CGetHumRatioFromVapPres 1000 1000) = Raise ZeroDivisionError.
Proof.
  destruct before_SetUnitSystem as (_ & _ & Hunit & Hfree & Hret).
  assert (Hdom : forall c,
             RelHum_of c = None \/ RelHum_of c = Some 0.5 ->
             HumRatio_of c = None \/ HumRatio_of c = Some 0.01 ->
             TWetBulb_of c = None -> TDewPoint_of c = None ->
             VapPres_of c = None \/ VapPres_of c = Some 1000 ->
             Pressure_of c = None \/ Pressure_of c = Some 101325
               \/ Pressure_of c = Some 1000 ->
             in_domain c).
  { intros c Hrh Hw Htw Htd Hv HP. unfold in_domain.
    repeat split; intros;
      repeat match goal with
             | H : _ \/ _ |- _ => destruct H
             end;
      try congruence;
      match goal with
      | H1 : ?f c = Some _, H2 : ?f c = Some _ |- _ =>
          rewrite H1 in H2; inversion H2; subst; lra
      end. }
  split; [|split; [|split]].
  - apply (Hunit 0%nat (CGetVapPresFromRelHum 25 0.5)); [reflexivity|].
    apply Hdom; cbn; auto.
  - apply Hfree. reflexivity.
  - destruct (Hret 0%nat (CGetVapPresFromHumRatio 0.01 101325) eq_refl) as [_ H].
    destruct H as [H _]; [apply Hdom; cbn; auto|].
    apply H. intros p Hp. discriminate Hp.
  - destruct (Hret 0%nat (CGetHumRatioFromVapPres 1000 1000) eq_refl) as [_ H].
    destruct H as [_ H]; [apply Hdom; cbn; auto|].
    apply (H 1000). reflexivity.
Defined.

(** ** The argument checks *)

Ltac invalid_argument :=
  eexists; split; [reflexivity | discriminate].

Lemma argument_checks (fuel : nat) (cfg : Config) (c : call) :
  (forall rh, RelHum_of c = Some rh -> rh < 0 \/ 1 < rh ->
              invalid_argument_fault (run fuel cfg c)) /\
  (forall w, HumRatio_of c = Some w -> w < 0 ->
             invalid_argument_fault (run fuel cfg c)) /\
  (forall T Tw, TWetBulb_of c = Some (T, Tw) -> T < Tw ->
                invalid_argument_fault (run fuel cfg c)) /\
  (forall T Td, TDewPoint_of c = Some (T, Td) -> T < Td ->
                (forall P, c <> CCalcPsychrometricsFromTDewPoint T Td P) ->
                invalid_argument_fault (run fuel cfg c)).
Proof.
  unfold invalid_argument_fault.
  split; [|split; [|split]].
  - intros rh H Hrh. destruct c; try discriminate H; inversion H; subst;
      cbn [run]; repeat first [progress unfold_lib | progress cmp | progress cbn [bind orb]];
      try lra; invalid_argument.
  - intros w H Hw. destruct c; try discriminate H; inversion H; subst;
      cbn [run]; repeat first [progress unfold_lib | progress cmp | progress cbn [bind orb]];
      try lra; invalid_argument.
  - intros T Tw H Hlt. destruct c; try discriminate H; inversion H; subst;
      cbn [run]; repeat first [progress unfold_lib | progress cmp | progress cbn [bind orb]];
      try lra; invalid_argument.
  - intros T Td H Hlt Hne. destruct c; try discriminate H; inversion H; subst;
      try (exfalso; eapply Hne; reflexivity);
      cbn [run]; repeat first [progress unfold_lib | progress cmp | progress cbn [bind orb]];
      try lra; invalid_argument.
Qed.

(** ** Calls that raise no [ValueError] *)

Lemma py_div_no_ValueError (a b : R) : no_ValueError (py_div a b).
Proof.
  intros msg. destruct (py_div_cases a b) as [[_ ->]|[_ ->]]; discriminate.
Qed.

Lemma bind_no_ValueError {A B : Type} (m : result A) (k : A -> result B) :
  no_ValueError m ->
  (forall a, m = Ok a -> no_ValueError (k a)) ->
  no_ValueError (bind m k).
Proof.
  intros Hm Hk msg. destruct m as [a|e|]; simpl.
  - apply Hk. reflexivity.
  - intros H. inversion H; subst. exact (Hm msg eq_refl).
  - discriminate.
Qed.

Lemma NR_loop_no_ValueError (cfg : Config) (u : UnitSystem) (lnVP T : R) (fuel : nat) :
  __UNITS cfg = Some u ->
  Tmin u <= T <= Tmax u ->
  no_ValueError (NR_loop fuel cfg (unit_ip u) lnVP T).
Proof.
  intros Hu HT msg H.
  destruct (NR_loop_raise cfg u lnVP fuel Hu _ _ H) as [[_ He]|[Hout _]];
    [discriminate | lra].
Qed.

Lemma GetTDewPointFromVapPres_no_ValueError
  (cfg : Config) (u : UnitSystem) (fuel : nat) (T VapPres : R) :
  __UNITS cfg = Some u ->
  Tmin u <= T <= Tmax u ->
  exp (LnPws u (Tmin u)) <= VapPres <= exp (LnPws u (Tmax u)) ->
  no_ValueError (GetTDewPointFromVapPres fuel cfg T VapPres).
Proof.
  intros Hu HT HV. rewrite (GetTDewPointFromVapPres_set cfg u _ _ _ Hu).
  cmp; try lra.
  apply bind_no_ValueError.
  - apply NR_loop_no_ValueError; assumption.
  - intros t _ msg. discriminate.
Qed.

Lemma GetHumRatioFromTWetBulb_no_ValueError
  (cfg : Config) (u : UnitSystem) (T Tw P : R) :
  __UNITS cfg = Some u ->
  Tmin u <= Tw <= Tmax u ->
  Tw <= T ->
  no_ValueError (GetHumRatioFromTWetBulb cfg T Tw P).
Proof.
  intros Hu HTw Hle. unfold GetHumRatioFromTWetBulb, GetSatHumRatio, reject_if.
  destruct (T <? Tw) eqn:Hc; [apply Rltb_lt in Hc; lra|].
  rewrite (GetSatVapPres_in_range cfg u Tw Hu HTw). cbn [bind].
  apply bind_no_ValueError; [apply py_div_no_ValueError|].
  intros W _. rewrite (isIP_set cfg u Hu). cbn [bind].
  destruct u; cbn [unit_ip]; cmp; apply py_div_no_ValueError.
Qed.

(** The bisection keeps its interval, hence its midpoint, between the
    lower validity bound and the dry-bulb temperature. *)
Lemma bisection_loop_no_ValueError
  (cfg : Config) (u : UnitSystem) (T W P : R) (fuel : nat) :
  __UNITS cfg = Some u ->
  T <= Tmax u ->
  forall Sup Inf mid,
    Tmin u <= Inf <= T -> Tmin u <= Sup <= T ->
    mid = (Sup + Inf) / 2 ->
    no_ValueError (bisection_loop fuel cfg T W P Sup Inf mid).
Proof.
  intros Hu HT. induction fuel as [|fuel IH]; intros Sup Inf mid HInf HSup Hmid.
  - simpl. cmp; intros msg; discriminate.
  - simpl. cmp; [|intros msg; discriminate].
    apply bind_no_ValueError.
    + apply (GetHumRatioFromTWetBulb_no_ValueError cfg u); [exact Hu | lra | lra].
    + intros Wstar _. cmp; apply IH; lra.
Qed.

Lemma GetTWetBulbFromHumRatio_no_ValueError
  (cfg : Config) (u : UnitSystem) (fuel : nat) (T W P : R) :
  __UNITS cfg = Some u ->
  Tmin u <= T <= Tmax u ->
  0 <= W ->
  exp (LnPws u (Tmin u)) <= P * W / (0.621945 + W) <= exp (LnPws u (Tmax u)) ->
  no_ValueError (GetTWetBulbFromHumRatio fuel cfg T W P).
Proof.
  intros Hu HT HW HV.
  unfold GetTWetBulbFromHumRatio, GetTDewPointFromHumRatio, GetVapPresFromHumRatio,
    reject_if.
  cmp; [lra|]. rewrite py_div_ok by lra. cbn [bind].
  apply bind_no_ValueError.
  - apply (GetTDewPointFromVapPres_no_ValueError cfg u); assumption.
  - intros dew Hdew.
    destruct (GetTDewPointFromVapPres_Ok_bounds _ _ u _ _ _ Hu Hdew)
      as (t & _ & _ & _ & _ & Hle & Hr).
    apply (bisection_loop_no_ValueError cfg u); try lra; try assumption.
Qed.

(** ** [CalcPsychrometricsFromTDewPoint] with a dew point above the
       dry-bulb temperature *)

Lemma LnPws_SI_20_lt_25 : LnPws SI 20 < LnPws SI 25.
Proof.
  unfold LnPws, GetTKelvinFromTCelsius. cmp; try lra.
  assert (Hln : ln (20 + 273.15) < ln (25 + 273.15)) by (apply ln_increasing; lra).
  lra.
Qed.

Lemma GetHumRatioFromTDewPoint_25C :
  GetHumRatioFromTDewPoint cfgSI 25 101325
  = Ok (0.621945 * exp (LnPws SI 25) / (101325 - exp (LnPws SI 25))).
Proof.
  unfold GetHumRatioFromTDewPoint.
  rewrite (GetSatVapPres_in_range cfgSI SI 25 eq_refl)
    by (unfold Tmin, Tmax; simpl; lra).
  cbn [bind]. unfold GetHumRatioFromVapPres, reject_if.
  pose proof (exp_pos (LnPws SI 25)) as Hpos.
  pose proof SatVapPres_25C_below_atmosphere as Hlt.
  cmp; [lra|]. apply py_div_ok. lra.
Qed.

(** The humidity ratio of air saturated at 25 °C under one atmosphere is
    positive and gives back the saturation pressure at 25 °C. *)
Lemma HumRatio_25C_facts :
  let s := exp (LnPws SI 25) in
  let W := 0.621945 * s / (101325 - s) in
  0 < W /\ 101325 * W / (0.621945 + W) = s.
Proof.
  intros s W. subst W.
  assert (Hpos : 0 < s) by apply exp_pos.
  assert (Hlt : s < 101325) by apply SatVapPres_25C_below_atmosphere.
  split.
  - apply Rdiv_lt_0_compat; lra.
  - field. split; lra.
Qed.

Lemma GetRelHumFromHumRatio_20C_25C :
  let W := 0.621945 * exp (LnPws SI 25) / (101325 - exp (LnPws SI 25)) in
  GetRelHumFromHumRatio cfgSI 20 W 101325
  = Ok (exp (LnPws SI 25) / exp (LnPws SI 20)) /\
  1 < exp (LnPws SI 25) / exp (LnPws SI 20).
Proof.
  intros W. destruct HumRatio_25C_facts as [HW HV]. fold W in HW, HV.
  pose proof (exp_pos (LnPws SI 25)) as H25.
  pose proof (exp_pos (LnPws SI 20)) as H20.
  split.
  - unfold GetRelHumFromHumRatio, GetVapPresFromHumRatio, reject_if.
    cmp; [lra|]. rewrite py_div_ok by lra. cbn [bind]. rewrite HV.
    unfold GetRelHumFromVapPres, reject_if. cmp; [lra|].
    rewrite (GetSatVapPres_in_range cfgSI SI 20 eq_refl)
      by (unfold Tmin, Tmax; simpl; lra).
    cbn [bind]. apply py_div_ok. lra.
  - apply Rmult_lt_reg_r with (exp (LnPws SI 20)); [exact H20|].
    unfold Rdiv. rewrite Rmult_assoc, Rinv_l, Rmult_1_l, Rmult_1_r by lra.
    apply exp_increasing. apply LnPws_SI_20_lt_25.
Qed.

(** *** A dew point half a millidegree above the dry-bulb temperature *)

Lemma ln_le_minus_1 (x : R) : 0 < x -> ln x <= x - 1.
Proof.
  intros Hx. pose proof (exp_ge_1_plus (ln x)) as H.
  rewrite exp_ln in H by exact Hx. lra.
Qed.

Lemma ln_increment (a b : R) : 0 < a -> 0 < b -> ln b - ln a <= (b - a) / a.
Proof.
  intros Ha Hb.
  assert (Hq : 0 < b / a) by (apply Rdiv_lt_0_compat; assumption).
  pose proof (ln_le_minus_1 (b / a) Hq) as H.
  unfold Rdiv in H at 1. rewrite ln_mult in H by (try apply Rinv_0_lt_compat; assumption).
  rewrite ln_Rinv in H by exact Ha.
  replace ((b - a) / a) with (b / a - 1) by (field; lra). lra.
Qed.

Lemma LnPws_SI_25_0005_bounds :
  LnPws SI (-100) <= LnPws SI 25.0005 <= LnPws SI 200 /\
  LnPws SI 25 < LnPws SI 25.0005 /\
  LnPws SI 25.0005 <= 10.048.
Proof.
  pose proof LnPws_SI_Tmin_upper as Hmin.
  assert (H1 : ln (25 + 273.15) < ln (25.0005 + 273.15)) by (apply ln_increasing; lra).
  assert (H2 : ln (25.0005 + 273.15) < ln (200 + 273.15)) by (apply ln_increasing; lra).
  assert (H3 : ln (25.0005 + 273.15) <= 6).
  { replace 6 with (INR 64 * 0.09375) by (simpl; lra). apply ln_le_bound; lra. }
  pose proof ln_298_15_ge as H4.
  unfold LnPws, GetTKelvinFromTCelsius in *. revert Hmin. cmp; try lra.
Qed.

(** From 25 °C, with the saturation pressure at 25.0005 °C as target, the
    first Newton-Raphson estimate is within the tolerance of the start. *)
Lemma NR_step_25_0005 :
  exists t1,
    NR_step cfgSI (unit_ip SI) (LnPws SI 25.0005) 25 = Ok t1 /\ 25 <= t1 <= 25.001.
Proof.
  assert (HT : Tmin SI <= 25 <= Tmax SI) by (unfold Tmin, Tmax; simpl; lra).
  rewrite (NR_step_in_range cfgSI SI _ 25 eq_refl HT).
  assert (Hstep : NR_StepSize (unit_ip SI) 25 = 0.01).
  { unfold NR_StepSize, _STEPSIZE, _BOUNDS, unit_ip, fst, snd. cmp; [lra | reflexivity]. }
  rewrite Hstep.
  set (A := LnPws SI 25.0005 - LnPws SI 25).
  set (D := (LnPws SI (25 + 0.01) - LnPws SI 25) / 0.01).
  assert (HA : 0 <= A <= 0.00003).
  { subst A. pose proof (ln_increment (25 + 273.15) (25.0005 + 273.15)) as Hinc.
    assert (Hln : ln (25 + 273.15) < ln (25.0005 + 273.15))
      by (apply ln_increasing; lra).
    unfold LnPws, GetTKelvinFromTCelsius. cmp; lra. }
  assert (HD : 0.037 <= D).
  { subst D.
    assert (Hln : ln (25 + 273.15) < ln (25 + 0.01 + 273.15))
      by (apply ln_increasing; lra).
    unfold LnPws, GetTKelvinFromTCelsius. cmp; lra. }
  replace (LnPws SI 25 - LnPws SI 25.0005) with (- A) by (subst A; ring).
  rewrite py_div_ok by lra. cbn [bind].
  assert (Hq : -0.001 <= - A / D <= 0).
  { assert (HDpos : 0 < D) by lra.
    assert (Hprod : - A / D * D = - A) by (field; lra).
    split.
    - apply Rmult_le_reg_r with D; [exact HDpos|]. rewrite Hprod. nra.
    - apply Rmult_le_reg_r with D; [exact HDpos|]. rewrite Hprod. lra. }
  eexists. split; [reflexivity|].
  change (Tmin SI) with (-100). change (Tmax SI) with 200.
  unfold py_min, py_max. cmp; lra.
Qed.

Lemma GetTDewPointFromVapPres_25_0005 (fuel : nat) :
  GetTDewPointFromVapPres (S fuel) cfgSI 25 (exp (LnPws SI 25.0005)) = Ok 25.
Proof.
  destruct LnPws_SI_25_0005_bounds as ([Hlo Hhi] & _ & _).
  destruct NR_step_25_0005 as (t1 & Hstep & Ht1).
  rewrite (GetTDewPointFromVapPres_set cfgSI SI _ _ _ eq_refl).
  change (Tmin SI) with (-100). change (Tmax SI) with 200.
  cmp.
  - apply exp_lt_inv in Hc. lra.
  - apply exp_lt_inv in Hc0. lra.
  - rewrite ln_exp. cbn [NR_loop]. rewrite Hstep. cbn [bind].
    assert (Habs : Rabs (t1 - 25) <= __TOL cfgSI).
    { rewrite Rabs_pos_eq by lra. simpl. lra. }
    apply Rleb_le in Habs. rewrite Habs. cbn [bind]. f_equal.
    unfold py_min. cmp; lra.
Qed.

(** The composite function returns at a dew point above the dry-bulb
    temperature, with a relative humidity above 1. *)
Lemma CalcPsychrometricsFromTDewPoint_25_0005 (fuel : nat) :
  exists HumRatio RelHum VapPres h v mu,
    CalcPsychrometricsFromTDewPoint (S fuel) cfgSI 25 25.0005 101325
    = Ok (HumRatio, 25, RelHum, VapPres, h, v, mu) /\ 1 < RelHum.
Proof.
  destruct LnPws_SI_25_0005_bounds as (_ & Hgt & Hub).
  set (s := exp (LnPws SI 25.0005)).
  set (s25 := exp (LnPws SI 25)).
  assert (Hs : 0 < s) by apply exp_pos.
  assert (Hs25 : 0 < s25) by apply exp_pos.
  assert (Hlt : s25 < s) by (apply exp_increasing; exact Hgt).
  assert (HsP : s < 101325).
  { apply Rle_lt_trans with 60000; [|lra].
    apply (exp_le_bound 64 0.157); [simpl INR; lra | lra | lra]. }
  set (W := 0.621945 * s / (101325 - s)).
  assert (HW : 0 < W) by (apply Rdiv_lt_0_compat; lra).
  assert (HV : 101325 * W / (0.621945 + W) = s) by (subst W; field; split; lra).
  assert (Hsat25 : GetSatVapPres cfgSI 25 = Ok s25)
    by (apply (GetSatVapPres_in_range cfgSI SI 25 eq_refl);
        unfold Tmin, Tmax; simpl; lra).
  assert (Hsat : GetSatVapPres cfgSI 25.0005 = Ok s)
    by (apply (GetSatVapPres_in_range cfgSI SI 25.0005 eq_refl);
        unfold Tmin, Tmax; simpl; lra).
  assert (HTol : (25 - 25 >? __TOL cfgSI) = false) by (apply Rltb_ge; simpl; lra).
  assert (HW0 : (W <? 0) = false) by (apply Rltb_ge; lra).
  assert (Hs0 : (s <? 0) = false) by (apply Rltb_ge; lra).
  assert (HWsat : 0.621945 * s25 / (101325 - s25) <> 0).
  { apply Rgt_not_eq. apply Rdiv_lt_0_compat; lra. }
  exists W, (s / s25), s.
  unfold CalcPsychrometricsFromTDewPoint, GetHumRatioFromTDewPoint,
    GetHumRatioFromVapPres, GetTWetBulbFromHumRatio, GetTDewPointFromHumRatio,
    GetRelHumFromHumRatio, GetRelHumFromVapPres, GetVapPresFromHumRatio,
    GetMoistAirEnthalpy, GetMoistAirVolume, GetDegreeOfSaturation, GetSatHumRatio,
    reject_if.
  rewrite Hsat. cbn [bind]. rewrite Hs0.
  rewrite (py_div_ok _ (101325 - s)) by lra. fold W. cbn [bind].
  rewrite HW0. rewrite (py_div_ok _ (0.621945 + W)) by lra. cbn [bind].
  rewrite HV. rewrite GetTDewPointFromVapPres_25_0005. cbn [bind].
  destruct fuel; cbn [bisection_loop]; rewrite HTol; cbn [bind];
    rewrite Hs0, Hsat25; cbn [bind];
    rewrite (py_div_ok s s25) by lra; cbn [bind];
    rewrite (isIP_set cfgSI SI eq_refl); cbn [bind unit_ip];
    rewrite (py_div_ok _ 101325) by lra; cbn [bind];
    rewrite (py_div_ok _ (101325 - s25)) by lra; cbn [bind];
    rewrite (py_div_ok W) by exact HWsat; cbn [bind];
    replace ((25 + 25) / 2) with 25 by lra;
    (do 3 eexists; split; [reflexivity|]);
    (apply Rmult_lt_reg_r with s25; [exact Hs25|]);
    unfold Rdiv; rewrite Rmult_assoc, Rinv_l, Rmult_1_l, Rmult_1_r by lra;
    exact Hlt.
Qed.

(** C4 fails on the code for one operation.  In SI units, with a dry-bulb
    temperature of 20, a dew-point temperature of 25 (strictly above it)
    and a pressure of 101325, [CalcPsychrometricsFromTDewPoint] raises no
    [ValueError], whatever the number of loop iterations allowed, and
    whenever it returns, the relative humidity of the returned tuple
    exceeds 1.  With a dry-bulb temperature of 25 and a dew-point
    temperature of 25.0005 it returns after one Newton-Raphson pass, again
    with a relative humidity above 1.  Every other operation rejects a
    relative humidity outside [0, 1], a negative humidity ratio, and a
    wet-bulb or dew-point temperature above the dry-bulb temperature, in
    any configuration. *)
Theorem CalcPsychrometricsFromTDewPoint_accepts_dew_point_above_dry_bulb :
  (forall fuel : nat,
      no_ValueError (run fuel cfgSI (CCalcPsychrometricsFromTDewPoint 20 25 101325)) /\
      forall HumRatio TWetBulb RelHum VapPres h v mu,
        CalcPsychrometricsFromTDewPoint fuel cfgSI 20 25 101325
        = Ok (HumRatio, TWetBulb, RelHum, VapPres, h, v, mu) ->
        1 < RelHum) /\
  (forall fuel : nat,
      exists HumRatio RelHum VapPres h v mu,
        CalcPsychrometricsFromTDewPoint (S fuel) cfgSI 25 25.0005 101325
        = Ok (HumRatio, 25, RelHum, VapPres, h, v, mu) /\ 1 < RelHum) /\
  (forall (fuel : nat) (cfg : Config) (c : call),
      (forall rh, RelHum_of c = Some rh -> rh < 0 \/ 1 < rh ->
                  invalid_argument_fault (run fuel cfg c)) /\
      (forall w, HumRatio_of c = Some w -> w < 0 ->
                 invalid_argument_fault (run fuel cfg c)) /\
      (forall T Tw, TWetBulb_of c = Some (T, Tw) -> T < Tw ->
                    invalid_argument_fault (run fuel cfg c)) /\
      (forall T Td, TDewPoint_of c = Some (T, Td) -> T < Td ->
                    (forall P, c <> CCalcPsychrometricsFromTDewPoint T Td P) ->
                    invalid_argument_fault (run fuel cfg c))).
Proof.
  split; [|split; [exact CalcPsychrometricsFromTDewPoint_25_0005
                  |intros fuel cfg c; apply argument_checks]].
  intros fuel.
  destruct HumRatio_25C_facts as [HW HV].
  destruct GetRelHumFromHumRatio_20C_25C as [HRH Hgt].
  pose proof LnPws_SI_25_bounds as [Hlo Hhi].
  set (W := 0.621945 * exp (LnPws SI 25) / (101325 - exp (LnPws SI 25))) in *.
  split.
  - cbn [run]. unfold tuple, CalcPsychrometricsFromTDewPoint.
    rewrite GetHumRatioFromTDewPoint_25C. fold W. cbn [bind].
    apply bind_no_ValueError; [|intros t _ msg; discriminate].
    apply bind_no_ValueError.
    { apply (GetTWetBulbFromHumRatio_no_ValueError cfgSI SI); try reflexivity.
      - unfold Tmin, Tmax; simpl; lra.
      - lra.
      - rewrite HV. change (Tmin SI) with (-100). change (Tmax SI) with 200.
        split.
        + destruct Hlo as [Hlo|Hlo]; [left; apply exp_increasing; exact Hlo | rewrite Hlo; lra].
        + destruct Hhi as [Hhi|Hhi]; [left; apply exp_increasing; exact Hhi | rewrite Hhi; lra]. }
    intros Tw _. rewrite HRH. cbn [bind].
    unfold GetVapPresFromHumRatio, GetMoistAirEnthalpy, GetMoistAirVolume,
      GetDegreeOfSaturation, GetSatHumRatio, reject_if.
    cmp; [lra|]. rewrite (py_div_ok (101325 * W)) by lra. cbn [bind].
    rewrite (isIP_set cfgSI SI eq_refl). cbn [bind unit_ip].
    rewrite (py_div_ok _ 101325) by lra. cbn [bind].
    rewrite (GetSatVapPres_in_range cfgSI SI 20 eq_refl)
      by (unfold Tmin, Tmax; simpl; lra).
    cbn [bind].
    apply bind_no_ValueError.
    + apply bind_no_ValueError; [apply py_div_no_ValueError|].
      intros a _. apply py_div_no_ValueError.
    + intros a _ msg. discriminate.
  - intros HumRatio TWetBulb RelHum VapPres h v mu H.
    unfold CalcPsychrometricsFromTDewPoint in H.
    rewrite GetHumRatioFromTDewPoint_25C in H. fold W in H. cbn [bind] in H.
    apply bind_Ok_inv in H. destruct H as (Tw & _ & H).
    rewrite HRH in H. cbn [bind] in H.
    repeat (apply bind_Ok_inv in H; destruct H as (? & _ & H)).
    inversion H; subst. exact Hgt.
Qed.

Lemma CalcPsychrometricsFromTDewPoint_accepts_dew_point_above_dry_bulb_witness :
  invalid_argument_fault (run 0 cfgSI (CGetVapPresFromRelHum 25 1.5)) /\
  invalid_argument_fault (run 0 cfgSI (CGetTWetBulbFromHumRatio 25 (-0.01) 101325)) /\
  invalid_argument_fault (run 0 cfgSI (CGetHumRatioFromTWetBulb 25 30 101325)) /\
  invalid_argument_fault (run 0 cfgSI (CGetRelHumFromTDewPoint 25 30)).
Proof.
  destruct CalcPsychrometricsFromTDewPoint_accepts_dew_point_above_dry_bulb
    as (_ & _ & Hchecks).
  split; [|split; [|split]].
  - apply (proj1 (Hchecks 0%nat cfgSI (CGetVapPresFromRelHum 25 1.5)) 1.5);
      [reflexivity | lra].
  - apply (proj1 (proj2 (Hchecks 0%nat cfgSI (CGetTWetBulbFromHumRatio 25 (-0.01) 101325)))
             (-0.01)); [reflexivity | lra].
  - apply (proj1 (proj2 (proj2 (Hchecks 0%nat cfgSI (CGetHumRatioFromTWetBulb 25 30 101325))))
             25 30); [reflexivity | lra].
  - apply (proj2 (proj2 (proj2 (Hchecks 0%nat cfgSI (CGetRelHumFromTDewPoint 25 30))))
             25 30); [reflexivity | lra | discriminate].
Defined.

(** ** A dew point a hundredth of a degree below the dry-bulb temperature

    In SI units, at a dry-bulb temperature of 25 °C and with the vapor
    pressure of air saturated at 24.99 °C, the Newton-Raphson loop of
    [GetTDewPointFromVapPres] takes two passes and the bisection of
    [GetTWetBulbFromHumRatio] four. *)

(** *** The slope of the SI saturation curve around 25 °C *)

Lemma sq_increment (a T1 T2 : R) :
  0 <= a -> a <= T1 -> T1 <= T2 ->
  2 * a * (T2 - T1) <= T2 ^ 2 - T1 ^ 2.
Proof. intros. nra. Qed.

Lemma sq_increment_upper (b T1 T2 : R) :
  0 <= T1 -> T1 <= T2 -> T2 <= b ->
  T2 ^ 2 - T1 ^ 2 <= 2 * b * (T2 - T1).
Proof. intros. nra. Qed.

Lemma cube_increment_lower (a T1 T2 : R) :
  0 <= a -> a <= T1 -> T1 <= T2 ->
  3 * a ^ 2 * (T2 - T1) <= T2 ^ 3 - T1 ^ 3.
Proof.
  intros.
  replace (T2 ^ 3 - T1 ^ 3) with ((T2 - T1) * (T1 ^ 2 + T1 * T2 + T2 ^ 2)) by ring.
  assert (3 * a ^ 2 <= T1 ^ 2 + T1 * T2 + T2 ^ 2) by nra. nra.
Qed.

Lemma cube_increment_upper (b T1 T2 : R) :
  0 <= T1 -> T1 <= T2 -> T2 <= b ->
  T2 ^ 3 - T1 ^ 3 <= 3 * b ^ 2 * (T2 - T1).
Proof.
  intros.
  replace (T2 ^ 3 - T1 ^ 3) with ((T2 - T1) * (T1 ^ 2 + T1 * T2 + T2 ^ 2)) by ring.
  assert (T1 ^ 2 + T1 * T2 + T2 ^ 2 <= 3 * b ^ 2) by nra. nra.
Qed.

Lemma inverse_increment (b T1 T2 : R) :
  0 < T1 -> T1 <= T2 -> T2 <= b ->
  (T2 - T1) / b ^ 2 <= / T1 - / T2.
Proof.
  intros.
  replace (/ T1 - / T2) with ((T2 - T1) / (T1 * T2)) by (field; lra).
  unfold Rdiv. apply Rmult_le_compat_l; [lra|].
  apply Rinv_le_contravar; nra.
Qed.

Lemma inverse_increment_upper (a T1 T2 : R) :
  0 < a -> a <= T1 -> T1 <= T2 ->
  / T1 - / T2 <= (T2 - T1) / a ^ 2.
Proof.
  intros.
  replace (/ T1 - / T2) with ((T2 - T1) / (T1 * T2)) by (field; lra).
  unfold Rdiv. apply Rmult_le_compat_l; [lra|].
  apply Rinv_le_contravar; nra.
Qed.

Lemma ln_increment_lower (b T1 T2 : R) :
  0 < T1 -> T1 <= T2 -> T2 <= b ->
  (T2 - T1) / b <= ln T2 - ln T1.
Proof.
  intros H1 H12 Hb.
  pose proof (ln_increment T2 T1 ltac:(lra) H1) as H.
  assert (Hq : (T2 - T1) / b <= (T2 - T1) / T2).
  { unfold Rdiv. apply Rmult_le_compat_l; [lra|]. apply Rinv_le_contravar; lra. }
  replace ((T1 - T2) / T2) with (- ((T2 - T1) / T2)) in H by (field; lra).
  lra.
Qed.

Lemma ln_increment_upper (a T1 T2 : R) :
  0 < a -> a <= T1 -> T1 <= T2 ->
  ln T2 - ln T1 <= (T2 - T1) / a.
Proof.
  intros Ha H1 H12.
  pose proof (ln_increment T1 T2 ltac:(lra) ltac:(lra)) as H.
  assert (Hq : (T2 - T1) / T1 <= (T2 - T1) / a).
  { unfold Rdiv. apply Rmult_le_compat_l; [lra|]. apply Rinv_le_contravar; lra. }
  lra.
Qed.

(** Bring the increments of the terms of a formula between two absolute
    temperatures [K1 <= K2] of [[a, b]] into the context. *)
Ltac increments a b K1 K2 :=
  pose proof (sq_increment a K1 K2 ltac:(lra) ltac:(lra) ltac:(lra));
  pose proof (sq_increment_upper b K1 K2 ltac:(lra) ltac:(lra) ltac:(lra));
  pose proof (cube_increment_lower a K1 K2 ltac:(lra) ltac:(lra) ltac:(lra));
  pose proof (cube_increment_upper b K1 K2 ltac:(lra) ltac:(lra) ltac:(lra));
  pose proof (inverse_increment b K1 K2 ltac:(lra) ltac:(lra) ltac:(lra));
  pose proof (inverse_increment_upper a K1 K2 ltac:(lra) ltac:(lra) ltac:(lra));
  pose proof (ln_increment_lower b K1 K2 ltac:(lra) ltac:(lra) ltac:(lra));
  pose proof (ln_increment_upper a K1 K2 ltac:(lra) ltac:(lra) ltac:(lra)).

(** Between 24.9 °C and 25.1 °C every secant of the logarithm of the
    saturation pressure has a slope between 0.059 and 0.0603 per degree. *)
Lemma LnPws_SI_secant (T1 T2 : R) :
  24.9 <= T1 -> T1 <= T2 -> T2 <= 25.1 ->
  0.059 * (T2 - T1) <= LnPws SI T2 - LnPws SI T1 <= 0.0603 * (T2 - T1).
Proof.
  intros Hlo Hle Hhi.
  unfold LnPws, GetTKelvinFromTCelsius.
  rewrite (proj2 (Rleb_gt T1 0)) by lra. rewrite (proj2 (Rleb_gt T2 0)) by lra.
  increments 298.05 298.25 (T1 + 273.15) (T2 + 273.15).
  split; lra.
Qed.

(** *** The Newton-Raphson passes *)

(** Around 25 °C a pass of the loop body moves the estimate by the
    distance to the target, to within 3 percent. *)
Lemma NR_step_near_25 (target t : R) :
  24.95 <= target <= 25.05 ->
  24.95 <= t <= 25.05 ->
  exists q,
    NR_step cfgSI (unit_ip SI) (LnPws SI target) t = Ok (t - q) /\
    (target <= t -> 0.97 * (t - target) <= q <= 1.03 * (t - target)) /\
    (t <= target -> 1.03 * (t - target) <= q <= 0.97 * (t - target)).
Proof.
  intros Htarget Ht.
  assert (HT : Tmin SI <= t <= Tmax SI) by (unfold Tmin, Tmax; simpl; lra).
  rewrite (NR_step_in_range cfgSI SI _ t eq_refl HT).
  assert (Hstep : NR_StepSize (unit_ip SI) t = 0.01).
  { unfold NR_StepSize, _STEPSIZE, _BOUNDS, unit_ip, fst, snd. cmp; [lra | reflexivity]. }
  rewrite Hstep.
  set (A := LnPws SI t - LnPws SI target).
  set (D := (LnPws SI (t + 0.01) - LnPws SI t) / 0.01).
  assert (HD : 0.059 <= D <= 0.0603).
  { subst D. pose proof (LnPws_SI_secant t (t + 0.01)). lra. }
  assert (HAhi : target <= t -> 0.059 * (t - target) <= A <= 0.0603 * (t - target)).
  { intros H. subst A. apply LnPws_SI_secant; lra. }
  assert (HAlo : t <= target -> 0.0603 * (t - target) <= A <= 0.059 * (t - target)).
  { intros H. subst A. pose proof (LnPws_SI_secant t target). lra. }
  rewrite py_div_ok by lra. cbn [bind].
  assert (HDpos : 0 < D) by lra.
  assert (Hprod : A / D * D = A) by (field; lra).
  set (q := A / D) in *.
  assert (Hq1 : target <= t -> 0.97 * (t - target) <= q <= 1.03 * (t - target)).
  { intros H. specialize (HAhi H). split.
    - apply Rmult_le_reg_r with D; [exact HDpos|]. rewrite Hprod. nra.
    - apply Rmult_le_reg_r with D; [exact HDpos|]. rewrite Hprod. nra. }
  assert (Hq2 : t <= target -> 1.03 * (t - target) <= q <= 0.97 * (t - target)).
  { intros H. specialize (HAlo H). split.
    - apply Rmult_le_reg_r with D; [exact HDpos|]. rewrite Hprod. nra.
    - apply Rmult_le_reg_r with D; [exact HDpos|]. rewrite Hprod. nra. }
  exists q. split; [|split; assumption].
  apply (f_equal (@Ok R)).
  change (Tmin SI) with (-100). change (Tmax SI) with 200.
  assert (Hb : -1 <= q <= 1).
  { destruct (Rle_dec target t) as [H|H].
    - specialize (Hq1 H). lra.
    - assert (H' : t <= target) by lra. specialize (Hq2 H'). lra. }
  unfold py_min, py_max. cmp; lra.
Qed.

Lemma LnPws_SI_24_99_bounds : LnPws SI (-100) <= LnPws SI 24.99 <= LnPws SI 200.
Proof.
  pose proof LnPws_SI_25_bounds as [_ Hhi].
  pose proof (LnPws_SI_secant 24.99 25) as Hs.
  pose proof LnPws_SI_Tmin_upper as Hmin.
  assert (H0 : 0 <= LnPws SI 25).
  { unfold LnPws, GetTKelvinFromTCelsius. cmp; [lra|]. pose proof ln_298_15_ge. lra. }
  lra.
Qed.

(** From 25 °C, with the saturation pressure at 24.99 °C as target, the
    loop leaves after its second pass, about 0.01 °C below the start. *)
Lemma GetTDewPointFromVapPres_24_99 :
  exists dew,
    GetTDewPointFromVapPres 2 cfgSI 25 (exp (LnPws SI 24.99)) = Ok dew /\
    24.9895 <= dew <= 24.9905.
Proof.
  destruct LnPws_SI_24_99_bounds as [Hlo Hhi].
  rewrite (GetTDewPointFromVapPres_set cfgSI SI _ _ _ eq_refl).
  change (Tmin SI) with (-100). change (Tmax SI) with 200.
  cmp.
  - apply exp_lt_inv in Hc. lra.
  - apply exp_lt_inv in Hc0. lra.
  - rewrite ln_exp. cbn [NR_loop].
    destruct (NR_step_near_25 24.99 25 ltac:(lra) ltac:(lra)) as (q1 & H1 & Hq1 & _).
    specialize (Hq1 ltac:(lra)).
    rewrite H1. cbn [bind].
    assert (Habs1 : (Rabs (25 - q1 - 25) <=? __TOL cfgSI) = false).
    { apply Rleb_gt. replace (25 - q1 - 25) with (- q1) by ring.
      rewrite Rabs_Ropp, Rabs_pos_eq by lra. simpl. lra. }
    rewrite Habs1.
    destruct (NR_step_near_25 24.99 (25 - q1) ltac:(lra) ltac:(lra))
      as (q2 & H2 & Hq2a & Hq2b).
    rewrite H2. cbn [bind].
    assert (Hq2 : -0.00032 <= q2 <= 0.00032).
    { destruct (Rle_dec 24.99 (25 - q1)) as [H|H].
      - specialize (Hq2a H). lra.
      - assert (H' : 25 - q1 <= 24.99) by lra. specialize (Hq2b H'). lra. }
    assert (Habs2 : (Rabs (25 - q1 - q2 - (25 - q1)) <=? __TOL cfgSI) = true).
    { apply Rleb_le. replace (25 - q1 - q2 - (25 - q1)) with (- q2) by ring.
      rewrite Rabs_Ropp. simpl. apply Rabs_le. lra. }
    rewrite Habs2. cbn [bind].
    eexists. split; [reflexivity|].
    assert (Hq2' : -0.00001 <= 25 - q1 - q2 - 24.99 <= 0.00001).
    { destruct (Rle_dec 24.99 (25 - q1)) as [H|H].
      - specialize (Hq2a H). lra.
      - assert (H' : 25 - q1 <= 24.99) by lra. specialize (Hq2b H'). lra. }
    unfold py_min. cmp; lra.
Qed.

Lemma SatVapPres_near_25C_below_atmosphere (T : R) :
  24.9 <= T <= 25 -> 0 < exp (LnPws SI T) < 101325.
Proof.
  intros HT. split; [apply exp_pos|].
  apply Rle_lt_trans with (exp (LnPws SI 25)); [|apply SatVapPres_25C_below_atmosphere].
  pose proof (LnPws_SI_secant T 25) as Hs.
  destruct (Req_dec (LnPws SI T) (LnPws SI 25)) as [->|Hne]; [lra|].
  left. apply exp_increasing. lra.
Qed.

(** The humidity ratio of air saturated at 24.99 °C under one atmosphere
    gives back the saturation pressure at 24.99 °C. *)
Lemma HumRatio_24_99_facts :
  let s := exp (LnPws SI 24.99) in
  let W := 0.621945 * s / (101325 - s) in
  0 < W /\
  GetHumRatioFromTDewPoint cfgSI 24.99 101325 = Ok W /\
  GetVapPresFromHumRatio W 101325 = Ok s.
Proof.
  intros s W.
  destruct (SatVapPres_near_25C_below_atmosphere 24.99 ltac:(lra)) as [Hpos Hlt].
  fold s in Hpos, Hlt.
  assert (HW : 0 < W) by (apply Rdiv_lt_0_compat; lra).
  split; [exact HW|]. split.
  - unfold GetHumRatioFromTDewPoint.
    rewrite (GetSatVapPres_in_range cfgSI SI 24.99 eq_refl)
      by (unfold Tmin, Tmax; simpl; lra).
    cbn [bind]. fold s. unfold GetHumRatioFromVapPres, reject_if.
    cmp; [lra|]. apply py_div_ok. lra.
  - unfold GetVapPresFromHumRatio, reject_if. cmp; [lra|].
    rewrite py_div_ok by lra. apply (f_equal (@Ok R)).
    subst W. field. split; lra.
Qed.

Lemma GetTDewPointFromHumRatio_24_99 (fuel : nat) :
  (2 <= fuel)%nat ->
  exists dew,
    GetTDewPointFromHumRatio fuel cfgSI 25
      (0.621945 * exp (LnPws SI 24.99) / (101325 - exp (LnPws SI 24.99))) 101325
    = Ok dew /\
    24.9895 <= dew <= 24.9905.
Proof.
  intros Hfuel.
  destruct HumRatio_24_99_facts as (HW & _ & Hvp).
  destruct GetTDewPointFromVapPres_24_99 as (dew & Hdew & Hb).
  exists dew. split; [|exact Hb].
  rewrite (GetTDewPointFromHumRatio_fuel_mono cfgSI 2 fuel _ _ _ Hfuel).
  - unfold GetTDewPointFromHumRatio, reject_if. cmp; [lra|].
    rewrite Hvp. cbn [bind]. exact Hdew.
  - unfold GetTDewPointFromHumRatio, reject_if. cmp; [lra|].
    rewrite Hvp. cbn [bind]. rewrite Hdew. discriminate.
Qed.

Lemma GetTWetBulbFromHumRatio_bisection_terminates_witness :
  exists TDewPoint : R,
    GetTDewPointFromHumRatio 2 cfgSI 25
      (0.621945 * exp (LnPws SI 24.99) / (101325 - exp (LnPws SI 24.99))) 101325
    = Ok TDewPoint /\
    25 - TDewPoint > __TOL cfgSI /\
    (forall Sup Inf : R,
        (Sup + Inf) / 2 - Inf = (Sup - Inf) / 2 /\
        Sup - (Sup + Inf) / 2 = (Sup - Inf) / 2) /\
    (exists N : nat, (25 - TDewPoint) / 2 ^ N <= __TOL cfgSI) /\
    (forall N fuel : nat,
        (25 - TDewPoint) / 2 ^ N <= __TOL cfgSI ->
        (2 <= fuel)%nat -> (N <= fuel)%nat ->
        terminated (GetTWetBulbFromHumRatio fuel cfgSI 25
                      (0.621945 * exp (LnPws SI 24.99) / (101325 - exp (LnPws SI 24.99)))
                      101325)).
Proof.
  destruct (GetTDewPointFromHumRatio_24_99 2 (le_n 2)) as (dew & Hdew & Hb).
  destruct HumRatio_24_99_facts as (HW & _ & _).
  exists dew. split; [exact Hdew|]. split; [simpl; lra|].
  apply (GetTWetBulbFromHumRatio_bisection_terminates cfgSI 25 _ 101325 2 dew).
  - simpl. lra.
  - lra.
  - exact Hdew.
  - lra.
Defined.

(** *** The bisection returns *)

Lemma bisection_loop_returns (cfg : Config) (T W P lo hi : R) (N : nat) :
  (forall Tw, lo <= Tw <= hi -> exists w, GetHumRatioFromTWetBulb cfg T Tw P = Ok w) ->
  forall Sup Inf mid fuel,
    lo <= Inf -> Inf <= Sup -> Sup <= hi ->
    mid = (Sup + Inf) / 2 ->
    (Sup - Inf) / 2 ^ N <= __TOL cfg ->
    (N <= fuel)%nat ->
    exists t, bisection_loop fuel cfg T W P Sup Inf mid = Ok t.
Proof.
  intros Hw.
  induction N as [|N IH]; intros Sup Inf mid fuel Hlo Hle Hhi Hmid Hwidth Hfuel.
  - simpl in Hwidth. destruct fuel; simpl; cmp; try lra; eexists; reflexivity.
  - destruct fuel as [|fuel]; [lia|]. simpl. cmp; [|eexists; reflexivity].
    destruct (Hw mid ltac:(lra)) as (w & Hmidw). rewrite Hmidw. cbn [bind].
    assert (Hhalf : (Sup - Inf) / 2 / 2 ^ N <= __TOL cfg).
    { simpl in Hwidth.
      replace ((Sup - Inf) / 2 / 2 ^ N) with ((Sup - Inf) / (2 * 2 ^ N));
        [exact Hwidth|].
      field. apply pow_nonzero. lra. }
    destruct (bisection_width_halves Sup Inf) as [H1 H2].
    subst mid. cmp; apply IH; try reflexivity; try lia; lra.
Qed.

Lemma GetHumRatioFromTWetBulb_near_25C (Tw : R) :
  24.9 <= Tw <= 25 ->
  exists w, GetHumRatioFromTWetBulb cfgSI 25 Tw 101325 = Ok w.
Proof.
  intros HTw.
  destruct (SatVapPres_near_25C_below_atmosphere Tw HTw) as [Hpos Hlt].
  unfold GetHumRatioFromTWetBulb, GetSatHumRatio, reject_if.
  rewrite (proj2 (Rltb_ge 25 Tw)) by lra.
  rewrite (proj2 (Rleb_le 0 Tw)) by lra.
  rewrite (GetSatVapPres_in_range cfgSI SI Tw eq_refl)
    by (unfold Tmin, Tmax; simpl; lra).
  cbn [bind]. rewrite py_div_ok by lra. cbn [bind isIP cfgSI __UNITS].
  rewrite py_div_ok by lra. eexists. reflexivity.
Qed.

(** With four passes allowed the wet-bulb temperature is returned. *)
Lemma GetTWetBulbFromHumRatio_24_99 (fuel : nat) :
  (4 <= fuel)%nat ->
  exists dew t,
    GetTDewPointFromHumRatio fuel cfgSI 25
      (0.621945 * exp (LnPws SI 24.99) / (101325 - exp (LnPws SI 24.99))) 101325
    = Ok dew /\
    GetTWetBulbFromHumRatio fuel cfgSI 25
      (0.621945 * exp (LnPws SI 24.99) / (101325 - exp (LnPws SI 24.99))) 101325
    = Ok t /\
    24.9895 <= dew <= 24.9905.
Proof.
  intros Hfuel.
  destruct (GetTDewPointFromHumRatio_24_99 fuel ltac:(lia)) as (dew & Hdew & Hb).
  destruct HumRatio_24_99_facts as (HW & _ & _).
  destruct (bisection_loop_returns cfgSI 25
              (0.621945 * exp (LnPws SI 24.99) / (101325 - exp (LnPws SI 24.99)))
              101325 24.9 25 4 GetHumRatioFromTWetBulb_near_25C
              25 dew ((dew + 25) / 2) fuel)
    as (t & Ht); try lra; try exact Hfuel.
  { simpl. lra. }
  exists dew, t. split; [exact Hdew|]. split; [|exact Hb].
  unfold GetTWetBulbFromHumRatio, reject_if. cmp; [lra|].
  rewrite Hdew. cbn [bind]. exact Ht.
Qed.

(** * Further properties of the library *)

(** ** Configuration *)

(** X1: whatever the configuration before, [SetUnitSystem] with a member
    of [UnitSystem] succeeds; afterwards [GetUnitSystem] returns that
    member, [isIP] tells whether it is [IP], and the tolerance is 0.001
    degree Celsius expressed in the unit of the system.  The new
    configuration does not depend on the old one (the last call wins).  An
    argument that is no [UnitSystem] raises [ValueError]. *)
Theorem SetUnitSystem_then_query (cfg0 : Config) (u : UnitSystem) :
  (exists cfg,
      SetUnitSystem (AUnitSystem u) cfg0 = Ok cfg /\
      SetUnitSystem (AUnitSystem u) initial_config = Ok cfg /\
      GetUnitSystem cfg = Ok (Some u) /\
      isIP cfg = Ok (unit_ip u) /\
      __TOL cfg = (if unit_ip u then 9 / 5 else 1) * 0.001 /\
      0 < __TOL cfg) /\
  (exists msg, SetUnitSystem AOther cfg0 = Raise (ValueError msg)).
Proof.
  split; [|eexists; reflexivity].
  eexists. split; [reflexivity|]. split; [reflexivity|].
  split; [reflexivity|]. split; [destruct u; reflexivity|].
  destruct u; simpl; split; lra.
Qed.

(** ** Saturation vapor pressure *)

(** X6: with the unit system set, [GetSatVapPres] returns exactly on the
    validity range of the unit system, and what it returns is a strictly
    positive pressure; outside the range it raises the range
    [ValueError]. *)
Theorem GetSatVapPres_domain (cfg : Config) (u : UnitSystem) (T : R) :
  __UNITS cfg = Some u ->
  ((exists p, GetSatVapPres cfg T = Ok p) <-> Tmin u <= T <= Tmax u) /\
  (forall p, GetSatVapPres cfg T = Ok p -> 0 < p) /\
  (GetSatVapPres cfg T = Raise (ValueError (SatVapPres_range_error u)) <->
   T < Tmin u \/ Tmax u < T).
Proof.
  intros Hu. split; [|split].
  - split.
    + intros [p Hp]. apply GetSatVapPres_Ok_inv in Hp.
      destruct Hp as (u' & Hu' & HT & _). rewrite Hu in Hu'. inversion Hu'; subst.
      exact HT.
    + intros HT. eexists. apply (GetSatVapPres_in_range cfg u T Hu HT).
  - intros p Hp. exact (GetSatVapPres_pos _ _ _ Hp).
  - split.
    + intros H. destruct (Rlt_dec T (Tmin u)) as [Hlo|Hlo]; [left; exact Hlo|].
      destruct (Rlt_dec (Tmax u) T) as [Hhi|Hhi]; [right; exact Hhi|].
      rewrite (GetSatVapPres_in_range cfg u T Hu) in H by lra. discriminate.
    + apply GetSatVapPres_out_of_range. exact Hu.
Qed.

Lemma GetSatVapPres_domain_witness :
  (exists p, GetSatVapPres cfgIP 70 = Ok p) <-> Tmin IP <= 70 <= Tmax IP.
Proof.
  exact (proj1 (GetSatVapPres_domain cfgIP IP 70 eq_refl)).
Defined.

Lemma GetHumRatioFromVapPres_positive (VapPres Pressure : R) :
  0 < VapPres ->
  GetHumRatioFromVapPres VapPres Pressure
  = py_div (0.621945 * VapPres) (Pressure - VapPres).
Proof.
  intros H. unfold GetHumRatioFromVapPres, reject_if. cmp; [lra | reflexivity].
Qed.

(** X7: [GetHumRatioFromTDewPoint] is [GetSatHumRatio] under another
    name: for every configuration and input they give the same outcome,
    because the negative-pressure check of [GetHumRatioFromVapPres] never
    fires on a saturation pressure. *)
Theorem GetHumRatioFromTDewPoint_is_GetSatHumRatio (cfg : Config) (T Pressure : R) :
  GetHumRatioFromTDewPoint cfg T Pressure = GetSatHumRatio cfg T Pressure.
Proof.
  unfold GetHumRatioFromTDewPoint, GetSatHumRatio.
  destruct (GetSatVapPres cfg T) as [p| |] eqn:Hp; cbn [bind]; try reflexivity.
  apply GetHumRatioFromVapPres_positive. exact (GetSatVapPres_pos _ _ _ Hp).
Qed.

(** ** Dry air *)

(** X8: with the unit system set, [GetDryAirVolume] raises
    [ZeroDivisionError] exactly at zero pressure and [GetDryAirDensity]
    exactly at zero absolute temperature; each of them returns in every
    other case. *)
Theorem dry_air_density_volume (cfg : Config) (u : UnitSystem) (T Pressure : R) :
  __UNITS cfg = Some u ->
  (GetDryAirVolume cfg T Pressure = Raise ZeroDivisionError <-> Pressure = 0) /\
  (GetDryAirDensity cfg T Pressure = Raise ZeroDivisionError <-> absolute u T = 0) /\
  (Pressure <> 0 -> exists v, GetDryAirVolume cfg T Pressure = Ok v) /\
  (absolute u T <> 0 -> exists rho, GetDryAirDensity cfg T Pressure = Ok rho).
Proof.
  intros Hu. unfold GetDryAirVolume, GetDryAirDensity, R_DA_IP, R_DA_SI.
  rewrite (isIP_set cfg u Hu). cbn [bind].
  destruct u; cbn [unit_ip absolute];
    unfold GetTRankineFromTFahrenheit, GetTKelvinFromTCelsius.
  - split; [|split; [|split]].
    + destruct (py_div_cases ((T + 459.67) * 53.350) (144 * Pressure))
        as [[Hn ->]|[Hz ->]]; split; intros H; try discriminate; try reflexivity; lra.
    + rewrite (py_div_ok (144 * Pressure)) by lra. cbn [bind].
      destruct (py_div_cases (144 * Pressure / 53.350) (T + 459.67))
        as [[Hn ->]|[Hz ->]]; split; intros H; try discriminate; try reflexivity; lra.
    + intros HP. rewrite py_div_ok by lra. eexists. reflexivity.
    + intros HT. rewrite (py_div_ok (144 * Pressure)) by lra. cbn [bind].
      rewrite py_div_ok by lra. eexists. reflexivity.
  - split; [|split; [|split]].
    + destruct (py_div_cases ((T + 273.15) * 287.042) Pressure)
        as [[Hn ->]|[Hz ->]]; split; intros H; try discriminate; try reflexivity; lra.
    + rewrite (py_div_ok Pressure) by lra. cbn [bind].
      destruct (py_div_cases (Pressure / 287.042) (T + 273.15))
        as [[Hn ->]|[Hz ->]]; split; intros H; try discriminate; try reflexivity; lra.
    + intros HP. rewrite py_div_ok by lra. eexists. reflexivity.
    + intros HT. rewrite (py_div_ok Pressure) by lra. cbn [bind].
      rewrite py_div_ok by lra. eexists. reflexivity.
Qed.

Lemma dry_air_density_volume_witness :
  GetDryAirVolume cfgSI 25 0 = Raise ZeroDivisionError /\
  GetDryAirDensity cfgSI (-273.15) 101325 = Raise ZeroDivisionError /\
  (exists v, GetDryAirVolume cfgSI 25 101325 = Ok v) /\
  (exists rho, GetDryAirDensity cfgSI 25 101325 = Ok rho).
Proof.
  split; [|split; [|split]].
  - apply (proj1 (dry_air_density_volume cfgSI SI 25 0 eq_refl)). reflexivity.
  - apply (proj1 (proj2 (dry_air_density_volume cfgSI SI (-273.15) 101325 eq_refl))).
    simpl. unfold GetTKelvinFromTCelsius. lra.
  - apply (proj1 (proj2 (proj2 (dry_air_density_volume cfgSI SI 25 101325 eq_refl)))).
    lra.
  - apply (proj2 (proj2 (proj2 (dry_air_density_volume cfgSI SI 25 101325 eq_refl)))).
    simpl. unfold GetTKelvinFromTCelsius. lra.
Defined.

(** ** Moist air *)

(** X9: at a humidity ratio of 0 the moist-air volume is the dry-air
    volume, in every configuration: [GetMoistAirVolume] has the outcome of
    [GetDryAirVolume], and where that volume is returned and is not zero
    [GetMoistAirDensity] returns its inverse.  In IP units
    [GetMoistAirEnthalpy] at a humidity ratio of 0 has the outcome of
    [GetDryAirEnthalpy]. *)
Theorem moist_air_dry_limit (cfg : Config) (T Pressure : R) :
  GetMoistAirVolume cfg T 0 Pressure = GetDryAirVolume cfg T Pressure /\
  (forall v, GetDryAirVolume cfg T Pressure = Ok v -> v <> 0 ->
             GetMoistAirDensity cfg T 0 Pressure = Ok (/ v)) /\
  (__UNITS cfg = Some IP ->
   GetMoistAirEnthalpy cfg T 0 = GetDryAirEnthalpy cfg T).
Proof.
  assert (H0 : (0 <? 0) = false) by (apply Rltb_ge; lra).
  assert (HV : GetMoistAirVolume cfg T 0 Pressure = GetDryAirVolume cfg T Pressure).
  { unfold GetMoistAirVolume, GetDryAirVolume, reject_if. rewrite H0.
    destruct (isIP cfg) as [[|]| |]; cbn [bind]; try reflexivity;
      match goal with
      | |- py_div ?a ?b = py_div ?c ?b => replace a with c by lra; reflexivity
      end. }
  split; [exact HV|]. split.
  - intros v Hv Hnz. unfold GetMoistAirDensity, reject_if. rewrite H0, HV, Hv.
    cbn [bind]. rewrite py_div_ok by exact Hnz. f_equal. field. exact Hnz.
  - intros Hu. unfold GetMoistAirEnthalpy, GetDryAirEnthalpy, reject_if.
    rewrite H0, (isIP_set cfg IP Hu). cbn [bind unit_ip].
    apply (f_equal (@Ok R)). lra.
Qed.

Lemma moist_air_dry_limit_witness :
  GetMoistAirVolume cfgSI 25 0 101325 = GetDryAirVolume cfgSI 25 101325 /\
  GetMoistAirDensity cfgSI 25 0 101325
  = Ok (/ (GetTKelvinFromTCelsius 25 * R_DA_SI / 101325)) /\
  GetMoistAirEnthalpy cfgIP 70 0 = GetDryAirEnthalpy cfgIP 70.
Proof.
  split; [|split].
  - exact (proj1 (moist_air_dry_limit cfgSI 25 101325)).
  - apply (proj1 (proj2 (moist_air_dry_limit cfgSI 25 101325))).
    + unfold GetDryAirVolume. cbn [isIP cfgSI __UNITS bind]. apply py_div_ok. lra.
    + unfold GetTKelvinFromTCelsius, R_DA_SI, Rdiv.
      apply Rmult_integral_contrapositive_currified; [lra|].
      apply Rinv_neq_0_compat. lra.
  - apply (proj2 (proj2 (moist_air_dry_limit cfgIP 70 14.696))). reflexivity.
Defined.

(** X10: where the total pressure exceeds the saturation vapor pressure,
    the saturation humidity ratio is strictly positive, the degree of
    saturation of saturated air is exactly 1, that of dry air is exactly 0,
    and every humidity ratio in between has a degree of saturation in
    [0, 1]. *)
Theorem GetDegreeOfSaturation_range (cfg : Config) (T Pressure s : R) :
  GetSatVapPres cfg T = Ok s ->
  s < Pressure ->
  exists Ws,
    GetSatHumRatio cfg T Pressure = Ok Ws /\
    0 < Ws /\
    GetDegreeOfSaturation cfg T Ws Pressure = Ok 1 /\
    GetDegreeOfSaturation cfg T 0 Pressure = Ok 0 /\
    forall W, 0 <= W <= Ws ->
      exists mu, GetDegreeOfSaturation cfg T W Pressure = Ok mu /\ 0 <= mu <= 1.
Proof.
  intros Hs HP. pose proof (GetSatVapPres_pos _ _ _ Hs) as Hpos.
  set (Ws := 0.621945 * s / (Pressure - s)).
  assert (HWs : 0 < Ws) by (apply Rdiv_lt_0_compat; lra).
  assert (Hsat : GetSatHumRatio cfg T Pressure = Ok Ws).
  { unfold GetSatHumRatio. rewrite Hs. cbn [bind]. apply py_div_ok. lra. }
  assert (Hdeg : forall W, 0 <= W ->
                 GetDegreeOfSaturation cfg T W Pressure = Ok (W / Ws)).
  { intros W HW. unfold GetDegreeOfSaturation, reject_if. cmp; [lra|].
    rewrite Hsat. cbn [bind]. apply py_div_ok. lra. }
  exists Ws. split; [exact Hsat|]. split; [exact HWs|]. split; [|split].
  - rewrite Hdeg by lra. f_equal. field. lra.
  - rewrite Hdeg by lra. f_equal. unfold Rdiv. ring.
  - intros W [H0 H1]. rewrite Hdeg by exact H0. eexists. split; [reflexivity|]. split.
    + apply div_nonneg; assumption.
    + apply Rmult_le_reg_r with Ws; [exact HWs|].
      unfold Rdiv. rewrite Rmult_assoc, Rinv_l by lra. lra.
Qed.

Lemma GetDegreeOfSaturation_range_witness :
  exists Ws,
    GetSatHumRatio cfgSI 25 101325 = Ok Ws /\
    0 < Ws /\
    GetDegreeOfSaturation cfgSI 25 Ws 101325 = Ok 1 /\
    GetDegreeOfSaturation cfgSI 25 0 101325 = Ok 0 /\
    forall W, 0 <= W <= Ws ->
      exists mu, GetDegreeOfSaturation cfgSI 25 W 101325 = Ok mu /\ 0 <= mu <= 1.
Proof.
  apply (GetDegreeOfSaturation_range cfgSI 25 101325 (exp (LnPws SI 25))).
  - apply (GetSatVapPres_in_range cfgSI SI 25 eq_refl). unfold Tmin, Tmax; simpl; lra.
  - apply SatVapPres_25C_below_atmosphere.
Defined.

(** X11: the sign of the vapor pressure deficit.  For a non-negative
    humidity ratio and a non-negative pressure [GetVaporPressureDeficit]
    returns; the deficit lies between 0 and the saturation vapor pressure
    when the vapor pressure that [GetVapPresFromHumRatio] gives does not
    exceed the saturation vapor pressure, and is not positive when it is
    at least the saturation vapor pressure. *)
Theorem GetVaporPressureDeficit_sign
  (cfg : Config) (T HumRatio Pressure s : R) :
  GetSatVapPres cfg T = Ok s ->
  0 <= HumRatio ->
  0 <= Pressure ->
  exists vp d,
    GetVapPresFromHumRatio HumRatio Pressure = Ok vp /\
    GetVaporPressureDeficit cfg T HumRatio Pressure = Ok d /\
    (vp <= s -> 0 <= d <= s) /\
    (s <= vp -> d <= 0).
Proof.
  intros Hs HW HP. pose proof (GetSatVapPres_pos _ _ _ Hs) as Hpos.
  set (vp := Pressure * HumRatio / (0.621945 + HumRatio)).
  assert (Hvp0 : 0 <= vp) by (apply div_nonneg; nra).
  assert (Hvp : GetVapPresFromHumRatio HumRatio Pressure = Ok vp).
  { unfold GetVapPresFromHumRatio, reject_if. cmp; [lra|]. apply py_div_ok. lra. }
  exists vp, (s * (1 - vp / s)). split; [exact Hvp|]. split.
  - unfold GetVaporPressureDeficit, GetRelHumFromHumRatio, GetRelHumFromVapPres, reject_if.
    cmp; [lra|]. rewrite Hvp. cbn [bind]. cmp; [lra|].
    rewrite Hs. cbn [bind]. rewrite py_div_ok by lra. cbn [bind]. reflexivity.
  - assert (Hq : vp / s * s = vp) by (field; lra).
    assert (Hq0 : 0 <= vp / s) by (apply div_nonneg; lra).
    split; intros H; nra.
Qed.

Lemma GetVaporPressureDeficit_sign_witness :
  exists vp d,
    GetVapPresFromHumRatio 0.01 101325 = Ok vp /\
    GetVaporPressureDeficit cfgSI 25 0.01 101325 = Ok d /\
    (vp <= exp (LnPws SI 25) -> 0 <= d <= exp (LnPws SI 25)) /\
    (exp (LnPws SI 25) <= vp -> d <= 0).
Proof.
  apply (GetVaporPressureDeficit_sign cfgSI 25 0.01 101325).
  - apply (GetSatVapPres_in_range cfgSI SI 25 eq_refl). unfold Tmin, Tmax; simpl; lra.
  - lra.
  - lra.
Defined.

(** X12: [GetSatAirEnthalpy] has three outcomes at a temperature where
    the saturation pressure [s] is defined: for [Pressure < s] the
    saturation humidity ratio is negative and [GetMoistAirEnthalpy] rejects
    it with its [ValueError]; for [Pressure = s] the division raises
    [ZeroDivisionError]; for [Pressure > s] the moist-air enthalpy at the
    saturation humidity ratio is returned. *)
Theorem GetSatAirEnthalpy_outcomes (cfg : Config) (T Pressure s : R) :
  GetSatVapPres cfg T = Ok s ->
  (Pressure < s ->
   GetSatAirEnthalpy cfg T Pressure = Raise (ValueError "Humidity ratio is negative")) /\
  (Pressure = s ->
   GetSatAirEnthalpy cfg T Pressure = Raise ZeroDivisionError) /\
  (s < Pressure ->
   exists h,
     GetSatAirEnthalpy cfg T Pressure = Ok h /\
     GetMoistAirEnthalpy cfg T (0.621945 * s / (Pressure - s)) = Ok h).
Proof.
  intros Hs. pose proof (GetSatVapPres_pos _ _ _ Hs) as Hpos.
  destruct (GetSatVapPres_Ok_inv _ _ _ Hs) as (u & Hu & _).
  unfold GetSatAirEnthalpy, GetSatHumRatio. rewrite Hs. cbn [bind].
  split; [|split].
  - intros HP. rewrite py_div_ok by lra. cbn [bind].
    assert (Hneg : 0.621945 * s / (Pressure - s) < 0)
      by (apply negative_quotient; lra).
    unfold GetMoistAirEnthalpy, reject_if. cmp; [reflexivity | lra].
  - intros ->. replace (s - s) with 0 by ring. rewrite py_div_zero. reflexivity.
  - intros HP. rewrite py_div_ok by lra. cbn [bind].
    assert (Hpos' : 0 <= 0.621945 * s / (Pressure - s)) by (apply div_nonneg; lra).
    unfold GetMoistAirEnthalpy, reject_if. cmp; [lra|].
    rewrite (isIP_set cfg u Hu). cbn [bind].
    destruct u; cbn [unit_ip]; eexists; split; reflexivity.
Qed.

Lemma GetSatAirEnthalpy_outcomes_witness :
  exists h,
    GetSatAirEnthalpy cfgSI 25 101325 = Ok h /\
    GetMoistAirEnthalpy cfgSI 25
      (0.621945 * exp (LnPws SI 25) / (101325 - exp (LnPws SI 25))) = Ok h.
Proof.
  apply (proj2 (proj2 (GetSatAirEnthalpy_outcomes cfgSI 25 101325 (exp (LnPws SI 25))
    ltac:(apply (GetSatVapPres_in_range cfgSI SI 25 eq_refl);
          unfold Tmin, Tmax; simpl; lra)))).
  apply SatVapPres_25C_below_atmosphere.
Defined.

(** ** The range of [math.exp] and [math.pow] *)

Lemma exp_monotone (x y : R) : x <= y -> exp x <= exp y.
Proof. intros [H|H]; [left; apply exp_increasing; exact H | rewrite H; lra]. Qed.

Lemma exp_nat (n : nat) : exp (INR n) = exp 1 ^ n.
Proof. rewrite exp_pow. f_equal. ring. Qed.

Lemma pow2_pos (n : nat) : 0 < 2 ^ n.
Proof. apply pow_lt. lra. Qed.

Lemma pow2_le_DBL_MAX (n : nat) : (n <= 1023)%nat -> 2 ^ n <= DBL_MAX.
Proof.
  intros Hn. unfold DBL_MAX.
  assert (H1 : 1 <= 2 ^ 52) by (apply pow_R1_Rle; lra).
  assert (H2 : / 2 ^ 52 <= 1).
  { rewrite <- Rinv_1. apply Rinv_le_contravar; lra. }
  assert (H3 : 2 ^ n <= 2 ^ 1023) by (apply Rle_pow; [lra | exact Hn]).
  pose proof (pow2_pos 1023) as H4.
  generalize dependent (2 ^ 1023). generalize dependent (/ 2 ^ 52).
  generalize (2 ^ n). intros. nra.
Qed.

Lemma DBL_MAX_lt_pow2 : DBL_MAX < 2 ^ 1024.
Proof.
  unfold DBL_MAX. rewrite <- (tech_pow_Rmult 2 1023).
  assert (H1 : 0 < / 2 ^ 52) by (apply Rinv_0_lt_compat, pow2_pos).
  pose proof (pow2_pos 1023) as H4.
  generalize dependent (2 ^ 1023). generalize dependent (/ 2 ^ 52). intros. nra.
Qed.

Lemma half_DBL_TRUE_MIN : DBL_TRUE_MIN / 2 = / 2 ^ 1075.
Proof.
  unfold DBL_TRUE_MIN. rewrite <- (tech_pow_Rmult 2 1074).
  pose proof (pow2_pos 1074) as H.
  generalize dependent (2 ^ 1074). intros. field. lra.
Qed.

Lemma half_DBL_TRUE_MIN_le (n : nat) : (n <= 1075)%nat -> DBL_TRUE_MIN / 2 <= / 2 ^ n.
Proof.
  intros Hn. rewrite half_DBL_TRUE_MIN.
  apply Rinv_le_contravar; [apply pow2_pos | apply Rle_pow; [lra | exact Hn]].
Qed.

Lemma one_in_range : DBL_TRUE_MIN / 2 <= 1 <= DBL_MAX.
Proof.
  split.
  - pose proof (half_DBL_TRUE_MIN_le 0 ltac:(lia)) as H. simpl in H.
    rewrite Rinv_1 in H. exact H.
  - pose proof (pow2_le_DBL_MAX 0 ltac:(lia)) as H. simpl in H. exact H.
Qed.

Lemma math_range_in (y : R) :
  DBL_TRUE_MIN / 2 <= y <= DBL_MAX -> math_range y = Ok y.
Proof.
  intros [H1 H2]. unfold math_range.
  rewrite (proj2 (Rltb_ge DBL_MAX y)) by exact H2.
  rewrite (proj2 (Rltb_ge y (DBL_TRUE_MIN / 2))) by exact H1. reflexivity.
Qed.

Lemma math_range_overflow (y : R) :
  DBL_MAX < y -> math_range y = Raise (OverflowError "math range error").
Proof.
  intros H. unfold math_range. rewrite (proj2 (Rltb_lt DBL_MAX y)) by exact H.
  reflexivity.
Qed.

Lemma math_range_underflow (y : R) :
  y < DBL_TRUE_MIN / 2 -> math_range y = Ok 0.
Proof.
  intros H. unfold math_range. destruct one_in_range as [H1 H2].
  rewrite (proj2 (Rltb_ge DBL_MAX y)) by lra.
  rewrite (proj2 (Rltb_lt y (DBL_TRUE_MIN / 2))) by exact H. reflexivity.
Qed.

Lemma INR_literals : INR 6 = 6 /\ INR 256 = 256 /\ INR 1024 = 1024 /\ INR 1075 = 1075.
Proof. repeat split; rewrite INR_IZR_INZ; reflexivity. Qed.

Lemma exp_1_bounds : 2 < exp 1 <= 3.
Proof.
  split; [|apply exp_le_3].
  pose proof (exp_ineq1 1 ltac:(lra)). lra.
Qed.

(** [math.exp] returns the exponential for an argument in [[0, 256]]. *)
Lemma math_exp_moderate (x : R) :
  0 <= x <= 256 -> math_exp x = Ok (exp x) /\ 1 <= exp x.
Proof.
  intros [H0 H1]. destruct INR_literals as (_ & H256 & _). destruct exp_1_bounds as [He2 He3].
  assert (Hlo : 1 <= exp x) by (rewrite <- exp_0; apply exp_monotone; exact H0).
  split; [|exact Hlo].
  apply math_range_in. split; [destruct one_in_range; lra|].
  apply Rle_trans with (exp 256); [apply exp_monotone; exact H1|].
  rewrite <- H256, exp_nat.
  apply Rle_trans with (3 ^ 256); [apply pow_incr; lra|].
  apply Rle_trans with ((2 ^ 2) ^ 256); [apply pow_incr; simpl; lra|].
  rewrite <- pow_mult. apply pow2_le_DBL_MAX. lia.
Qed.

(** [math.exp] raises [OverflowError] for an argument of 1024 or more. *)
Lemma math_exp_overflow (x : R) :
  1024 <= x -> math_exp x = Raise (OverflowError "math range error").
Proof.
  intros H. destruct INR_literals as (_ & _ & H1024 & _). destruct exp_1_bounds as [He2 He3].
  apply math_range_overflow.
  apply Rlt_le_trans with (2 ^ 1024); [apply DBL_MAX_lt_pow2|].
  apply Rle_trans with (exp 1024); [|apply exp_monotone; exact H].
  rewrite <- H1024, exp_nat. apply pow_incr. lra.
Qed.

(** [math.exp] returns zero for an argument of -1075 or less. *)
Lemma math_exp_underflow (x : R) : x <= -1075 -> math_exp x = Ok 0.
Proof.
  intros H. destruct INR_literals as (_ & _ & _ & H1075). destruct exp_1_bounds as [He2 He3].
  apply math_range_underflow. rewrite half_DBL_TRUE_MIN.
  apply Rle_lt_trans with (exp (- INR 1075)); [apply exp_monotone; lra|].
  rewrite exp_Ropp, exp_nat.
  assert (Hlt : 2 ^ 1075 < exp 1 ^ 1075).
  { rewrite <- (tech_pow_Rmult 2 1074), <- (tech_pow_Rmult (exp 1) 1074).
    assert (Hle : 2 ^ 1074 <= exp 1 ^ 1074) by (apply pow_incr; lra).
    pose proof (pow2_pos 1074) as Hpos.
    generalize dependent (exp 1 ^ 1074). generalize dependent (2 ^ 1074).
    intros. nra. }
  apply Rinv_lt_contravar; [|exact Hlt].
  apply Rmult_lt_0_compat; [apply pow2_pos | apply pow_lt; lra].
Qed.

(** [math.pow] with a base in [[1/2, 1]] and the exponent 5.2559 returns a
    positive number not above 1. *)
Lemma math_pow_moderate (x : R) :
  / 2 <= x <= 1 ->
  math_pow x 5.2559 = Ok (Rpower x 5.2559) /\ 0 < Rpower x 5.2559 <= 1.
Proof.
  intros [H0 H1]. destruct INR_literals as (H6 & _). destruct exp_1_bounds as [He2 He3].
  assert (Hx : 0 < x) by lra.
  assert (Hln1 : ln x <= 0).
  { rewrite <- ln_1. destruct H1 as [H1|H1]; [left; apply ln_increasing; lra | rewrite H1; lra]. }
  assert (Hln2 : - 1 <= ln x).
  { pose proof (ln_le_minus_1 (/ x) ltac:(apply Rinv_0_lt_compat; exact Hx)) as H.
    rewrite ln_Rinv in H by exact Hx.
    assert (/ x <= 2).
    { rewrite <- (Rinv_inv 2). apply Rinv_le_contravar; lra. }
    lra. }
  assert (Hhi : Rpower x 5.2559 <= 1).
  { unfold Rpower. rewrite <- exp_0. apply exp_monotone. nra. }
  assert (Hlo : / 2 ^ 12 <= Rpower x 5.2559).
  { unfold Rpower. apply Rle_trans with (exp (- INR 6)); [|apply exp_monotone; nra].
    rewrite exp_Ropp, exp_nat.
    apply Rinv_le_contravar; [apply pow_lt; lra|].
    apply Rle_trans with (3 ^ 6); [apply pow_incr; lra|].
    apply Rle_trans with ((2 ^ 2) ^ 6); [apply pow_incr; simpl; lra|].
    rewrite <- pow_mult. apply Rle_pow; [lra | lia]. }
  assert (Hpos : 0 < / 2 ^ 12) by (apply Rinv_0_lt_compat, pow2_pos).
  unfold math_pow. rewrite (proj2 (Rltb_lt 0 x)) by exact Hx.
  split; [|lra].
  apply math_range_in. split.
  - apply Rle_trans with (/ 2 ^ 12); [apply half_DBL_TRUE_MIN_le; lia | exact Hlo].
  - destruct one_in_range. lra.
Qed.

(** [math.pow] with a base of [2 ^ 205] or more and the exponent 5.2559
    raises [OverflowError]. *)
Lemma math_pow_overflow (x : R) :
  2 ^ 205 <= x -> math_pow x 5.2559 = Raise (OverflowError "math range error").
Proof.
  intros H.
  assert (H1 : 1 <= 2 ^ 205) by (apply pow_R1_Rle; lra).
  assert (Hx : 0 < x) by lra.
  unfold math_pow. rewrite (proj2 (Rltb_lt 0 x)) by exact Hx.
  apply math_range_overflow.
  apply Rlt_le_trans with (2 ^ 1024); [apply DBL_MAX_lt_pow2|].
  apply Rle_trans with (Rpower x (INR 5)).
  - rewrite Rpower_pow by exact Hx.
    apply Rle_trans with ((2 ^ 205) ^ 5).
    + rewrite <- pow_mult. apply Rle_pow; [lra | lia].
    + apply pow_incr. split; [lra | exact H].
  - apply Rle_Rpower; [lra|]. simpl. lra.
Qed.

(** ** Standard atmosphere and sea-level pressure *)

Lemma GetSeaLevelPressure_set (cfg : Config) (u : UnitSystem) (p Altitude T : R) :
  __UNITS cfg = Some u ->
  GetSeaLevelPressure cfg p Altitude T =
  (e <- py_div Altitude (scale_height u Altitude T) ;;
   x <- math_exp e ;;
   Ok (p * x)).
Proof.
  intros Hu. unfold GetSeaLevelPressure. rewrite (isIP_set cfg u Hu).
  destruct u; reflexivity.
Qed.

(** X14: the outcomes of [GetSeaLevelPressure] and [GetStationPressure],
    with [H] the scale height that the column temperature gives.  At
    altitude 0 both raise [ZeroDivisionError] when [H] is zero (a dry-bulb
    temperature at absolute zero) and return the given pressure itself
    otherwise.  For a dry-bulb temperature of the validity range, an
    altitude between 0 and 100000 and a non-negative pressure both return:
    the sea level pressure is at least the station pressure, and the station
    pressure lies between 0 and the sea level pressure.  With the
    temperature within 1000 degrees of zero, the altitude within a million
    and [H >= 1/1024]: for [Altitude >= 1024 H] both raise [OverflowError],
    and for [Altitude <= -1075 H] the exponential is returned as zero, so
    that [GetSeaLevelPressure] returns 0 and [GetStationPressure] raises
    [ZeroDivisionError] although [H] is not zero. *)
Theorem GetSeaLevelPressure_outcomes
  (cfg : Config) (u : UnitSystem) (p Altitude T : R) :
  __UNITS cfg = Some u ->
  let H := scale_height u Altitude T in
  (scale_height u 0 T = 0 ->
   GetSeaLevelPressure cfg p 0 T = Raise ZeroDivisionError /\
   GetStationPressure cfg p 0 T = Raise ZeroDivisionError) /\
  (scale_height u 0 T <> 0 ->
   GetSeaLevelPressure cfg p 0 T = Ok p /\
   GetStationPressure cfg p 0 T = Ok p) /\
  (Tmin u <= T <= Tmax u -> 0 <= Altitude <= 100000 -> 0 <= p ->
   exists slp sp,
     GetSeaLevelPressure cfg p Altitude T = Ok slp /\ p <= slp /\
     GetStationPressure cfg p Altitude T = Ok sp /\ 0 <= sp <= p) /\
  (-1000 <= T <= 1000 -> -1000000 <= Altitude <= 1000000 -> / 1024 <= H ->
   (1024 * H <= Altitude ->
    GetSeaLevelPressure cfg p Altitude T = Raise (OverflowError "math range error") /\
    GetStationPressure cfg p Altitude T = Raise (OverflowError "math range error")) /\
   (Altitude <= -1075 * H ->
    GetSeaLevelPressure cfg p Altitude T = Ok 0 /\
    GetStationPressure cfg p Altitude T = Raise ZeroDivisionError)).
Proof.
  intros Hu H. subst H. unfold GetStationPressure.
  rewrite !(GetSeaLevelPressure_set cfg u _ _ _ Hu).
  split; [|split; [|split]].
  - intros HH. rewrite HH, py_div_zero. split; reflexivity.
  - intros HH. rewrite py_div_ok by exact HH. cbn [bind].
    replace (0 / scale_height u 0 T) with 0 by (unfold Rdiv; ring).
    destruct (math_exp_moderate 0 ltac:(lra)) as [-> _]. rewrite exp_0. cbn [bind].
    split; [apply (f_equal (@Ok R)); ring|].
    rewrite py_div_ok by lra. apply (f_equal (@Ok R)). field.
  - intros HT Halt Hp.
    assert (HH : 0 < scale_height u Altitude T /\
                 Altitude <= 256 * scale_height u Altitude T).
    { unfold Tmin, Tmax in HT.
      destruct u; simpl in HT;
        unfold scale_height, GetTRankineFromTFahrenheit, GetTKelvinFromTCelsius; lra. }
    destruct HH as [HH H256].
    rewrite py_div_ok by lra. cbn [bind].
    assert (He : 0 <= Altitude / scale_height u Altitude T <= 256).
    { split; [apply div_nonneg; lra|].
      apply Rmult_le_reg_r with (scale_height u Altitude T); [exact HH|].
      unfold Rdiv. rewrite Rmult_assoc, Rinv_l by lra. lra. }
    destruct (math_exp_moderate _ He) as [-> H1]. cbn [bind].
    set (x := exp (Altitude / scale_height u Altitude T)) in *.
    rewrite py_div_ok by lra.
    exists (p * x), (p / (1 * x)). split; [reflexivity|]. split; [nra|].
    split; [reflexivity|].
    assert (Hq : p / (1 * x) * x = p) by (field; lra).
    assert (Hq0 : 0 <= p / (1 * x)) by (apply div_nonneg; lra).
    nra.
  - intros _ _ HH.
    assert (Hpos : 0 < scale_height u Altitude T).
    { apply Rlt_le_trans with (/ 1024); [|exact HH]. apply Rinv_0_lt_compat. lra. }
    rewrite py_div_ok by lra. cbn [bind]. split.
    + intros He.
      assert (He' : 1024 <= Altitude / scale_height u Altitude T).
      { apply Rmult_le_reg_r with (scale_height u Altitude T); [exact Hpos|].
        unfold Rdiv. rewrite Rmult_assoc, Rinv_l by lra. lra. }
      rewrite (math_exp_overflow _ He'). split; reflexivity.
    + intros He.
      assert (He' : Altitude / scale_height u Altitude T <= -1075).
      { apply Rmult_le_reg_r with (scale_height u Altitude T); [exact Hpos|].
        unfold Rdiv. rewrite Rmult_assoc, Rinv_l by lra. lra. }
      rewrite (math_exp_underflow _ He'). cbn [bind]. split.
      * apply (f_equal (@Ok R)). ring.
      * replace (1 * 0) with 0 by ring. apply py_div_zero.
Qed.

Lemma GetSeaLevelPressure_outcomes_witness :
  GetStationPressure cfgSI 101325 0 (-273.15) = Raise ZeroDivisionError /\
  GetSeaLevelPressure cfgIP 14.696 0 59 = Ok 14.696 /\
  GetStationPressure cfgIP 14.696 0 59 = Ok 14.696 /\
  (exists slp sp,
      GetSeaLevelPressure cfgSI 90000 1000 15 = Ok slp /\ 90000 <= slp /\
      GetStationPressure cfgSI 90000 1000 15 = Ok sp /\ 0 <= sp <= 90000) /\
  GetSeaLevelPressure cfgSI 90000 1000 (-276.39)
  = Raise (OverflowError "math range error") /\
  GetStationPressure cfgSI 101325 (-1000) (-269.89) = Raise ZeroDivisionError.
Proof.
  split; [|split; [|split; [|split; [|split]]]].
  - apply (proj1 (GetSeaLevelPressure_outcomes cfgSI SI 101325 0 (-273.15) eq_refl)).
    unfold scale_height, GetTKelvinFromTCelsius. lra.
  - apply (proj1 (proj2 (GetSeaLevelPressure_outcomes cfgIP IP 14.696 0 59 eq_refl))).
    unfold scale_height, GetTRankineFromTFahrenheit. lra.
  - apply (proj1 (proj2 (GetSeaLevelPressure_outcomes cfgIP IP 14.696 0 59 eq_refl))).
    unfold scale_height, GetTRankineFromTFahrenheit. lra.
  - apply (proj1 (proj2 (proj2
             (GetSeaLevelPressure_outcomes cfgSI SI 90000 1000 15 eq_refl))));
      unfold Tmin, Tmax; simpl; lra.
  - apply (proj2 (proj2 (proj2
             (GetSeaLevelPressure_outcomes cfgSI SI 90000 1000 (-276.39) eq_refl))));
      unfold scale_height, GetTKelvinFromTCelsius; lra.
  - apply (proj2 (proj2 (proj2
             (GetSeaLevelPressure_outcomes cfgSI SI 101325 (-1000) (-269.89) eq_refl))));
      unfold scale_height, GetTKelvinFromTCelsius; lra.
Defined.

Lemma GetStandardAtmPressure_set (cfg : Config) (u : UnitSystem) (Altitude : R) :
  __UNITS cfg = Some u ->
  GetStandardAtmPressure cfg Altitude =
  (p <- math_pow (atm_base u Altitude) 5.2559 ;; Ok (atm_sea_level u * p)).
Proof.
  intros Hu. unfold GetStandardAtmPressure. rewrite (isIP_set cfg u Hu).
  destruct u; reflexivity.
Qed.

(** X15: the outcomes of [GetStandardAtmPressure] by the base
    [1 - k * Altitude] of its power.  A base of -1/1024 or less (above
    about 145 600 ft or 44 400 m) raises the [math.pow] domain error; a
    base between 1/2 and 1 (from sea level up to about 72 700 ft or
    22 100 m) returns a positive pressure not above the sea-level constant;
    altitude 0 returns the sea-level constant, 14.696 psi or 101325 Pa; a
    base of [2 ^ 205] or more raises [OverflowError]. *)
Theorem GetStandardAtmPressure_outcomes (cfg : Config) (u : UnitSystem) (Altitude : R) :
  __UNITS cfg = Some u ->
  (atm_base u Altitude <= - / 1024 ->
   GetStandardAtmPressure cfg Altitude = Raise (ValueError "math domain error")) /\
  (/ 2 <= atm_base u Altitude <= 1 ->
   exists p, GetStandardAtmPressure cfg Altitude = Ok p /\ 0 < p <= atm_sea_level u) /\
  GetStandardAtmPressure cfg 0 = Ok (atm_sea_level u) /\
  (2 ^ 205 <= atm_base u Altitude ->
   GetStandardAtmPressure cfg Altitude = Raise (OverflowError "math range error")) /\
  (atm_sea_level IP, atm_sea_level SI) = (14.696, 101325).
Proof.
  intros Hu. rewrite !(GetStandardAtmPressure_set cfg u _ Hu).
  assert (Hsea : 0 < atm_sea_level u) by (destruct u; simpl; lra).
  split; [|split; [|split; [|split]]].
  - intros Hb.
    assert (Hneg : atm_base u Altitude < 0).
    { assert (0 < / 1024) by (apply Rinv_0_lt_compat; lra). lra. }
    unfold math_pow. rewrite (proj2 (Rltb_ge 0 (atm_base u Altitude))) by lra.
    destruct (Req_dec_T (atm_base u Altitude) 0); [lra | reflexivity].
  - intros Hb. destruct (math_pow_moderate _ Hb) as [-> Hp]. cbn [bind].
    eexists. split; [reflexivity|]. nra.
  - assert (Hb : atm_base u 0 = 1) by (destruct u; simpl; lra).
    rewrite Hb. destruct (math_pow_moderate 1 ltac:(lra)) as [-> _]. cbn [bind].
    apply (f_equal (@Ok R)). unfold Rpower. rewrite ln_1, Rmult_0_r, exp_0. ring.
  - intros Hb. rewrite (math_pow_overflow _ Hb). reflexivity.
  - reflexivity.
Qed.

Lemma GetStandardAtmPressure_outcomes_witness :
  GetStandardAtmPressure cfgSI 50000 = Raise (ValueError "math domain error") /\
  (exists p, GetStandardAtmPressure cfgSI 1000 = Ok p /\ 0 < p <= 101325) /\
  GetStandardAtmPressure cfgSI (-1e67) = Raise (OverflowError "math range error").
Proof.
  split; [|split].
  - apply (proj1 (GetStandardAtmPressure_outcomes cfgSI SI 50000 eq_refl)).
    simpl. lra.
  - apply (proj1 (proj2 (GetStandardAtmPressure_outcomes cfgSI SI 1000 eq_refl))).
    simpl. lra.
  - apply (proj1 (proj2 (proj2 (proj2
             (GetStandardAtmPressure_outcomes cfgSI SI (-1e67) eq_refl))))).
    simpl atm_base. lra.
Defined.

(** ** Dry air in the dew-point and wet-bulb inversions *)

Lemma GetTDewPointFromVapPres_zero (cfg : Config) (u : UnitSystem) (fuel : nat) (T : R) :
  __UNITS cfg = Some u ->
  GetTDewPointFromVapPres fuel cfg T 0 = Raise (ValueError vappres_out_of_range).
Proof.
  intros Hu. rewrite (GetTDewPointFromVapPres_set cfg u _ _ _ Hu).
  pose proof (exp_pos (LnPws u (Tmin u))). cmp; try reflexivity; lra.
Qed.

(** X17: completely dry air is rejected by the inversions.  With the unit
    system set, a humidity ratio of 0 makes [GetTDewPointFromHumRatio] and
    [GetTWetBulbFromHumRatio] raise the vapor-pressure range [ValueError]
    (a vapor pressure of 0 lies below the saturation pressure at the lower
    validity bound); so does a relative humidity of 0 in
    [GetTDewPointFromRelHum], and, for a non-zero pressure, in
    [GetTWetBulbFromRelHum] and [CalcPsychrometricsFromRelHum], at any
    dry-bulb temperature of the valid range. *)
Theorem dry_air_rejected (cfg : Config) (u : UnitSystem) (fuel : nat) (T Pressure : R) :
  __UNITS cfg = Some u ->
  GetTDewPointFromHumRatio fuel cfg T 0 Pressure = Raise (ValueError vappres_out_of_range) /\
  GetTWetBulbFromHumRatio fuel cfg T 0 Pressure = Raise (ValueError vappres_out_of_range) /\
  (Tmin u <= T <= Tmax u ->
   GetTDewPointFromRelHum fuel cfg T 0 = Raise (ValueError vappres_out_of_range) /\
   (Pressure <> 0 ->
    GetTWetBulbFromRelHum fuel cfg T 0 Pressure
    = Raise (ValueError vappres_out_of_range) /\
    CalcPsychrometricsFromRelHum fuel cfg T 0 Pressure
    = Raise (ValueError vappres_out_of_range))).
Proof.
  intros Hu.
  assert (H0 : (0 <? 0) = false) by (apply Rltb_ge; lra).
  assert (H1 : (1 <? 0) = false) by (apply Rltb_ge; lra).
  assert (Hdew : GetTDewPointFromHumRatio fuel cfg T 0 Pressure
                 = Raise (ValueError vappres_out_of_range)).
  { unfold GetTDewPointFromHumRatio, GetVapPresFromHumRatio, reject_if.
    rewrite H0. rewrite py_div_ok by lra. cbn [bind].
    replace (Pressure * 0 / (0.621945 + 0)) with 0 by (field; lra).
    apply (GetTDewPointFromVapPres_zero cfg u). exact Hu. }
  assert (Hwet : GetTWetBulbFromHumRatio fuel cfg T 0 Pressure
                 = Raise (ValueError vappres_out_of_range)).
  { unfold GetTWetBulbFromHumRatio, reject_if. rewrite H0, Hdew. reflexivity. }
  split; [exact Hdew|]. split; [exact Hwet|].
  intros HT.
  assert (Hvp : GetVapPresFromRelHum cfg T 0 = Ok 0).
  { unfold GetVapPresFromRelHum, reject_if. rewrite H0, H1. cbn [orb].
    rewrite (GetSatVapPres_in_range cfg u T Hu HT). cbn [bind]. f_equal. ring. }
  split.
  - unfold GetTDewPointFromRelHum, reject_if. rewrite H0, H1, Hvp. cbn [orb bind].
    apply (GetTDewPointFromVapPres_zero cfg u). exact Hu.
  - intros HP.
    assert (HW : GetHumRatioFromRelHum cfg T 0 Pressure = Ok 0).
    { unfold GetHumRatioFromRelHum, GetHumRatioFromVapPres, reject_if.
      rewrite H0, H1, Hvp. cbn [orb bind]. rewrite H0.
      rewrite py_div_ok by lra. f_equal. field. lra. }
    split.
    + unfold GetTWetBulbFromRelHum, reject_if. rewrite H0, H1, HW. cbn [orb bind].
      exact Hwet.
    + unfold CalcPsychrometricsFromRelHum. rewrite HW. cbn [bind]. rewrite Hwet.
      reflexivity.
Qed.

Lemma dry_air_rejected_witness :
  GetTDewPointFromRelHum 10 cfgSI 25 0 = Raise (ValueError vappres_out_of_range).
Proof.
  apply (proj2 (proj2 (dry_air_rejected cfgSI SI 10 25 101325 eq_refl))).
  unfold Tmin, Tmax; simpl; lra.
Defined.

(** ** Wet-bulb temperature *)

Lemma bisection_loop_between (cfg : Config) (T W P : R) (fuel : nat) :
  forall Sup Inf mid t,
    Inf <= Sup ->
    mid = (Sup + Inf) / 2 ->
    bisection_loop fuel cfg T W P Sup Inf mid = Ok t ->
    Inf <= t <= Sup.
Proof.
  induction fuel as [|fuel IH]; intros Sup Inf mid t Hle Hmid; simpl.
  - cmp; intros H; inversion H; subst; lra.
  - cmp; [|intros H; inversion H; subst; lra].
    intros H. apply bind_Ok_inv in H. destruct H as (Wstar & _ & H).
    revert H. cmp; intros H; apply IH in H; lra.
Qed.

(** X18: a wet-bulb temperature returned by [GetTWetBulbFromHumRatio]
    lies between the dew point that [GetTDewPointFromHumRatio] returns for
    the same arguments and the dry-bulb temperature; the wet-bulb
    temperatures returned by [GetTWetBulbFromTDewPoint] and
    [GetTWetBulbFromRelHum] lie between the lower validity bound and the
    dry-bulb temperature. *)
Theorem wet_bulb_between_dew_point_and_dry_bulb
  (cfg : Config) (fuel : nat) (T Pressure : R) :
  (forall HumRatio t,
      GetTWetBulbFromHumRatio fuel cfg T HumRatio Pressure = Ok t ->
      exists u dew,
        __UNITS cfg = Some u /\
        GetTDewPointFromHumRatio fuel cfg T HumRatio Pressure = Ok dew /\
        Tmin u <= dew /\ dew <= t /\ t <= T) /\
  (forall TDewPoint t,
      GetTWetBulbFromTDewPoint fuel cfg T TDewPoint Pressure = Ok t ->
      exists u, __UNITS cfg = Some u /\ Tmin u <= t <= T) /\
  (forall RelHum t,
      GetTWetBulbFromRelHum fuel cfg T RelHum Pressure = Ok t ->
      exists u, __UNITS cfg = Some u /\ Tmin u <= t <= T).
Proof.
  assert (Hmain : forall HumRatio t,
      GetTWetBulbFromHumRatio fuel cfg T HumRatio Pressure = Ok t ->
      exists u dew,
        __UNITS cfg = Some u /\
        GetTDewPointFromHumRatio fuel cfg T HumRatio Pressure = Ok dew /\
        Tmin u <= dew /\ dew <= t /\ t <= T).
  { intros W t H. unfold GetTWetBulbFromHumRatio, reject_if in H.
    destruct (W <? 0); [discriminate|].
    apply bind_Ok_inv in H. destruct H as (dew & Hdew & Hloop).
    assert (Hd := Hdew). unfold GetTDewPointFromHumRatio, reject_if in Hd.
    destruct (W <? 0); [discriminate|].
    apply bind_Ok_inv in Hd. destruct Hd as (vp & _ & Hd).
    destruct (__UNITS cfg) as [u|] eqn:Hu.
    2:{ rewrite (GetTDewPointFromVapPres_unset _ _ _ _ Hu) in Hd. discriminate. }
    destruct (GetTDewPointFromVapPres_Ok_bounds _ _ u _ _ _ Hu Hd)
      as (t0 & _ & _ & _ & _ & Hle & Hb).
    apply bisection_loop_between in Hloop; [|exact Hle|lra].
    exists u, dew. split; [reflexivity|]. split; [exact Hdew|]. lra. }
  split; [exact Hmain|]. split.
  - intros Td t H. unfold GetTWetBulbFromTDewPoint, reject_if in H.
    destruct (T <? Td); [discriminate|].
    apply bind_Ok_inv in H. destruct H as (W & _ & H).
    destruct (Hmain _ _ H) as (u & dew & Hu & _ & H1 & H2 & H3).
    exists u. split; [exact Hu | lra].
  - intros rh t H. unfold GetTWetBulbFromRelHum, reject_if in H.
    destruct ((rh <? 0) || (1 <? rh))%bool; [discriminate|].
    apply bind_Ok_inv in H. destruct H as (W & _ & H).
    destruct (Hmain _ _ H) as (u & dew & Hu & _ & H1 & H2 & H3).
    exists u. split; [exact Hu | lra].
Qed.

Lemma wet_bulb_between_dew_point_and_dry_bulb_witness :
  let W := 0.621945 * exp (LnPws SI 24.99) / (101325 - exp (LnPws SI 24.99)) in
  let RelHum := exp (LnPws SI 24.99) / exp (LnPws SI 25) in
  (exists t dew,
      GetTWetBulbFromHumRatio 4 cfgSI 25 W 101325 = Ok t /\
      GetTDewPointFromHumRatio 4 cfgSI 25 W 101325 = Ok dew /\
      __TOL cfgSI < 25 - dew /\
      Tmin SI <= dew /\ dew <= t /\ t <= 25) /\
  (exists t,
      GetTWetBulbFromTDewPoint 4 cfgSI 25 24.99 101325 = Ok t /\
      Tmin SI <= t <= 25) /\
  (exists t,
      GetTWetBulbFromRelHum 4 cfgSI 25 RelHum 101325 = Ok t /\
      Tmin SI <= t <= 25).
Proof.
  intros W RelHum.
  destruct (GetTWetBulbFromHumRatio_24_99 4 (le_n 4)) as (dew0 & t & Hdew0 & Ht & Hb).
  destruct HumRatio_24_99_facts as (HW & Hhr & _).
  fold W in Hdew0, Ht, HW, Hhr.
  destruct (wet_bulb_between_dew_point_and_dry_bulb cfgSI 4 25 101325)
    as (Hmain & Hfromdew & Hfromrh).
  split; [|split].
  - destruct (Hmain W t Ht) as (u & dew & Hu & Hdew & H1 & H2 & H3).
    inversion Hu; subst u.
    rewrite Hdew0 in Hdew. inversion Hdew; subst dew.
    exists t, dew0. repeat split; try assumption. simpl. lra.
  - assert (H : GetTWetBulbFromTDewPoint 4 cfgSI 25 24.99 101325 = Ok t).
    { unfold GetTWetBulbFromTDewPoint, reject_if.
      rewrite (proj2 (Rltb_ge 25 24.99)) by lra. rewrite Hhr. cbn [bind]. exact Ht. }
    destruct (Hfromdew 24.99 t H) as (u & Hu & Hbt).
    inversion Hu; subst u. exists t. split; assumption.
  - destruct (SatVapPres_near_25C_below_atmosphere 24.99 ltac:(lra)) as [Hpos Hlt].
    destruct (SatVapPres_near_25C_below_atmosphere 25 ltac:(lra)) as [Hpos' Hlt'].
    assert (Hle : exp (LnPws SI 24.99) <= exp (LnPws SI 25)).
    { apply exp_monotone. pose proof (LnPws_SI_secant 24.99 25). lra. }
    assert (Hrh : 0 <= RelHum <= 1).
    { split; [apply div_nonneg; lra|].
      apply Rmult_le_reg_r with (exp (LnPws SI 25)); [exact Hpos'|].
      unfold RelHum, Rdiv. rewrite Rmult_assoc, Rinv_l by lra. lra. }
    assert (H : GetTWetBulbFromRelHum 4 cfgSI 25 RelHum 101325 = Ok t).
    { unfold GetTWetBulbFromRelHum, GetHumRatioFromRelHum, GetVapPresFromRelHum,
        reject_if.
      rewrite (proj2 (Rltb_ge RelHum 0)) by lra.
      rewrite (proj2 (Rltb_ge 1 RelHum)) by lra. cbn [orb].
      rewrite (GetSatVapPres_in_range cfgSI SI 25 eq_refl)
        by (unfold Tmin, Tmax; simpl; lra).
      cbn [bind].
      replace (RelHum * exp (LnPws SI 25)) with (exp (LnPws SI 24.99))
        by (unfold RelHum; field; lra).
      rewrite GetHumRatioFromVapPres_positive by exact Hpos.
      rewrite py_div_ok by lra. cbn [bind]. exact Ht. }
    destruct (Hfromrh RelHum t H) as (u & Hu & Hbt).
    inversion Hu; subst u. exists t. split; assumption.
Defined.
